(** * Kodepos example client: [examples/python/basic/simple_search.py]

    A shallow embedding of [SimpleKodeposClient] (input validation, one
    HTTP GET per call, classification of failures) and of [format_results]
    (the text report), with the properties the specification states about
    them; then of their callers: the [__main__] block run with arguments,
    the two interactive loops and the quick demo, with what the code
    shows about errors, requests sent and output.

    Python values are modelled as the interpreter has them: a [str] is a
    sequence of Unicode code points, a [float] is an IEEE 754 binary64
    value (sign, mantissa, exponent), an [int] is unbounded, a [dict] maps
    string keys to values.  Raising is an error result; the requests sent
    and the lines printed are an explicit state that survives a raise. *)

From Stdlib Require Import List ZArith NArith QArith Qpower Lia Bool.
From Stdlib Require Import String Ascii SpecFloat Decimal.
Import ListNotations.

Set Implicit Arguments.

(** ** Python strings *)

Module PyStr.

(** A [str] is a sequence of code points; [len] counts code points. *)
Definition char := N.
Definition pystr := list char.

(** An ASCII literal of the source. *)
Definition lit (s : string) : pystr := map N_of_ascii (list_ascii_of_string s).

Definition len (s : pystr) : Z := Z.of_nat (List.length s).

(** [str.isspace] on one code point: the set [str.strip()] removes. *)
Definition isspace (c : char) : bool :=
  (((0x09 <=? c) && (c <=? 0x0D)) || ((0x1C <=? c) && (c <=? 0x20))
  || (c =? 0x85) || (c =? 0xA0) || (c =? 0x1680)
  || ((0x2000 <=? c) && (c <=? 0x200A))
  || (c =? 0x2028) || (c =? 0x2029) || (c =? 0x202F) || (c =? 0x205F)
  || (c =? 0x3000))%N.

Section Strip.
Variable drop : char -> bool.

Fixpoint lstrip_by (s : pystr) : pystr :=
  match s with
  | [] => []
  | c :: s' => if drop c then lstrip_by s' else s
  end.

Definition rstrip_by (s : pystr) : pystr := List.rev (lstrip_by (List.rev s)).

Definition strip_by (s : pystr) : pystr := rstrip_by (lstrip_by s).
End Strip.

(** [s.strip()] *)
Definition strip (s : pystr) : pystr := strip_by isspace s.

(** [s.rstrip('/')] *)
Definition rstrip_slash (s : pystr) : pystr := rstrip_by (N.eqb 0x2F%N) s.

Definition eqb (a b : pystr) : bool :=
  if list_eq_dec N.eq_dec a b then true else false.

(** [sub in s] *)
Definition contains (sub s : pystr) : Prop :=
  exists pre post, s = pre ++ sub ++ post.

Definition startswith (pre s : pystr) : Prop := exists post, s = pre ++ post.

Fixpoint startswithb (pre s : pystr) : bool :=
  match pre, s with
  | [], _ => true
  | _ :: _, [] => false
  | a :: pre', b :: s' => (a =? b)%N && startswithb pre' s'
  end.

(** Decimal digits of a [Decimal.uint], most significant first. *)
Fixpoint of_uint (u : Decimal.uint) : pystr :=
  match u with
  | Nil => []
  | D0 u => 0x30%N :: of_uint u
  | D1 u => 0x31%N :: of_uint u
  | D2 u => 0x32%N :: of_uint u
  | D3 u => 0x33%N :: of_uint u
  | D4 u => 0x34%N :: of_uint u
  | D5 u => 0x35%N :: of_uint u
  | D6 u => 0x36%N :: of_uint u
  | D7 u => 0x37%N :: of_uint u
  | D8 u => 0x38%N :: of_uint u
  | D9 u => 0x39%N :: of_uint u
  end.

(** [str(n)] for an [int]. *)
Definition of_N (n : N) : pystr := of_uint (N.to_uint n).

Definition of_Z (z : Z) : pystr :=
  match z with
  | Zneg p => 0x2D%N :: of_N (Npos p)
  | _ => of_N (Z.to_N z)
  end.

End PyStr.

Import PyStr.

(** ** Python floats *)

Module PyFloat.

(** A [float] is a binary64 value as [SpecFloat] has it: a signed zero, a
    signed infinity, NaN, or [(-1)^s * m * 2^e]. *)
Definition t := spec_float.

(** The real number a float denotes; infinities and NaN denote none. *)
Definition value (f : t) : option Q :=
  match f with
  | S754_zero _ => Some 0%Q
  | S754_finite s m e =>
      Some ((if s then -(1) else 1) * inject_Z (Zpos m) * 2 ^ e)%Q
  | S754_infinity _ | S754_nan => None
  end.

(** Comparison of a float with an [int]: exact, and undefined on NaN. *)
Definition compare_int (f : t) (k : Z) : option comparison :=
  match f with
  | S754_nan => None
  | S754_infinity s => Some (if s then Lt else Gt)
  | S754_zero _ => Some (0 ?= k)%Z
  | S754_finite s m e =>
      Some (((if s then -(1) else 1) * inject_Z (Zpos m) * 2 ^ e) ?= inject_Z k)%Q
  end.

(** [k <= f] and [f <= k] for an int [k]; both are [False] on NaN. *)
Definition int_le (k : Z) (f : t) : bool :=
  match compare_int f k with
  | Some Lt | None => false
  | Some _ => true
  end.

Definition le_int (f : t) (k : Z) : bool :=
  match compare_int f k with
  | Some Gt | None => false
  | Some _ => true
  end.

(** [bool(f)]: only the two zeros are falsy. *)
Definition truthy (f : t) : bool :=
  match f with
  | S754_zero _ => false
  | _ => true
  end.

(** [float(z)] for an int: round to nearest, ties to even, on 53 bits;
    [None] is [OverflowError]. *)
Definition of_pos (s : bool) (p : positive) : option t :=
  let n := (Z.log2 (Zpos p) + 1)%Z in
  if (n <=? 53)%Z then Some (S754_finite s p 0)
  else
    let sh := (n - 53)%Z in
    let q := (Zpos p / 2 ^ sh)%Z in
    let r := (Zpos p mod 2 ^ sh)%Z in
    let half := (2 ^ (sh - 1))%Z in
    let q' := if ((half <? r) || ((r =? half) && Z.odd q))%Z then (q + 1)%Z else q in
    if (2 ^ 1024 <=? q' * 2 ^ sh)%Z then None
    else Some (S754_finite s (Z.to_pos q') sh).

Definition of_int (z : Z) : option t :=
  match z with
  | Z0 => Some (S754_zero false)
  | Zpos p => of_pos false p
  | Zneg p => of_pos true p
  end.

(** Round a non-negative rational [a / b] to the nearest integer, ties to
    even. *)
Definition round_half_even (a b : Z) : Z :=
  let q := (a / b)%Z in
  let r := (a mod b)%Z in
  if (b <? 2 * r)%Z then (q + 1)%Z
  else if ((2 * r =? b) && Z.odd q)%Z then (q + 1)%Z
  else q.

Definition zeros (n : nat) : pystr := repeat 0x30%N n.

(** The digits of the scaled integer [n = round (|x| * 10^prec)], written
    as integer part, point, [prec] fractional digits. *)
Definition fixed_digits (prec : nat) (n : Z) : pystr :=
  let p := (10 ^ Z.of_nat prec)%Z in
  let ip := of_Z (n / p) in
  let fp := of_Z (n mod p) in
  match prec with
  | O => ip
  | _ => ip ++ lit "." ++ zeros (prec - List.length fp) ++ fp
  end.

Definition sign_str (s : bool) : pystr := if s then lit "-" else [].

(** [format(f, '.<prec>f')]: correctly rounded from the exact value. *)
Definition format_f (prec : nat) (f : t) : pystr :=
  match f with
  | S754_nan => lit "nan"
  | S754_infinity s => sign_str s ++ lit "inf"
  | S754_zero s => sign_str s ++ fixed_digits prec 0
  | S754_finite s m e =>
      let scaled := (Zpos m * 10 ^ Z.of_nat prec)%Z in
      let n := if (0 <=? e)%Z then (scaled * 2 ^ e)%Z
               else round_half_even scaled (2 ^ (- e)) in
      sign_str s ++ fixed_digits prec n
  end.

(** Floats that are whole numbers below [1e16] print as the integer
    followed by [.0]; for the rest [repr] needs the shortest round-trip
    digits, which the caller supplies. *)
Definition whole (f : t) : option Z :=
  match f with
  | S754_zero _ => Some 0%Z
  | S754_finite s m e =>
      let n := if (0 <=? e)%Z then (Zpos m * 2 ^ e)%Z else (Zpos m / 2 ^ (- e))%Z in
      let exact := ((0 <=? e) || (Zpos m mod 2 ^ (- e) =? 0))%Z in
      if (exact && (n <? 10 ^ 16))%Z then Some n else None
  | _ => None
  end.

Definition sign (f : t) : bool :=
  match f with
  | S754_zero s | S754_infinity s | S754_finite s _ _ => s
  | S754_nan => false
  end.

End PyFloat.

(** ** Exceptions *)

(** The exception classes the program meets: builtins and those of the
    [requests] package. *)
Inductive ExcClass :=
| ValueError | TypeError | AttributeError | OverflowError | KeyError
| RequestException | HTTPError | ConnectionError | ProxyError | SSLError
| Timeout | ConnectTimeout | ReadTimeout | TooManyRedirects
| JSONDecodeError.

Definition ExcClass_eq_dec (a b : ExcClass) : {a = b} + {a <> b}.
Proof. decide equality. Defined.

Definition class_eqb (a b : ExcClass) : bool :=
  if ExcClass_eq_dec a b then true else false.

(** Direct base classes, as [requests.exceptions] declares them
    ([ConnectTimeout] has two; [JSONDecodeError] is also a [ValueError]). *)
Definition bases (c : ExcClass) : list ExcClass :=
  match c with
  | HTTPError | ConnectionError | Timeout | TooManyRedirects => [RequestException]
  | ProxyError | SSLError => [ConnectionError]
  | ConnectTimeout => [ConnectionError; Timeout]
  | ReadTimeout => [Timeout]
  | JSONDecodeError => [RequestException; ValueError]
  | ValueError | TypeError | AttributeError | OverflowError | KeyError
  | RequestException => []
  end.

(** [issubclass c d]; the hierarchy is three levels deep. *)
Definition issubclass (c d : ExcClass) : bool :=
  class_eqb c d
  || existsb (fun b => class_eqb b d || existsb (fun b' => class_eqb b' d) (bases b))
       (bases c).

(** An exception object: its class, its message, the status code of the
    response attached to it (an [HTTPError] raised by [raise_for_status]
    has one), and the exception being handled when it was raised
    ([__context__]). *)
Unset Elimination Schemes.
Inductive PyExc :=
| Exc (cls : ExcClass) (msg : pystr) (status : option Z) (context : option PyExc).
Set Elimination Schemes.

Definition exc_class (e : PyExc) : ExcClass := let (c, _, _, _) := e in c.
Definition exc_msg (e : PyExc) : pystr := let (_, m, _, _) := e in m.
Definition exc_status (e : PyExc) : option Z := let (_, _, s, _) := e in s.
Definition exc_context (e : PyExc) : option PyExc := let (_, _, _, c) := e in c.

(** ** Computations that raise and keep a log

    [M St A]: a computation over a state [St] (the requests sent so far,
    or the lines printed so far) that returns an [A] or raises.  The state
    reached when the exception is raised is kept. *)

Module Eff.

Definition M (St A : Type) : Type := St -> (PyExc + A) * St.

Definition ret {St A} (a : A) : M St A := fun s => (inr a, s).

Definition bind {St A B} (m : M St A) (k : A -> M St B) : M St B :=
  fun s =>
    match m s with
    | (inr a, s') => k a s'
    | (inl e, s') => (inl e, s')
    end.

(** [raise cls(msg)] outside any handler. *)
Definition raise {St A} (c : ExcClass) (msg : pystr) : M St A :=
  fun s => (inl (Exc c msg None None), s).

(** [raise cls(msg)] inside the handler of [e]. *)
Definition raise_in_handler {St A} (e : PyExc) (c : ExcClass) (msg : pystr)
  : M St A :=
  fun s => (inl (Exc c msg None (Some e)), s).

(** Re-raise an exception object as it is. *)
Definition throw {St A} (e : PyExc) : M St A := fun s => (inl e, s).

(** Append one entry to the log. *)
Definition emit {St} (x : St) : M (list St) unit := fun s => (inr tt, s ++ [x]).

(** [try: m  except ...]: [handler e] is the body of the first clause
    that matches [e], if one does. *)
Definition try_except {St A} (m : M St A) (handler : PyExc -> option (M St A))
  : M St A :=
  fun s =>
    match m s with
    | (inl e, s') =>
        match handler e with
        | Some h => h s'
        | None => (inl e, s')
        end
    | r => r
    end.

End Eff.

Import Eff.

Declare Scope eff_scope.
Delimit Scope eff_scope with eff.
Notation "x <- m ;; k" := (bind m (fun x => k))
  (at level 61, m at next level, right associativity) : eff_scope.
Notation "m ;; k" := (bind m (fun _ => k))
  (at level 61, right associativity) : eff_scope.
Open Scope eff_scope.

(** ** Python values *)

(** What [response.json()] can return, and so what a record field can
    hold.  A [dict] is kept as its items; [dict_get] finds a key. *)
Unset Elimination Schemes.
Inductive PyValue :=
| VNone
| VBool (b : bool)
| VInt (z : Z)
| VFloat (f : PyFloat.t)
| VStr (s : pystr)
| VList (l : list PyValue)
| VDict (d : list (pystr * PyValue)).
Set Elimination Schemes.

Definition PyDict := list (pystr * PyValue).

(** [bool(v)] *)
Definition truthy (v : PyValue) : bool :=
  match v with
  | VNone => false
  | VBool b => b
  | VInt z => negb (z =? 0)%Z
  | VFloat f => PyFloat.truthy f
  | VStr s => match s with [] => false | _ => true end
  | VList l => match l with [] => false | _ => true end
  | VDict d => match d with [] => false | _ => true end
  end.

(** [isinstance(v, str)] *)
Definition isinstance_str (v : PyValue) : bool :=
  match v with
  | VStr _ => true
  | _ => false
  end.

(** The characters of a [str] value. *)
Definition str_chars (v : PyValue) : pystr :=
  match v with
  | VStr s => s
  | _ => []
  end.

Fixpoint dict_lookup (d : PyDict) (k : pystr) : option PyValue :=
  match d with
  | [] => None
  | (k', v) :: d' => if PyStr.eqb k' k then Some v else dict_lookup d' k
  end.

(** [d.get(k, default)] *)
Definition dict_get (d : PyDict) (k : pystr) (default : PyValue) : PyValue :=
  match dict_lookup d k with
  | Some v => v
  | None => default
  end.

(** [d[k] = v]: a key already there keeps its place, a new one goes to
    the end. *)
Fixpoint dict_set {V} (d : list (pystr * V)) (k : pystr) (v : V)
  : list (pystr * V) :=
  match d with
  | [] => [(k, v)]
  | (k', v') :: d' =>
      if PyStr.eqb k' k then (k, v) :: d' else (k', v') :: dict_set d' k v
  end.

(** [d.update(other)]: the items of [other] are set one after the
    other. *)
Definition dict_update {V} (d other : list (pystr * V)) : list (pystr * V) :=
  fold_left (fun acc kv => dict_set acc (fst kv) (snd kv)) other d.

(** ** The client *)

Definition API_BASE_URL : pystr := lit "https://your-api.workers.dev".
Definition TIMEOUT_SECONDS : Z := 10.
Definition USER_AGENT : pystr := lit "Kodepos-Python-Example/1.0".

(** One outbound GET: [session.get(url, params=params, timeout=timeout)]
    with the session's headers. *)
Record Request := {
  req_url : pystr;
  req_params : PyDict;
  req_headers : list (pystr * pystr);
  req_timeout : Z
}.

(** What comes back: the status line, and the body as [json()] decodes it
    (the decoder's message when the body is not JSON). *)
Record Response := {
  status_code : Z;
  reason : pystr;
  url : pystr;
  json_body : pystr + PyValue
}.

(** The outcome of one GET: the transport raises, or a response arrives. *)
Inductive Outcome :=
| Failure (e : PyExc)
| Reply (r : Response).

Definition Transport := Request -> Outcome.

(** The state of a client operation is the list of requests sent. *)
Definition Net := M (list Request).

Record SimpleKodeposClient := {
  base_url : pystr;
  session : list (pystr * pystr)
}.

(** The headers a fresh [requests.Session] starts with; the client
    replaces the first three. *)
Definition session_default_headers : list (pystr * pystr) :=
  [ (lit "User-Agent", lit "python-requests");
    (lit "Accept-Encoding", lit "gzip, deflate");
    (lit "Accept", lit "*/*");
    (lit "Connection", lit "keep-alive") ].

(** [SimpleKodeposClient.__init__] *)
Definition init (base : pystr) : SimpleKodeposClient :=
  {| base_url := rstrip_slash base;
     session := dict_update session_default_headers
                  [ (lit "User-Agent", USER_AGENT);
                    (lit "Accept", lit "application/json");
                    (lit "Accept-Encoding", lit "gzip, deflate") ] |}.

(** The request [self.session.get(u, params=params, timeout=timeout)]
    sends. *)
Definition build_request (self : SimpleKodeposClient) (u : pystr)
    (params : PyDict) (timeout : Z) : Request :=
  {| req_url := u; req_params := params;
     req_headers := session self; req_timeout := timeout |}.

Section Client.
Variable net : Transport.

(** [self.session.get(...)]: the request goes out, then the transport
    answers or raises. *)
Definition session_get (self : SimpleKodeposClient) (u : pystr)
    (params : PyDict) (timeout : Z) : Net Response :=
  let req := build_request self u params timeout in
  emit req ;;
  match net req with
  | Failure e => throw e
  | Reply r => ret r
  end.

(** [response.raise_for_status()]: raises for 4xx and 5xx only. *)
Definition raise_for_status (r : Response) : Net unit :=
  let code := status_code r in
  if ((400 <=? code) && (code <? 500))%Z then
    throw (Exc HTTPError
             (of_Z code ++ lit " Client Error: " ++ reason r ++ lit " for url: " ++ url r)
             (Some code) None)
  else if ((500 <=? code) && (code <? 600))%Z then
    throw (Exc HTTPError
             (of_Z code ++ lit " Server Error: " ++ reason r ++ lit " for url: " ++ url r)
             (Some code) None)
  else ret tt.

(** [response.json()] *)
Definition json (r : Response) : Net PyValue :=
  match json_body r with
  | inr v => ret v
  | inl m => raise JSONDecodeError m
  end.

(** The three [except] clauses both operations end with, in source
    order; each raises a plain [RequestException]. *)
Definition request_handlers (e : PyExc) : option (Net PyValue) :=
  if issubclass (exc_class e) Timeout then
    Some (raise_in_handler e RequestException
            (lit "Request timeout after " ++ of_Z TIMEOUT_SECONDS ++ lit " seconds"))
  else if issubclass (exc_class e) ConnectionError then
    Some (raise_in_handler e RequestException (lit "Failed to connect to API"))
  else if issubclass (exc_class e) HTTPError then
    Some (match exc_status e with
          | Some code =>
              raise_in_handler e RequestException (lit "HTTP error: " ++ of_Z code)
          | None =>
              raise_in_handler e AttributeError
                (lit "'NoneType' object has no attribute 'status_code'")
          end)
  else None.

(** The [try] block both operations share. *)
Definition get_json (self : SimpleKodeposClient) (u : pystr) (params : PyDict)
  : Net PyValue :=
  try_except
    (response <- session_get self u params TIMEOUT_SECONDS ;;
     raise_for_status response ;;
     json response)
    request_handlers.

(** [SimpleKodeposClient.search_postal_codes] *)
Definition search_postal_codes (self : SimpleKodeposClient) (query : PyValue)
  : Net PyValue :=
  if negb (truthy query) || negb (isinstance_str query) then
    raise ValueError (lit "Query must be a non-empty string")
  else
    let query := strip (str_chars query) in
    if (len query <? 2)%Z then
      raise ValueError (lit "Query must be at least 2 characters long")
    else
      let u := base_url self ++ lit "/search" in
      let params := [(lit "q", VStr query)] in
      get_json self u params.

(** [SimpleKodeposClient.detect_location] *)
Definition detect_location (self : SimpleKodeposClient)
    (latitude longitude : PyFloat.t) : Net PyValue :=
  if negb (PyFloat.int_le (-11) latitude && PyFloat.le_int latitude 6) then
    raise ValueError
      (lit "Latitude must be between -11 and 6 degrees (Indonesian bounds)")
  else if negb (PyFloat.int_le 95 longitude && PyFloat.le_int longitude 141) then
    raise ValueError
      (lit "Longitude must be between 95 and 141 degrees (Indonesian bounds)")
  else
    let u := base_url self ++ lit "/detect" in
    let params := [(lit "latitude", VFloat latitude);
                   (lit "longitude", VFloat longitude)] in
    get_json self u params.

End Client.

(** ** The report *)

(** The state of [format_results] is what it has printed: one entry per
    [print] call, in order, without the newline [print] adds. *)
Definition Out := M (list pystr).

(** [print(s)] on a stdout that takes the text: the encoding is UTF-8 and
    [s] holds no lone surrogate (see [encodable] below; on one, the real
    [print] raises [UnicodeEncodeError]). *)
Definition print (s : pystr) : Out unit := emit s.

(** [type(v).__name__] *)
Definition type_name (v : PyValue) : pystr :=
  match v with
  | VNone => lit "NoneType"
  | VBool _ => lit "bool"
  | VInt _ => lit "int"
  | VFloat _ => lit "float"
  | VStr _ => lit "str"
  | VList _ => lit "list"
  | VDict _ => lit "dict"
  end.

(** [format(v, '.<prec>f')], the [{v:.6f}] and [{v:.3f}] of the source:
    numbers are converted to float and printed; the other types raise. *)
Definition format_fixed {St} (prec : nat) (v : PyValue) : M St pystr :=
  match v with
  | VFloat f => ret (PyFloat.format_f prec f)
  | VInt z =>
      match PyFloat.of_int z with
      | Some f => ret (PyFloat.format_f prec f)
      | None => raise OverflowError (lit "int too large to convert to float")
      end
  | VBool b =>
      ret (PyFloat.format_f prec
             (if b then S754_finite false 1 0 else S754_zero false))
  | VStr _ =>
      raise ValueError (lit "Unknown format code 'f' for object of type 'str'")
  | VNone | VList _ | VDict _ =>
      raise TypeError
        (lit "unsupported format string passed to " ++ type_name v ++ lit ".__format__")
  end.

(** The items of [item] when it is a dict: [item.get] and [item[...]]
    exist on dicts only. *)
Definition as_dict {St} (item : PyValue) (attr : pystr) : M St PyDict :=
  match item with
  | VDict d => ret d
  | _ =>
      raise AttributeError
        (lit "'" ++ type_name item ++ lit "' object has no attribute '" ++ attr ++ lit "'")
  end.

(** [item.get(k)] and [item.get(k, default)] *)
Definition item_get {St} (item : PyValue) (k : pystr) (default : PyValue)
  : M St PyValue :=
  d <- as_dict item (lit "get") ;;
  ret (dict_get d k default).

(** [item[k]] on a dict *)
Definition item_subscript {St} (d : PyDict) (k : pystr) : M St PyValue :=
  match dict_lookup d k with
  | Some v => ret v
  | None => raise KeyError (lit "'" ++ k ++ lit "'")
  end.

(** The emoji of the report, as code points. *)
Definition CLIPBOARD : pystr := [0x1F4CB%N].
Definition HOUSE : pystr := [0x1F3E0%N].
Definition PIN : pystr := [0x1F4CD%N].
Definition HOUSES : pystr := [0x1F3D8%N; 0xFE0F%N].
Definition CITY : pystr := [0x1F306%N].
Definition WORLD_MAP : pystr := [0x1F5FA%N; 0xFE0F%N].
Definition COMPASS : pystr := [0x1F9ED%N].
Definition MOUNTAIN : pystr := [0x26F0%N; 0xFE0F%N].
Definition CLOCK : pystr := [0x1F550%N].
Definition RULER : pystr := [0x1F4CF%N].

Definition NL : pystr := [0x0A%N].

Definition NA : PyValue := VStr (lit "N/A").

(** The fixed text each line of a block starts with. *)
Definition village_prefix (index : Z) : pystr :=
  NL ++ of_Z index ++ lit ". " ++ HOUSE ++ lit " ".
Definition code_prefix : pystr := lit "   " ++ PIN ++ lit " Postal Code: ".
Definition district_prefix : pystr := lit "   " ++ HOUSES ++ lit "  District: ".
Definition regency_prefix : pystr := lit "   " ++ CITY ++ lit " Regency: ".
Definition province_prefix : pystr := lit "   " ++ WORLD_MAP ++ lit "  Province: ".
Definition coordinates_prefix : pystr := lit "   " ++ COMPASS ++ lit " Coordinates: ".
Definition elevation_prefix : pystr := lit "   " ++ MOUNTAIN ++ lit "  Elevation: ".
Definition timezone_prefix : pystr := lit "   " ++ CLOCK ++ lit " Timezone: ".
Definition distance_prefix : pystr := lit "   " ++ RULER ++ lit " Distance: ".

Definition header (count : Z) : pystr :=
  NL ++ CLIPBOARD ++ lit " Found " ++ of_Z count ++ lit " results:".

(** ["=" * 60] *)
Definition separator : pystr := repeat 0x3D%N 60.

Definition NO_RESULTS : pystr := lit "No results found.".

Section Render.
(** [repr] of the values whose text the report does not depend on:
    floats that are not whole numbers, lists and dicts. *)
Variable repr_other : PyValue -> pystr.

(** [str(v)], what [{v}] puts in an f-string, for an [int] below the
    interpreter's limit on digits (see [printable] below; above it, the
    real [str] raises [ValueError]). *)
Definition py_str (v : PyValue) : pystr :=
  match v with
  | VNone => lit "None"
  | VBool b => if b then lit "True" else lit "False"
  | VInt z => of_Z z
  | VStr s => s
  | VFloat f =>
      match PyFloat.whole f with
      | Some n => PyFloat.sign_str (PyFloat.sign f) ++ of_Z n ++ lit ".0"
      | None =>
          match f with
          | S754_nan => lit "nan"
          | S754_infinity s => PyFloat.sign_str s ++ lit "inf"
          | _ => repr_other v
          end
      end
  | VList _ | VDict _ => repr_other v
  end.

(** The body of the [for] loop: one record's block. *)
Definition format_item (index : Z) (item : PyValue) : Out unit :=
  village <- item_get item (lit "village") NA ;;
  print (village_prefix index ++ py_str village) ;;
  code <- item_get item (lit "code") NA ;;
  print (code_prefix ++ py_str code) ;;
  district <- item_get item (lit "district") NA ;;
  print (district_prefix ++ py_str district) ;;
  regency <- item_get item (lit "regency") NA ;;
  print (regency_prefix ++ py_str regency) ;;
  province <- item_get item (lit "province") NA ;;
  print (province_prefix ++ py_str province) ;;
  lat <- item_get item (lit "latitude") VNone ;;
  lng <- item_get item (lit "longitude") VNone ;;
  (if truthy lat && truthy lng then
     slat <- format_fixed 6 lat ;;
     slng <- format_fixed 6 lng ;;
     print (coordinates_prefix ++ slat ++ lit ", " ++ slng)
   else ret tt) ;;
  elevation <- item_get item (lit "elevation") VNone ;;
  (if truthy elevation then
     d <- as_dict item (lit "__getitem__") ;;
     v <- item_subscript d (lit "elevation") ;;
     print (elevation_prefix ++ py_str v ++ lit "m")
   else ret tt) ;;
  timezone <- item_get item (lit "timezone") VNone ;;
  (if truthy timezone then
     d <- as_dict item (lit "__getitem__") ;;
     v <- item_subscript d (lit "timezone") ;;
     print (timezone_prefix ++ py_str v)
   else ret tt) ;;
  distance <- item_get item (lit "distance") VNone ;;
  (if truthy distance then
     d <- as_dict item (lit "__getitem__") ;;
     v <- item_subscript d (lit "distance") ;;
     s <- format_fixed 3 v ;;
     print (distance_prefix ++ s ++ lit " km")
   else ret tt).

(** [for index, item in enumerate(results, index): ...] *)
Fixpoint format_items (index : Z) (results : list PyValue) : Out unit :=
  match results with
  | [] => ret tt
  | item :: rest =>
      format_item index item ;;
      format_items (index + 1) rest
  end.

(** [format_results] *)
Definition format_results (results : list PyValue) : Out unit :=
  match results with
  | [] => print NO_RESULTS
  | _ :: _ =>
      print (header (Z.of_nat (List.length results))) ;;
      print separator ;;
      format_items 1 results
  end.

End Render.

(** The block [format_item] prints for a record, written as a list: the
    five fixed lines, then the optional ones. *)
Module Block.

Definition is_number (v : PyValue) : bool :=
  match v with
  | VFloat _ | VBool _ => true
  | VInt z => match PyFloat.of_int z with Some _ => true | None => false end
  | _ => false
  end.

(** The text [format_fixed] returns on a number. *)
Definition fixed_text (prec : nat) (v : PyValue) : pystr :=
  match v with
  | VFloat f => PyFloat.format_f prec f
  | VInt z =>
      match PyFloat.of_int z with
      | Some f => PyFloat.format_f prec f
      | None => []
      end
  | VBool b =>
      PyFloat.format_f prec (if b then S754_finite false 1 0 else S754_zero false)
  | _ => []
  end.

Definition field (d : PyDict) (k : pystr) : PyValue := dict_get d k VNone.

Section Lines.
Variable repr_other : PyValue -> pystr.
Variable index : Z.
Variable d : PyDict.

Definition fixed_lines : list pystr :=
  [ village_prefix index ++ py_str repr_other (dict_get d (lit "village") NA);
    code_prefix ++ py_str repr_other (dict_get d (lit "code") NA);
    district_prefix ++ py_str repr_other (dict_get d (lit "district") NA);
    regency_prefix ++ py_str repr_other (dict_get d (lit "regency") NA);
    province_prefix ++ py_str repr_other (dict_get d (lit "province") NA) ].

Definition coordinates_lines : list pystr :=
  if truthy (field d (lit "latitude")) && truthy (field d (lit "longitude")) then
    [ coordinates_prefix ++ fixed_text 6 (field d (lit "latitude"))
        ++ lit ", " ++ fixed_text 6 (field d (lit "longitude")) ]
  else [].

Definition elevation_lines : list pystr :=
  if truthy (field d (lit "elevation")) then
    [ elevation_prefix ++ py_str repr_other (field d (lit "elevation")) ++ lit "m" ]
  else [].

Definition timezone_lines : list pystr :=
  if truthy (field d (lit "timezone")) then
    [ timezone_prefix ++ py_str repr_other (field d (lit "timezone")) ]
  else [].

Definition distance_lines : list pystr :=
  if truthy (field d (lit "distance")) then
    [ distance_prefix ++ fixed_text 3 (field d (lit "distance")) ++ lit " km" ]
  else [].

Definition lines : list pystr :=
  fixed_lines ++ coordinates_lines ++ elevation_lines ++ timezone_lines
  ++ distance_lines.
End Lines.

Definition of_item (repr_other : PyValue -> pystr) (index : Z) (item : PyValue)
  : list pystr :=
  match item with
  | VDict d => lines repr_other index d
  | _ => []
  end.

(** [enumerate(results, start)] *)
Fixpoint enumerate {A} (start : Z) (l : list A) : list (Z * A) :=
  match l with
  | [] => []
  | x :: l' => (start, x) :: enumerate (start + 1) l'
  end.

(** The blocks of a whole report, one per item, numbered from 1. *)
Definition all (repr_other : PyValue -> pystr) (results : list PyValue)
  : list (list pystr) :=
  map (fun p => of_item repr_other (fst p) (snd p)) (enumerate 1 results).

End Block.

(** ** Records

    A record as the service sends it: a JSON object in which [latitude],
    [longitude] and [distance], when present and not [null], are numbers
    (a JSON integer has to fit a float).  Every other field may hold any
    value or be missing. *)
Definition optional_number (d : PyDict) (k : pystr) : bool :=
  match dict_lookup d k with
  | None | Some VNone => true
  | Some v => Block.is_number v
  end.

Definition is_record (item : PyValue) : bool :=
  match item with
  | VDict d =>
      optional_number d (lit "latitude") && optional_number d (lit "longitude")
      && optional_number d (lit "distance")
  | _ => false
  end.

(** ** Values that print

    Two things can stop the real [print] of a field.  Its text is encoded
    for stdout, and UTF-8 has no encoding for a lone surrogate
    ([U+D800..U+DFFF]), which a JSON escape such as [\ud83d] puts in a
    string: [print] raises [UnicodeEncodeError].  And [str] of an [int] of
    more than 4300 digits raises [ValueError] (the default limit of
    CPython 3.11).  A list or a dict is printed through [repr], which
    walks the whole value.  What is proved of the report is proved for
    records whose text fields hold none of these: [None], a [bool], a
    [float], an [int] of at most 4300 digits, or a string without
    surrogates. *)
Definition encodable (s : pystr) : bool :=
  forallb (fun c => (c <? 0xD800) || (0xDFFF <? c))%N s.

Definition printable (v : PyValue) : bool :=
  match v with
  | VNone | VBool _ | VFloat _ => true
  | VInt z => (len (of_Z (Z.abs z)) <=? 4300)%Z
  | VStr s => encodable s
  | VList _ | VDict _ => false
  end.

(** The fields [format_results] prints with [str]. *)
Definition text_fields : list pystr :=
  [ lit "village"; lit "code"; lit "district"; lit "regency"; lit "province";
    lit "elevation"; lit "timezone" ].

Definition printable_record (item : PyValue) : bool :=
  match item with
  | VDict d => forallb (fun k => printable (dict_get d k VNone)) text_fields
  | _ => false
  end.

(** An elevation of fifty: the JSON number [50], or a float that prints as
    [50.0]. *)
Definition is_fifty (v : PyValue) : Prop :=
  v = VInt 50
  \/ exists f, v = VFloat f /\ PyFloat.whole f = Some 50%Z /\ PyFloat.sign f = false.

(** [f] lies in the closed interval [[lo, hi]]: it denotes a real number,
    and that number is between the bounds. *)
Definition in_interval (lo hi : Z) (f : PyFloat.t) : Prop :=
  exists q, PyFloat.value f = Some q /\ (inject_Z lo <= q /\ q <= inject_Z hi)%Q.

(** ** Calls that pass validation

    [valid_call net self call req]: [call] is one of the two operations
    on an input its validation accepts, and [req] is the request it
    builds. *)
Definition search_request (self : SimpleKodeposClient) (q : pystr) : Request :=
  build_request self (base_url self ++ lit "/search")
    [(lit "q", VStr (strip q))] TIMEOUT_SECONDS.

Definition detect_request (self : SimpleKodeposClient)
    (latitude longitude : PyFloat.t) : Request :=
  build_request self (base_url self ++ lit "/detect")
    [(lit "latitude", VFloat latitude); (lit "longitude", VFloat longitude)]
    TIMEOUT_SECONDS.

Definition valid_call (net : Transport) (self : SimpleKodeposClient)
    (call : Net PyValue) (req : Request) : Prop :=
  (exists q, (2 <= len (strip q))%Z
             /\ call = search_postal_codes net self (VStr q)
             /\ req = search_request self q)
  \/ (exists latitude longitude,
        in_interval (-11) 6 latitude /\ in_interval 95 141 longitude
        /\ call = detect_location net self latitude longitude
        /\ req = detect_request self latitude longitude).

(** ** Sample inputs *)

Module Sample.

Definition client : SimpleKodeposClient := init API_BASE_URL.

Definition jakarta : PyValue := VStr (lit "Jakarta").

(** -6.25 and 106.75 *)
Definition lat : PyFloat.t := S754_finite true 25 (-2).
Definition lng : PyFloat.t := S754_finite false 427 (-2).

(** 7.5: north of the box. *)
Definition lat_north : PyFloat.t := S754_finite false 15 (-1).

Definition envelope_404 : PyValue :=
  VDict [(lit "statusCode", VInt 404); (lit "error", VStr (lit "Not found"))].

Definition reply_404 : Response :=
  {| status_code := 404; reason := lit "Not Found";
     url := lit "https://your-api.workers.dev/search?q=Jakarta";
     json_body := inr envelope_404 |}.

Definition menteng : PyValue :=
  VDict [(lit "village", VStr (lit "Menteng")); (lit "code", VStr (lit "10110"));
         (lit "district", VStr (lit "Menteng"));
         (lit "regency", VStr (lit "Jakarta Pusat"));
         (lit "province", VStr (lit "DKI Jakarta"))].

Definition envelope_200 : PyValue :=
  VDict [(lit "statusCode", VInt 200); (lit "data", VList [menteng])].

Definition reply_200 : Response :=
  {| status_code := 200; reason := lit "OK";
     url := lit "https://your-api.workers.dev/search?q=Jakarta";
     json_body := inr envelope_200 |}.

Definition read_timeout : PyExc := Exc ReadTimeout (lit "Read timed out.") None None.
Definition refused : PyExc := Exc ConnectionError (lit "Connection refused") None None.

Definition net_404 : Transport := fun _ => Reply reply_404.
Definition net_200 : Transport := fun _ => Reply reply_200.
Definition net_timeout : Transport := fun _ => Failure read_timeout.
Definition net_refused : Transport := fun _ => Failure refused.

(** A record on the equator: latitude 0.0, longitude 109.25. *)
Definition pontianak : PyValue :=
  VDict [(lit "village", VStr (lit "Siantan")); (lit "code", VStr (lit "78242"));
         (lit "latitude", VFloat (S754_zero false));
         (lit "longitude", VFloat (S754_finite false 437 (-2)))].

(** The same place a quarter of a degree south: latitude -0.25. *)
Definition south_of_pontianak : PyValue :=
  VDict [(lit "village", VStr (lit "Siantan")); (lit "code", VStr (lit "78242"));
         (lit "latitude", VFloat (S754_finite true 1 (-2)));
         (lit "longitude", VFloat (S754_finite false 437 (-2)))].

Definition with_elevation : PyValue :=
  VDict [(lit "village", VStr (lit "Menteng")); (lit "elevation", VInt 50)].

Definition no_repr : PyValue -> pystr := fun _ => [].

End Sample.

(** ** The command line

    The [__main__] block when arguments are given ([len(sys.argv) > 1]):
    one argument is a search, two are coordinates.  The script prints and
    sends requests, so its state holds both logs.  [KeyboardInterrupt] is
    left out: no exception here comes from outside the program. *)
Record World := { stdout : list pystr; requests : list Request }.

Definition Script := M World.

Definition on_out {A} (m : Out A) : Script A :=
  fun w =>
    let (r, out) := m (stdout w) in (r, {| stdout := out; requests := requests w |}).

Definition on_net {A} (m : Net A) : Script A :=
  fun w =>
    let (r, log) := m (requests w) in (r, {| stdout := stdout w; requests := log |}).

(** A computation that sends nothing, and one that sends at most one
    request. *)
Definition quiet {A} (m : Script A) : Prop :=
  forall w, requests (snd (m w)) = requests w.

Definition one_request {A} (m : Script A) : Prop :=
  forall w, exists more,
    requests (snd (m w)) = requests w ++ more /\ (List.length more <= 1)%nat.

(** [v == n] for an int [n]: numbers compare by value, the rest is
    unequal. *)
Definition eq_int (v : PyValue) (n : Z) : bool :=
  match v with
  | VInt z => (z =? n)%Z
  | VBool b => ((if b then 1 else 0) =? n)%Z
  | VFloat f =>
      match PyFloat.compare_int f n with
      | Some Eq => true
      | _ => false
      end
  | _ => false
  end.

(** [len(v)] *)
Definition py_len {St} (v : PyValue) : M St Z :=
  match v with
  | VStr s => ret (len s)
  | VList l => ret (Z.of_nat (List.length l))
  | VDict d => ret (Z.of_nat (List.length d))
  | _ =>
      raise TypeError
        (lit "object of type '" ++ type_name v ++ lit "' has no len()")
  end.

(** What [for item in v] goes through: the items of a list, the
    characters of a string, the keys of a dict. *)
Definition py_iter {St} (v : PyValue) : M St (list PyValue) :=
  match v with
  | VList l => ret l
  | VStr s => ret (map (fun c => VStr [c]) s)
  | VDict d => ret (map (fun kv => VStr (fst kv)) d)
  | _ => raise TypeError (lit "'" ++ type_name v ++ lit "' object is not iterable")
  end.

Definition MAGNIFIER : pystr := [0x1F50D%N].
Definition CROSS : pystr := [0x274C%N].

Definition SEARCHING : pystr := MAGNIFIER ++ lit " Searching for: ".
Definition DETECTING : pystr := PIN ++ lit " Detecting location: ".
Definition ERROR_PREFIX : pystr := CROSS ++ lit " Error: ".
Definition INVALID_COORDINATES : pystr :=
  CROSS ++ lit " Invalid coordinates. Use: python simple_search.py latitude longitude".
Definition UNEXPECTED_PREFIX : pystr := NL ++ CROSS ++ lit " Unexpected error: ".

Section Main.
Variable net : Transport.
Variable repr_other : PyValue -> pystr.
(** [float(s)] on a string: the float, or the message of its
    [ValueError]. *)
Variable float_of_str : pystr -> pystr + PyFloat.t.

(** [format_results] on what the caller passes, which is any JSON value:
    the annotation of the parameter is not checked. *)
Definition format_results_value (results : PyValue) : Out unit :=
  if negb (truthy results) then print NO_RESULTS
  else
    n <- py_len results ;;
    print (header n) ;;
    print separator ;;
    items <- py_iter results ;;
    format_items repr_other 1 items.

Definition float (s : pystr) : Script PyFloat.t :=
  match float_of_str s with
  | inr f => ret f
  | inl msg => raise ValueError msg
  end.

(** [len(sys.argv) == 2] *)
Definition search_branch (query : pystr) : Script unit :=
  let client := init API_BASE_URL in
  on_out (print (SEARCHING ++ query)) ;;
  results <- on_net (search_postal_codes net client (VStr query)) ;;
  status <- item_get results (lit "statusCode") VNone ;;
  (if eq_int status 200 then
     data <- item_get results (lit "data") (VList []) ;;
     on_out (format_results_value data)
   else
     err <- item_get results (lit "error") (VStr (lit "Unknown error")) ;;
     on_out (print (ERROR_PREFIX ++ py_str repr_other err))).

(** [results.get('statusCode') == 200 and results.get('data')], as a
    condition *)
Definition found (results : PyValue) : Script bool :=
  status <- item_get results (lit "statusCode") VNone ;;
  (if eq_int status 200 then
     data <- item_get results (lit "data") VNone ;;
     ret (truthy data)
   else ret false).

(** [except ValueError:], the handler of the coordinates branch *)
Definition usage_handler (e : PyExc) : option (Script unit) :=
  if issubclass (exc_class e) ValueError then
    Some (on_out (print INVALID_COORDINATES))
  else None.

(** [len(sys.argv) == 3] *)
Definition detect_branch (a b : pystr) : Script unit :=
  let client := init API_BASE_URL in
  try_except
    (latitude <- float a ;;
     longitude <- float b ;;
     on_out (print (DETECTING ++ py_str repr_other (VFloat latitude)
                      ++ lit ", " ++ py_str repr_other (VFloat longitude))) ;;
     results <- on_net (detect_location net client latitude longitude) ;;
     ok <- found results ;;
     (if ok then
        d <- as_dict results (lit "__getitem__") ;;
        data <- item_subscript d (lit "data") ;;
        on_out (format_results repr_other [data])
      else
        err <- item_get results (lit "error") (VStr (lit "No location found")) ;;
        on_out (print (ERROR_PREFIX ++ py_str repr_other err))))
    usage_handler.

(** The body of the outer [try] for the arguments [first :: others]
    ([sys.argv[1:]]); with three arguments or more neither branch is
    taken. *)
Definition dispatch (first : pystr) (others : list pystr) : Script unit :=
  match others with
  | [] => search_branch first
  | [second] => detect_branch first second
  | _ => ret tt
  end.

(** The block as a whole: the exit status, and the world it leaves.  The
    status is 0 when the body ends, 1 from [sys.exit(1)] in the handler
    of [Exception]. *)
Definition main_block (first : pystr) (others : list pystr) (w : World)
  : Z * World :=
  match dispatch first others w with
  | (inr _, w') => (0%Z, w')
  | (inl e, w') =>
      (1%Z, {| stdout := stdout w' ++ [UNEXPECTED_PREFIX ++ exc_msg e];
               requests := requests w' |})
  end.
End Main.

(** Sample command lines. *)
Module SampleArgs.

(** [float] on the three strings used below. *)
Definition float_of_str (s : pystr) : pystr + PyFloat.t :=
  if PyStr.eqb s (lit "-6.25") then inr Sample.lat
  else if PyStr.eqb s (lit "106.75") then inr Sample.lng
  else if PyStr.eqb s (lit "7.5") then inr Sample.lat_north
  else inl (lit "could not convert string to float").

(** [repr] of the same three floats. *)
Definition repr (v : PyValue) : pystr :=
  match v with
  | VFloat (S754_finite false 15%positive (Zneg 1)) => lit "7.5"
  | VFloat (S754_finite true 25%positive (Zneg 2)) => lit "-6.25"
  | VFloat (S754_finite false 427%positive (Zneg 2)) => lit "106.75"
  | _ => []
  end.

Definition start : World := {| stdout := []; requests := [] |}.

Definition not_json : Transport :=
  fun _ => Reply {| status_code := 200; reason := lit "OK"; url := [];
                    json_body := inl (lit "Expecting value") |}.

End SampleArgs.

(** ** The interactive modes

    The keyboard is the list of lines still to be typed: [input] takes
    the first, and raises [EOFError] when there is none.  Its prompt is
    not a [print] call and is not in the log.  A loop returns the lines it
    has not read.  [KeyboardInterrupt] is left out, as above. *)

Definition WARNING : pystr := [0x26A0%N; 0xFE0F%N].
Definition WAVE : pystr := [0x1F44B%N].
Definition BOOK : pystr := [0x1F4D6%N].

Definition GOODBYE : pystr := NL ++ WAVE ++ lit " Goodbye!".
Definition GOODBYE_EOF : pystr := NL ++ NL ++ WAVE ++ lit " Goodbye!".

(** [s.lower() == command] for the commands ['exit'] and ['help']: each
    of their letters is the lower case of itself and of its ASCII capital
    only, so the test is a comparison that ignores ASCII case. *)
Definition ascii_lower (c : char) : char :=
  if ((0x41 <=? c) && (c <=? 0x5A))%N then (c + 32)%N else c.

Definition lower_is (s command : pystr) : bool :=
  PyStr.eqb (map ascii_lower s) command.

(** [s.split(sep)] for a separator of one character *)
Fixpoint split (sep : char) (s : pystr) : list pystr :=
  match s with
  | [] => [[]]
  | c :: s' =>
      if (c =? sep)%N then [] :: split sep s'
      else
        match split sep s' with
        | part :: parts => (c :: part) :: parts
        | [] => [[c]]
        end
  end.

Fixpoint print_all (ls : list pystr) : Out unit :=
  match ls with
  | [] => ret tt
  | l :: ls' => print l ;; print_all ls'
  end.

(** The three [except] clauses of a turn: [ValueError], then
    [requests.RequestException], then [Exception]. *)
Definition turn_handler (invalid : pystr) (e : PyExc) : option (Script unit) :=
  Some (on_out (print
    ((if issubclass (exc_class e) ValueError then invalid
      else if issubclass (exc_class e) RequestException then
        CROSS ++ lit " Network error: "
      else CROSS ++ lit " Unexpected error: ") ++ exc_msg e))).

Definition search_intro : list pystr :=
  [ MAGNIFIER ++ lit " Kodepos API Indonesia - Interactive Search";
    repeat 0x3D%N 50;
    lit "Enter location names, postal codes, or administrative areas";
    lit "Examples: 'Jakarta', 'Menteng', '10110', 'DKI Jakarta'";
    lit "Commands: 'exit' to quit, 'help' for assistance";
    [] ].

Definition search_help : list pystr :=
  [ NL ++ BOOK ++ lit " Help:";
    lit "- Search by village name: 'Menteng'";
    lit "- Search by district: 'Gambir'";
    lit "- Search by city: 'Jakarta Pusat'";
    lit "- Search by province: 'DKI Jakarta'";
    lit "- Search by postal code: '10110'";
    lit "- Type 'exit' to quit";
    [] ].

Definition detection_intro : list pystr :=
  [ PIN ++ lit " Location Detection";
    repeat 0x3D%N 30;
    lit "Enter coordinates to find postal codes";
    lit "Format: latitude,longitude (e.g., -6.2088,106.8456)";
    lit "Commands: 'exit' to quit, 'help' for assistance";
    [] ].

Definition detection_help : list pystr :=
  [ NL ++ BOOK ++ lit " Help:";
    lit "- Enter coordinates in format: latitude,longitude";
    lit "- Example: -6.2088,106.8456 (Jakarta)";
    lit "- Example: -7.2575,112.7521 (Surabaya)";
    lit "- Coordinates must be within Indonesian bounds";
    lit "- Type 'exit' to quit";
    [] ].

Section Interactive.
Variable net : Transport.
Variable repr_other : PyValue -> pystr.
Variable float_of_str : pystr -> pystr + PyFloat.t.

(** The inner [try] of [interactive_search]. *)
Definition search_turn (client : SimpleKodeposClient) (query : pystr)
  : Script unit :=
  try_except
    (results <- on_net (search_postal_codes net client (VStr query)) ;;
     status <- item_get results (lit "statusCode") VNone ;;
     (if eq_int status 200 then
        data <- item_get results (lit "data") (VList []) ;;
        (if truthy data then
           on_out (format_results_value repr_other data)
         else on_out (print (lit "No results found for your search query.")))
      else
        error_msg <- item_get results (lit "error") (VStr (lit "Unknown error")) ;;
        on_out (print (CROSS ++ lit " Search failed: "
                         ++ py_str repr_other error_msg))))
    (turn_handler (WARNING ++ lit "  Invalid input: ")).

(** [while True: ...] of [interactive_search] *)
Fixpoint search_loop (client : SimpleKodeposClient) (lines : list pystr)
  : Script (list pystr) :=
  match lines with
  | [] => on_out (print GOODBYE_EOF) ;; ret []
  | line :: rest =>
      let query := strip line in
      if lower_is query (lit "exit") then
        on_out (print GOODBYE) ;; ret rest
      else if lower_is query (lit "help") then
        on_out (print_all search_help) ;; search_loop client rest
      else if negb (truthy (VStr query)) then
        on_out (print (WARNING ++ lit "  Please enter a search term" ++ NL)) ;;
        search_loop client rest
      else if (len query <? 2)%Z then
        on_out (print (WARNING ++ lit "  Query must be at least 2 characters long"
                         ++ NL)) ;;
        search_loop client rest
      else
        on_out (print (NL ++ MAGNIFIER ++ lit " Searching for: '" ++ query
                         ++ lit "'...")) ;;
        search_turn client query ;;
        on_out (print (NL ++ repeat 0x3D%N 60)) ;;
        search_loop client rest
  end.

Definition interactive_search (lines : list pystr) : Script (list pystr) :=
  let client := init API_BASE_URL in
  on_out (print_all search_intro) ;;
  search_loop client lines.

(** The inner [try] of [interactive_location_detection]. *)
Definition detection_turn (client : SimpleKodeposClient) (input_str : pystr)
  : Script unit :=
  try_except
    (let parts := split 0x2C%N input_str in
     (if negb (Nat.eqb (List.length parts) 2) then
        raise ValueError (lit "Format should be: latitude,longitude")
      else ret tt) ;;
     latitude <- float float_of_str (strip (nth 0 parts [])) ;;
     longitude <- float float_of_str (strip (nth 1 parts [])) ;;
     on_out (print (NL ++ MAGNIFIER ++ lit " Detecting postal code for: "
                      ++ py_str repr_other (VFloat latitude) ++ lit ", "
                      ++ py_str repr_other (VFloat longitude))) ;;
     results <- on_net (detect_location net client latitude longitude) ;;
     ok <- found results ;;
     (if ok then
        d <- as_dict results (lit "__getitem__") ;;
        data <- item_subscript d (lit "data") ;;
        on_out (format_results repr_other [data])
      else
        error_msg <- item_get results (lit "error")
                       (VStr (lit "No postal code found for these coordinates")) ;;
        on_out (print (CROSS ++ lit " Detection failed: "
                         ++ py_str repr_other error_msg))))
    (turn_handler (WARNING ++ lit "  Invalid coordinates: ")).

(** [while True: ...] of [interactive_location_detection] *)
Fixpoint detection_loop (client : SimpleKodeposClient) (lines : list pystr)
  : Script (list pystr) :=
  match lines with
  | [] => on_out (print GOODBYE_EOF) ;; ret []
  | line :: rest =>
      let input_str := strip line in
      if lower_is input_str (lit "exit") then
        on_out (print GOODBYE) ;; ret rest
      else if lower_is input_str (lit "help") then
        on_out (print_all detection_help) ;; detection_loop client rest
      else if negb (truthy (VStr input_str)) then
        on_out (print (WARNING ++ lit "  Please enter coordinates" ++ NL)) ;;
        detection_loop client rest
      else
        detection_turn client input_str ;;
        on_out (print (NL ++ repeat 0x3D%N 50)) ;;
        detection_loop client rest
  end.

Definition interactive_location_detection (lines : list pystr)
  : Script (list pystr) :=
  let client := init API_BASE_URL in
  on_out (print_all detection_intro) ;;
  detection_loop client lines.
End Interactive.

(** What a typed line is to the loops: the command that ends them, a
    query that is sent, a pair of coordinates that is sent. *)
Definition is_exit (line : pystr) : bool := lower_is (strip line) (lit "exit").

Definition is_query (line : pystr) : bool :=
  negb (lower_is (strip line) (lit "help")) && (2 <=? len (strip line))%Z.

Definition in_box (latitude longitude : PyFloat.t) : bool :=
  (PyFloat.int_le (-11) latitude && PyFloat.le_int latitude 6)
  && (PyFloat.int_le 95 longitude && PyFloat.le_int longitude 141).

Definition coordinates_of (float_of_str : pystr -> pystr + PyFloat.t)
    (line : pystr) : option (PyFloat.t * PyFloat.t) :=
  if lower_is (strip line) (lit "help") then None
  else
    match split 0x2C%N (strip line) with
    | [a; b] =>
        match float_of_str (strip a), float_of_str (strip b) with
        | inr latitude, inr longitude =>
            if in_box latitude longitude then Some (latitude, longitude)
            else None
        | _, _ => None
        end
    | _ => None
    end.

(** The request a typed line leads to in the detection loop, if any. *)
Definition detection_requests (float_of_str : pystr -> pystr + PyFloat.t)
    (client : SimpleKodeposClient) (line : pystr) : list Request :=
  match coordinates_of float_of_str line with
  | Some (latitude, longitude) => [detect_request client latitude longitude]
  | None => []
  end.

(** ** The quick demo *)

Definition CHECK_MARK : pystr := [0x2705%N].
Definition ROCKET : pystr := [0x1F680%N].
Definition SPARKLES : pystr := [0x2728%N].

Definition demo_queries : list (pystr * pystr) :=
  [ (lit "Jakarta", lit "Search by city name");
    (lit "Menteng", lit "Search by village name");
    (lit "10110", lit "Search by postal code");
    (lit "DKI Jakarta", lit "Search by province") ].

(** The literals [-6.2088] and [106.8456] as binary64 numbers:
    [-0x1.8d5cfaacd9e84p+2] and [0x1.ab61e4f765fd9p+6]. *)
Definition demo_latitude : PyFloat.t :=
  S754_finite true 0x18d5cfaacd9e84%positive (-50).
Definition demo_longitude : PyFloat.t :=
  S754_finite false 0x1ab61e4f765fd9%positive (-46).

Definition DEMO_COMPLETE : pystr :=
  SPARKLES ++ lit " Demo complete! Try the interactive modes for more exploration.".

(** [data[0]], reached with a truthy [data] only: a list or a string
    then has a first element.  The keys of a JSON object are strings, so
    the key [0] is missing from every dict. *)
Definition first_of {St} (data : PyValue) : M St PyValue :=
  match data with
  | VList l => ret (hd VNone l)
  | VStr s => ret (VStr (firstn 1 s))
  | VDict _ => raise KeyError (lit "0")
  | _ => raise TypeError (lit "'" ++ type_name data ++ lit "' object is not subscriptable")
  end.

(** [except Exception as e: print(f"... Error: {e}")] *)
Definition demo_handler (e : PyExc) : option (Script unit) :=
  Some (on_out (print (ERROR_PREFIX ++ exc_msg e))).

Section Demo.
Variable net : Transport.
Variable repr_other : PyValue -> pystr.
(** The message of indexing a string with a string, which differs
    between Python versions. *)
Variable str_index_message : pystr.

(** [v[k]] for a string [k] *)
Definition subscript {St} (v : PyValue) (k : pystr) : M St PyValue :=
  match v with
  | VDict d => item_subscript d k
  | VStr _ => raise TypeError str_index_message
  | VList _ => raise TypeError (lit "list indices must be integers or slices, not str")
  | _ => raise TypeError (lit "'" ++ type_name v ++ lit "' object is not subscriptable")
  end.

(** One round of the [for] loop. *)
Definition demo_search (client : SimpleKodeposClient) (query description : pystr)
  : Script unit :=
  on_out (print (NL ++ description ++ lit ": '" ++ query ++ lit "'")) ;;
  on_out (print (repeat 0x2D%N 40)) ;;
  try_except
    (results <- on_net (search_postal_codes net client (VStr query)) ;;
     status <- item_get results (lit "statusCode") VNone ;;
     (if eq_int status 200 then
        data <- item_get results (lit "data") (VList []) ;;
        (if truthy data then
           first_result <- first_of data ;;
           n <- py_len data ;;
           on_out (print (CHECK_MARK ++ lit " Found " ++ of_Z n ++ lit " results")) ;;
           village <- subscript first_result (lit "village") ;;
           code <- subscript first_result (lit "code") ;;
           on_out (print (lit "   Example: " ++ py_str repr_other village
                            ++ lit " - " ++ py_str repr_other code)) ;;
           district <- subscript first_result (lit "district") ;;
           regency <- subscript first_result (lit "regency") ;;
           on_out (print (lit "   Location: " ++ py_str repr_other district
                            ++ lit ", " ++ py_str repr_other regency))
         else on_out (print (CROSS ++ lit " No results found")))
      else
        error_msg <- item_get results (lit "error") (VStr (lit "Unknown error")) ;;
        on_out (print (ERROR_PREFIX ++ py_str repr_other error_msg))))
    demo_handler.

Fixpoint demo_searches (client : SimpleKodeposClient)
    (queries : list (pystr * pystr)) : Script unit :=
  match queries with
  | [] => ret tt
  | (query, description) :: queries' =>
      demo_search client query description ;;
      demo_searches client queries'
  end.

(** The location part. *)
Definition demo_detect (client : SimpleKodeposClient) : Script unit :=
  try_except
    (location_results <-
       on_net (detect_location net client demo_latitude demo_longitude) ;;
     ok <- found location_results ;;
     (if ok then
        d <- as_dict location_results (lit "__getitem__") ;;
        location <- item_subscript d (lit "data") ;;
        on_out (print (CHECK_MARK ++ lit " Location detected")) ;;
        code <- subscript location (lit "code") ;;
        on_out (print (lit "   Postal Code: " ++ py_str repr_other code)) ;;
        village <- subscript location (lit "village") ;;
        district <- subscript location (lit "district") ;;
        on_out (print (lit "   Area: " ++ py_str repr_other village
                         ++ lit ", " ++ py_str repr_other district)) ;;
        latitude <- subscript location (lit "latitude") ;;
        longitude <- subscript location (lit "longitude") ;;
        on_out (print (lit "   Coordinates: " ++ py_str repr_other latitude
                         ++ lit ", " ++ py_str repr_other longitude))
      else on_out (print (CROSS ++ lit " Location detection failed"))))
    demo_handler.

Definition quick_demo : Script unit :=
  let client := init API_BASE_URL in
  on_out (print (ROCKET ++ lit " Quick Demo")) ;;
  on_out (print (repeat 0x3D%N 30)) ;;
  demo_searches client demo_queries ;;
  on_out (print (NL ++ lit "Location Detection Demo")) ;;
  on_out (print (repeat 0x2D%N 40)) ;;
  demo_detect client ;;
  on_out (print (NL ++ repeat 0x3D%N 50)) ;;
  on_out (print DEMO_COMPLETE).
End Demo.

(** * Properties *)

(** ** Values computed by the definitions *)

Example strip_example :
  strip (lit "  Menteng " ++ [0xA0%N]) = lit "Menteng".
Proof. reflexivity. Qed.

Example of_Z_example : of_Z 404 = lit "404" /\ of_Z (-7) = lit "-7" /\ of_Z 0 = lit "0".
Proof. repeat split. Qed.

Example format_f_examples :
  PyFloat.format_f 6 (S754_finite true 13 (-1)) = lit "-6.500000"
  /\ PyFloat.format_f 3 (S754_finite false 1 (-4)) = lit "0.062"
  /\ PyFloat.format_f 3 (S754_finite false 3 (-4)) = lit "0.188"
  /\ PyFloat.format_f 6 (S754_finite false 109 0) = lit "109.000000"
  /\ PyFloat.format_f 6 (S754_zero false) = lit "0.000000".
Proof. repeat split. Qed.

Example of_int_examples :
  PyFloat.of_int 50 = Some (S754_finite false 50 0)
  /\ PyFloat.of_int (2 ^ 53 + 1) = Some (S754_finite false (2 ^ 52) 1)
  /\ PyFloat.of_int (10 ^ 400) = None.
Proof. repeat split. Qed.

(** ** Stripping *)

Section StripFacts.
Variable drop : char -> bool.

Lemma lstrip_by_suffix (s : pystr) :
  exists pre, s = pre ++ lstrip_by drop s.
Proof.
  induction s as [|c s IH]; simpl.
  - exists []; reflexivity.
  - destruct (drop c).
    + destruct IH as [pre E]. exists (c :: pre). simpl. now rewrite <- E.
    + exists []; reflexivity.
Qed.

Lemma lstrip_by_head (s : pystr) :
  match lstrip_by drop s with
  | [] => True
  | c :: _ => drop c = false
  end.
Proof.
  induction s as [|c s IH]; simpl; auto.
  destruct (drop c) eqn:E; auto.
Qed.

Lemma lstrip_by_fixed (s : pystr) :
  match s with [] => True | c :: _ => drop c = false end ->
  lstrip_by drop s = s.
Proof. destruct s as [|c s]; simpl; auto. now intros ->. Qed.

Lemma lstrip_by_idem (s : pystr) :
  lstrip_by drop (lstrip_by drop s) = lstrip_by drop s.
Proof. apply lstrip_by_fixed, lstrip_by_head. Qed.

Lemma rstrip_by_prefix (s : pystr) :
  exists post, s = rstrip_by drop s ++ post.
Proof.
  unfold rstrip_by.
  destruct (lstrip_by_suffix (List.rev s)) as [pre E].
  exists (List.rev pre).
  rewrite <- rev_app_distr, <- E. now rewrite rev_involutive.
Qed.

Lemma rstrip_by_idem (s : pystr) :
  rstrip_by drop (rstrip_by drop s) = rstrip_by drop s.
Proof. unfold rstrip_by. now rewrite rev_involutive, lstrip_by_idem. Qed.

(** Stripping the right end keeps the left end clean. *)
Lemma lstrip_by_rstrip_by (s : pystr) :
  match s with [] => True | c :: _ => drop c = false end ->
  lstrip_by drop (rstrip_by drop s) = rstrip_by drop s.
Proof.
  intros H. apply lstrip_by_fixed.
  destruct (rstrip_by_prefix s) as [post E].
  destruct (rstrip_by drop s) as [|c r]; auto.
  rewrite E in H. exact H.
Qed.

Lemma strip_by_idem (s : pystr) :
  strip_by drop (strip_by drop s) = strip_by drop s.
Proof.
  unfold strip_by.
  rewrite lstrip_by_rstrip_by by apply lstrip_by_head.
  apply rstrip_by_idem.
Qed.

Lemma strip_by_nil : strip_by drop [] = [].
Proof. reflexivity. Qed.
End StripFacts.

Lemma strip_idem (s : pystr) : strip (strip s) = strip s.
Proof. apply strip_by_idem. Qed.

(** ** One GET per call *)

Section ClientFacts.
Variable net : Transport.
Variable self : SimpleKodeposClient.

(** What [get_json] does, case by case on the transport's answer. *)
Lemma get_json_run (u : pystr) (params : PyDict) (log : list Request) :
  let req := build_request self u params TIMEOUT_SECONDS in
  get_json net self u params log =
  match net req with
  | Failure e =>
      match request_handlers e with
      | Some h => h (log ++ [req])
      | None => (inl e, log ++ [req])
      end
  | Reply r =>
      let code := status_code r in
      if ((400 <=? code) && (code <? 600))%Z then
        (inl (Exc RequestException (lit "HTTP error: " ++ of_Z code) None
                (Some (Exc HTTPError
                         (of_Z code
                          ++ lit (if (code <? 500)%Z then " Client Error: "
                                  else " Server Error: ")
                          ++ reason r ++ lit " for url: " ++ url r)
                         (Some code) None))),
         log ++ [req])
      else
        (match json_body r with
         | inr v => inr v
         | inl m => inl (Exc JSONDecodeError m None None)
         end, log ++ [req])
  end.
Proof.
  intros req.
  unfold get_json, try_except, session_get, bind, emit. fold req.
  destruct (net req) as [e|r]; [reflexivity|].
  unfold ret, raise_for_status, throw.
  destruct (400 <=? status_code r)%Z eqn:H4; simpl.
  - destruct (status_code r <? 500)%Z eqn:H5; simpl.
    + assert ((status_code r <? 600)%Z = true) as -> by lia. reflexivity.
    + assert ((500 <=? status_code r)%Z = true) as -> by lia. simpl.
      destruct (status_code r <? 600)%Z; [reflexivity|].
      unfold json, raise. destruct (json_body r); reflexivity.
  - assert ((500 <=? status_code r)%Z = false) as -> by lia. simpl.
    unfold json, raise. destruct (json_body r); reflexivity.
Qed.

(** Exactly one request is sent, whatever comes back. *)
Lemma get_json_log (u : pystr) (params : PyDict) (log : list Request) :
  snd (get_json net self u params log)
  = log ++ [build_request self u params TIMEOUT_SECONDS].
Proof.
  rewrite get_json_run.
  destruct (net _) as [e|r].
  - unfold request_handlers.
    destruct (issubclass (exc_class e) Timeout); [reflexivity|].
    destruct (issubclass (exc_class e) ConnectionError); [reflexivity|].
    destruct (issubclass (exc_class e) HTTPError); [|reflexivity].
    destruct (exc_status e); reflexivity.
  - cbv zeta. destruct (_ && _)%bool; reflexivity.
Qed.

(** A query that passes validation goes out stripped. *)
Lemma search_valid (q : pystr) (log : list Request) :
  (2 <= len (strip q))%Z ->
  search_postal_codes net self (VStr q) log
  = get_json net self (base_url self ++ lit "/search")
      [(lit "q", VStr (strip q))] log.
Proof.
  intros H. unfold search_postal_codes.
  destruct q as [|c q]; [cbv in H; congruence|].
  cbn [truthy isinstance_str negb orb str_chars].
  assert ((len (strip (c :: q)) <? 2)%Z = false) as -> by lia.
  reflexivity.
Qed.

Lemma search_invalid (q : pystr) (log : list Request) :
  (len (strip q) < 2)%Z ->
  exists msg,
    search_postal_codes net self (VStr q) log
    = (inl (Exc ValueError msg None None), log).
Proof.
  intros H. unfold search_postal_codes.
  destruct q as [|c q]; [eexists; reflexivity|].
  cbn [truthy isinstance_str negb orb str_chars].
  assert ((len (strip (c :: q)) <? 2)%Z = true) as -> by lia.
  eexists; reflexivity.
Qed.
End ClientFacts.

(** ** The bounding box *)

Lemma compare_int_value (f : PyFloat.t) (k : Z) (q : Q) :
  PyFloat.value f = Some q ->
  PyFloat.compare_int f k = Some (q ?= inject_Z k)%Q.
Proof.
  destruct f as [s|s| |s m e]; simpl; try discriminate.
  - intros [= <-]. unfold Qcompare. simpl. now rewrite Z.mul_1_r.
  - intros [= <-]. reflexivity.
Qed.

(** The guard of [detect_location] is membership in the closed interval. *)
Lemma in_box_iff (lo hi : Z) (f : PyFloat.t) :
  (PyFloat.int_le lo f && PyFloat.le_int f hi)%bool = true
  <-> in_interval lo hi f.
Proof.
  unfold in_interval, PyFloat.int_le, PyFloat.le_int.
  destruct (PyFloat.value f) as [q|] eqn:V.
  - rewrite !(compare_int_value f _ V). split.
    + intros H. exists q. split; [reflexivity|].
      apply andb_true_iff in H. destruct H as [H1 H2]. split.
      * apply Qge_alt. intros E. rewrite E in H1. discriminate.
      * apply Qle_alt. intros E. rewrite E in H2. discriminate.
    + intros (q' & [= <-] & H1 & H2).
      pose proof (proj1 (Qge_alt _ _) H1) as G1.
      pose proof (proj1 (Qle_alt _ _) H2) as G2.
      apply andb_true_iff. split.
      * destruct (q ?= inject_Z lo)%Q; simpl; congruence.
      * destruct (q ?= inject_Z hi)%Q; simpl; congruence.
  - split.
    + destruct f as [s|[|]| |s m e]; simpl in *; try discriminate.
    + intros (q & E & _). discriminate.
Qed.

Lemma in_box_false (lo hi : Z) (f : PyFloat.t) :
  ~ in_interval lo hi f ->
  (PyFloat.int_le lo f && PyFloat.le_int f hi)%bool = false.
Proof.
  intros H. destruct (_ && _)%bool eqn:E; [|reflexivity].
  apply in_box_iff in E. contradiction.
Qed.

Section DetectFacts.
Variable net : Transport.
Variable self : SimpleKodeposClient.

Lemma detect_valid (latitude longitude : PyFloat.t) (log : list Request) :
  in_interval (-11) 6 latitude -> in_interval 95 141 longitude ->
  detect_location net self latitude longitude log
  = get_json net self (base_url self ++ lit "/detect")
      [(lit "latitude", VFloat latitude); (lit "longitude", VFloat longitude)]
      log.
Proof.
  intros H1 H2. unfold detect_location.
  apply in_box_iff in H1. apply in_box_iff in H2.
  rewrite H1, H2. reflexivity.
Qed.

Lemma detect_invalid (latitude longitude : PyFloat.t) (log : list Request) :
  ~ in_interval (-11) 6 latitude \/ ~ in_interval 95 141 longitude ->
  exists msg,
    detect_location net self latitude longitude log
    = (inl (Exc ValueError msg None None), log).
Proof.
  intros H. unfold detect_location.
  destruct (PyFloat.int_le (-11) latitude && PyFloat.le_int latitude 6)%bool
    eqn:E1; simpl.
  - destruct H as [H|H].
    + apply in_box_iff in E1. contradiction.
    + rewrite (in_box_false H). eexists; reflexivity.
  - eexists; reflexivity.
Qed.

Lemma valid_call_get_json (call : Net PyValue) (req : Request) :
  valid_call net self call req ->
  exists u params,
    req = build_request self u params TIMEOUT_SECONDS
    /\ forall log, call log = get_json net self u params log.
Proof.
  intros [(q & H & -> & ->)|(la & lo & H1 & H2 & -> & ->)].
  - eexists _, _. split; [reflexivity|].
    intros log. now apply search_valid.
  - eexists _, _. split; [reflexivity|].
    intros log. now apply detect_valid.
Qed.

(** The client raises no [ValueError] of its own once the request is
    out: a handler raises [RequestException] (or [AttributeError]), a
    body that is not JSON raises [JSONDecodeError]. *)
Lemma get_json_no_value_error (u : pystr) (params : PyDict)
    (log : list Request) (e : PyExc) :
  fst (get_json net self u params log) = inl e ->
  exc_class e = ValueError ->
  net (build_request self u params TIMEOUT_SECONDS) = Failure e.
Proof.
  rewrite get_json_run.
  destruct (net _) as [e'|r].
  - unfold request_handlers.
    destruct (issubclass (exc_class e') Timeout);
      [intros [= <-]; discriminate|].
    destruct (issubclass (exc_class e') ConnectionError);
      [intros [= <-]; discriminate|].
    destruct (issubclass (exc_class e') HTTPError).
    + destruct (exc_status e'); intros [= <-]; discriminate.
    + now intros [= <-].
  - cbv zeta. destruct (_ && _)%bool.
    + intros [= <-]; discriminate.
    + destruct (json_body r); simpl; [intros [= <-]|]; discriminate.
Qed.
End DetectFacts.

(** ** Validation *)

(** C1. A query that is empty, or shorter than two characters once
    stripped, raises [ValueError] and no request is sent: the log of
    requests is left as it was. *)
Theorem search_rejects_short_query (net : Transport) (self : SimpleKodeposClient)
    (q : pystr) (log : list Request) :
  q = [] \/ (len (strip q) < 2)%Z ->
  exists msg,
    search_postal_codes net self (VStr q) log
    = (inl (Exc ValueError msg None None), log).
Proof.
  intros [->|H]; apply search_invalid; [reflexivity|exact H].
Qed.

Lemma search_rejects_short_query_witness :
  exists msg,
    search_postal_codes Sample.net_200 Sample.client (VStr (lit "  J ")) []
    = (inl (Exc ValueError msg None None), []).
Proof.
  apply (@search_rejects_short_query Sample.net_200 Sample.client (lit "  J ") []).
  right. vm_compute. reflexivity.
Defined.

(** C2. Coordinates outside the box raise [ValueError] with no request
    sent; coordinates inside it, the bounds included, pass validation: the
    one request goes out, the outcome is that of the exchange, and no
    [ValueError] comes from the client itself. *)
Theorem detect_location_bounding_box (net : Transport)
    (self : SimpleKodeposClient) (latitude longitude : PyFloat.t)
    (log : list Request) :
  (~ in_interval (-11) 6 latitude \/ ~ in_interval 95 141 longitude ->
   exists msg,
     detect_location net self latitude longitude log
     = (inl (Exc ValueError msg None None), log))
  /\ (in_interval (-11) 6 latitude -> in_interval 95 141 longitude ->
      snd (detect_location net self latitude longitude log)
      = log ++ [detect_request self latitude longitude]
      /\ forall e,
           fst (detect_location net self latitude longitude log) = inl e ->
           exc_class e = ValueError ->
           net (detect_request self latitude longitude) = Failure e).
Proof.
  split.
  - apply detect_invalid.
  - intros H1 H2. rewrite (detect_valid net self log H1 H2). split.
    + apply get_json_log.
    + intros e. apply get_json_no_value_error.
Qed.

Lemma in_interval_boundary :
  in_interval (-11) 6 (S754_finite true 11 0)
  /\ in_interval (-11) 6 (S754_finite false 6 0)
  /\ in_interval 95 141 (S754_finite false 95 0)
  /\ in_interval 95 141 (S754_finite false 141 0).
Proof.
  repeat split; apply in_box_iff; vm_compute; reflexivity.
Qed.

Lemma detect_location_bounding_box_witness :
  (exists msg,
     detect_location Sample.net_200 Sample.client Sample.lat_north Sample.lng []
     = (inl (Exc ValueError msg None None), []))
  /\ snd (detect_location Sample.net_200 Sample.client
            (S754_finite false 6 0) (S754_finite false 95 0) [])
     = [detect_request Sample.client (S754_finite false 6 0) (S754_finite false 95 0)].
Proof.
  split.
  - apply (@detect_location_bounding_box Sample.net_200 Sample.client
             Sample.lat_north Sample.lng []).
    left. intros H. apply in_box_iff in H. vm_compute in H. discriminate.
  - apply (@detect_location_bounding_box Sample.net_200 Sample.client
             (S754_finite false 6 0) (S754_finite false 95 0) []).
    + apply in_box_iff. vm_compute. reflexivity.
    + apply in_box_iff. vm_compute. reflexivity.
Defined.

(** C10. Leading and trailing whitespace does not matter: a query and its
    stripped form are both rejected with no request sent, or both send the
    same request (the stripped query as [q]) and end the same way. *)
Theorem search_strip_invariant (net : Transport) (self : SimpleKodeposClient)
    (q : pystr) (log : list Request) :
  (exists m1 m2,
     search_postal_codes net self (VStr q) log
     = (inl (Exc ValueError m1 None None), log)
     /\ search_postal_codes net self (VStr (strip q)) log
        = (inl (Exc ValueError m2 None None), log))
  \/ (search_postal_codes net self (VStr q) log
      = search_postal_codes net self (VStr (strip q)) log
      /\ snd (search_postal_codes net self (VStr q) log)
         = log ++ [search_request self q]
      /\ req_params (search_request self q) = [(lit "q", VStr (strip q))]
      /\ search_request self (strip q) = search_request self q).
Proof.
  destruct (Z.lt_ge_cases (len (strip q)) 2) as [H|H].
  - left.
    destruct (search_invalid net self q log H) as [m1 E1].
    assert (H' : (len (strip (strip q)) < 2)%Z) by now rewrite strip_idem.
    destruct (search_invalid net self (strip q) log H') as [m2 E2].
    now exists m1, m2.
  - right.
    assert (H' : (2 <= len (strip (strip q)))%Z) by now rewrite strip_idem.
    rewrite (search_valid net self q log H).
    rewrite (search_valid net self (strip q) log H').
    rewrite strip_idem. repeat split.
    + apply get_json_log.
    + unfold search_request. now rewrite strip_idem.
Qed.

(** ** Outcome of the exchange *)

(** C3, as the code has it.  A reply whose body is JSON is returned to the
    caller when its status is outside 400..599, whatever else the status
    is; the request log gains the one request.  (Inside 400..599
    [raise_for_status] raises before the body is read.) *)
Theorem json_returned_unless_http_error (net : Transport)
    (self : SimpleKodeposClient) (call : Net PyValue) (req : Request)
    (r : Response) (v : PyValue) (log : list Request) :
  valid_call net self call req ->
  net req = Reply r ->
  json_body r = inr v ->
  ~ (400 <= status_code r < 600)%Z ->
  call log = (inr v, log ++ [req]).
Proof.
  intros Hc Hn Hj Hs.
  destruct (valid_call_get_json Hc) as (u & params & -> & E).
  rewrite E, get_json_run. cbv zeta. rewrite Hn, Hj.
  assert (((400 <=? status_code r) && (status_code r <? 600))%Z%bool = false)
    as -> by lia.
  reflexivity.
Qed.

Lemma sample_search_valid :
  valid_call Sample.net_200 Sample.client
    (search_postal_codes Sample.net_200 Sample.client Sample.jakarta)
    (search_request Sample.client (lit "Jakarta")).
Proof.
  left. exists (lit "Jakarta"). split; [vm_compute; discriminate|].
  split; reflexivity.
Qed.

Lemma json_returned_unless_http_error_witness :
  search_postal_codes Sample.net_200 Sample.client Sample.jakarta []
  = (inr Sample.envelope_200, [search_request Sample.client (lit "Jakarta")]).
Proof.
  apply (@json_returned_unless_http_error Sample.net_200 Sample.client
           _ _ Sample.reply_200 Sample.envelope_200 [] sample_search_valid).
  - reflexivity.
  - reflexivity.
  - simpl. lia.
Defined.

(** C3 as stated fails: a 404 reply with a JSON body is not returned; both
    operations raise [RequestException("HTTP error: 404")] instead. *)
Lemma http_error_hides_json_body :
  json_body Sample.reply_404 = inr Sample.envelope_404
  /\ (exists e,
        fst (search_postal_codes Sample.net_404 Sample.client Sample.jakarta [])
        = inl e
        /\ exc_class e = RequestException
        /\ exc_msg e = lit "HTTP error: 404")
  /\ (exists e,
        fst (detect_location Sample.net_404 Sample.client Sample.lat Sample.lng [])
        = inl e
        /\ exc_class e = RequestException
        /\ exc_msg e = lit "HTTP error: 404").
Proof.
  split; [reflexivity|].
  split; eexists; (split; [vm_compute; reflexivity|split; reflexivity]).
Qed.

(** C4, as the code has it.  A timeout, a connection failure and a 4xx or
    5xx status all surface as the same class, [RequestException]; they
    differ by message only, and the status code is carried in the message
    text.  The exception handled is kept as the context. *)
Theorem failures_surface_as_request_exception (net : Transport)
    (self : SimpleKodeposClient) (call : Net PyValue) (req : Request)
    (log : list Request) :
  valid_call net self call req ->
  (forall e, net req = Failure e ->
     issubclass (exc_class e) Timeout = true ->
     call log
     = (inl (Exc RequestException (lit "Request timeout after 10 seconds")
               None (Some e)), log ++ [req]))
  /\ (forall e, net req = Failure e ->
        issubclass (exc_class e) Timeout = false ->
        issubclass (exc_class e) ConnectionError = true ->
        call log
        = (inl (Exc RequestException (lit "Failed to connect to API")
                  None (Some e)), log ++ [req]))
  /\ (forall r, net req = Reply r ->
        (400 <= status_code r < 600)%Z ->
        exists http_error,
          call log
          = (inl (Exc RequestException
                    (lit "HTTP error: " ++ of_Z (status_code r))
                    None (Some http_error)), log ++ [req])
          /\ exc_class http_error = HTTPError
          /\ exc_status http_error = Some (status_code r))
  /\ lit "Request timeout after 10 seconds" <> lit "Failed to connect to API".
Proof.
  intros Hc.
  destruct (valid_call_get_json Hc) as (u & params & -> & E).
  repeat split.
  - intros e Hn Ht. rewrite E, get_json_run. cbv zeta. rewrite Hn.
    unfold request_handlers. rewrite Ht. reflexivity.
  - intros e Hn Ht Hx. rewrite E, get_json_run. cbv zeta. rewrite Hn.
    unfold request_handlers. rewrite Ht, Hx. reflexivity.
  - intros r Hn Hs. rewrite E, get_json_run. cbv zeta. rewrite Hn.
    assert (((400 <=? status_code r) && (status_code r <? 600))%Z%bool = true)
      as -> by lia.
    eexists. split; [reflexivity|]. split; reflexivity.
  - discriminate.
Qed.

Lemma sample_timeout_valid :
  valid_call Sample.net_timeout Sample.client
    (search_postal_codes Sample.net_timeout Sample.client Sample.jakarta)
    (search_request Sample.client (lit "Jakarta")).
Proof.
  left. exists (lit "Jakarta"). split; [vm_compute; discriminate|].
  split; reflexivity.
Qed.

Lemma failures_surface_as_request_exception_witness :
  search_postal_codes Sample.net_timeout Sample.client Sample.jakarta []
  = (inl (Exc RequestException (lit "Request timeout after 10 seconds")
            None (Some Sample.read_timeout)),
     [search_request Sample.client (lit "Jakarta")]).
Proof.
  apply (proj1 (@failures_surface_as_request_exception Sample.net_timeout
                  Sample.client _ _ [] sample_timeout_valid)).
  - reflexivity.
  - reflexivity.
Defined.

(** C4 as stated fails: the error raised for a timeout has the same class
    as the one raised for a refused connection, and a 404 is not an
    [HTTPError] and has no status attached. *)
Lemma timeout_not_distinct_by_class :
  exists e_timeout e_refused e_404,
    fst (search_postal_codes Sample.net_timeout Sample.client Sample.jakarta [])
    = inl e_timeout
    /\ fst (search_postal_codes Sample.net_refused Sample.client Sample.jakarta [])
       = inl e_refused
    /\ fst (search_postal_codes Sample.net_404 Sample.client Sample.jakarta [])
       = inl e_404
    /\ exc_class e_timeout = exc_class e_refused
    /\ exc_class e_404 = RequestException
    /\ exc_status e_404 = None.
Proof.
  do 3 eexists.
  split; [vm_compute; reflexivity|].
  split; [vm_compute; reflexivity|].
  split; [vm_compute; reflexivity|].
  repeat split.
Qed.

(** ** Running the report *)

Section EffFacts.
Context {St A B : Type}.

Lemma bind_run (m : M St A) (k : A -> M St B) (s s' : St) (a : A) :
  m s = (inr a, s') -> bind m k s = k a s'.
Proof. unfold bind. now intros ->. Qed.

Lemma bind_raise (m : M St A) (k : A -> M St B) (s s' : St) (e : PyExc) :
  m s = (inl e, s') -> bind m k s = (inl e, s').
Proof. unfold bind. now intros ->. Qed.
End EffFacts.

Section ItemFacts.
Variable repr_other : PyValue -> pystr.
Variable d : PyDict.

Lemma item_get_run {St} (k : pystr) (default : PyValue) (s : St) :
  item_get (VDict d) k default s = (inr (dict_get d k default), s).
Proof. reflexivity. Qed.

Lemma print_run (l : pystr) (out : list pystr) :
  print l out = (inr tt, out ++ [l]).
Proof. reflexivity. Qed.

Lemma format_fixed_run {St} (prec : nat) (v : PyValue) (s : St) :
  Block.is_number v = true ->
  format_fixed prec v s = (inr (Block.fixed_text prec v), s).
Proof.
  destruct v as [|b|z|f|t|l|l]; simpl; try discriminate; try reflexivity.
  destruct (PyFloat.of_int z); [reflexivity|discriminate].
Qed.

Lemma truthy_field_number (k : pystr) :
  optional_number d k = true ->
  truthy (Block.field d k) = true ->
  Block.is_number (Block.field d k) = true.
Proof.
  unfold optional_number, Block.field, dict_get.
  destruct (dict_lookup d k) as [v|]; [|discriminate].
  destruct v; try discriminate; auto.
Qed.

Lemma item_subscript_run {St} (k : pystr) (s : St) :
  truthy (Block.field d k) = true ->
  item_subscript d k s = (inr (Block.field d k), s).
Proof.
  unfold item_subscript, Block.field, dict_get.
  destruct (dict_lookup d k); [reflexivity|discriminate].
Qed.

Lemma coordinates_run (out : list pystr) :
  optional_number d (lit "latitude") = true ->
  optional_number d (lit "longitude") = true ->
  (if truthy (Block.field d (lit "latitude"))
      && truthy (Block.field d (lit "longitude"))
   then
     slat <- format_fixed 6 (Block.field d (lit "latitude")) ;;
     slng <- format_fixed 6 (Block.field d (lit "longitude")) ;;
     print (coordinates_prefix ++ slat ++ lit ", " ++ slng)
   else ret tt) out
  = (inr tt, out ++ Block.coordinates_lines d).
Proof.
  intros Hlat Hlng. unfold Block.coordinates_lines.
  destruct (truthy (Block.field d (lit "latitude"))) eqn:Tlat;
    [|cbn [andb]; unfold ret; now rewrite app_nil_r].
  destruct (truthy (Block.field d (lit "longitude"))) eqn:Tlng;
    [|cbn [andb]; unfold ret; now rewrite app_nil_r].
  cbn [andb].
  rewrite (bind_run _ _ _
             (format_fixed_run 6 _ out (truthy_field_number _ Hlat Tlat))).
  rewrite (bind_run _ _ _
             (format_fixed_run 6 _ out (truthy_field_number _ Hlng Tlng))).
  apply print_run.
Qed.

Lemma elevation_run (out : list pystr) :
  (if truthy (Block.field d (lit "elevation")) then
     d' <- as_dict (VDict d) (lit "__getitem__") ;;
     v <- item_subscript d' (lit "elevation") ;;
     print (elevation_prefix ++ py_str repr_other v ++ lit "m")
   else ret tt) out
  = (inr tt, out ++ Block.elevation_lines repr_other d).
Proof.
  unfold Block.elevation_lines.
  destruct (truthy (Block.field d (lit "elevation"))) eqn:T;
    [|unfold ret; now rewrite app_nil_r].
  unfold as_dict.
  rewrite (bind_run _ _ out (s' := out) (a := d) eq_refl).
  rewrite (bind_run _ _ _ (item_subscript_run _ out T)).
  apply print_run.
Qed.

Lemma timezone_run (out : list pystr) :
  (if truthy (Block.field d (lit "timezone")) then
     d' <- as_dict (VDict d) (lit "__getitem__") ;;
     v <- item_subscript d' (lit "timezone") ;;
     print (timezone_prefix ++ py_str repr_other v)
   else ret tt) out
  = (inr tt, out ++ Block.timezone_lines repr_other d).
Proof.
  unfold Block.timezone_lines.
  destruct (truthy (Block.field d (lit "timezone"))) eqn:T;
    [|unfold ret; now rewrite app_nil_r].
  unfold as_dict.
  rewrite (bind_run _ _ out (s' := out) (a := d) eq_refl).
  rewrite (bind_run _ _ _ (item_subscript_run _ out T)).
  apply print_run.
Qed.

Lemma distance_run (out : list pystr) :
  optional_number d (lit "distance") = true ->
  (if truthy (Block.field d (lit "distance")) then
     d' <- as_dict (VDict d) (lit "__getitem__") ;;
     v <- item_subscript d' (lit "distance") ;;
     s <- format_fixed 3 v ;;
     print (distance_prefix ++ s ++ lit " km")
   else ret tt) out
  = (inr tt, out ++ Block.distance_lines d).
Proof.
  intros H. unfold Block.distance_lines.
  destruct (truthy (Block.field d (lit "distance"))) eqn:T;
    [|unfold ret; now rewrite app_nil_r].
  unfold as_dict.
  rewrite (bind_run _ _ out (s' := out) (a := d) eq_refl).
  rewrite (bind_run _ _ _ (item_subscript_run _ out T)).
  rewrite (bind_run _ _ _
             (format_fixed_run 3 _ out (truthy_field_number _ H T))).
  apply print_run.
Qed.

(** A record's block is printed whole, after what was printed before. *)
Lemma format_item_record (index : Z) (out : list pystr) :
  is_record (VDict d) = true ->
  format_item repr_other index (VDict d) out
  = (inr tt, out ++ Block.lines repr_other index d).
Proof.
  intros H. cbn [is_record] in H.
  apply andb_true_iff in H. destruct H as [H Hdist].
  apply andb_true_iff in H. destruct H as [Hlat Hlng].
  unfold format_item.
  repeat (rewrite (bind_run _ _ _ (item_get_run _ _ _))
          || rewrite (bind_run _ _ _ (print_run _ _))).
  fold (Block.field d (lit "latitude")).
  fold (Block.field d (lit "longitude")).
  rewrite (bind_run _ _ _ (coordinates_run _ Hlat Hlng)).
  rewrite (bind_run _ _ _ (item_get_run _ _ _)).
  fold (Block.field d (lit "elevation")).
  rewrite (bind_run _ _ _ (elevation_run _)).
  rewrite (bind_run _ _ _ (item_get_run _ _ _)).
  fold (Block.field d (lit "timezone")).
  rewrite (bind_run _ _ _ (timezone_run _)).
  rewrite (bind_run _ _ _ (item_get_run _ _ _)).
  fold (Block.field d (lit "distance")).
  rewrite (distance_run _ Hdist).
  unfold Block.lines, Block.fixed_lines.
  rewrite <- !app_assoc. reflexivity.
Qed.
End ItemFacts.

Section ReportFacts.
Variable repr_other : PyValue -> pystr.

Lemma format_items_records (results : list PyValue) :
  Forall (fun item => is_record item = true) results ->
  forall (index : Z) (out : list pystr),
    format_items repr_other index results out
    = (inr tt,
       out ++ List.concat (map (fun p => Block.of_item repr_other (fst p) (snd p))
                        (Block.enumerate index results))).
Proof.
  induction 1 as [|item results Hitem _ IH]; intros index out.
  - simpl. unfold ret. now rewrite app_nil_r.
  - cbn [format_items Block.enumerate map List.concat fst snd].
    destruct item as [| | | | | |d]; try discriminate.
    rewrite (bind_run _ _ _ (format_item_record repr_other d index out Hitem)).
    rewrite IH. cbn [Block.of_item]. now rewrite app_assoc.
Qed.

(** What a non-empty list of records prints. *)
Lemma format_results_records (results : list PyValue) (out : list pystr) :
  results <> [] ->
  Forall (fun item => is_record item = true) results ->
  format_results repr_other results out
  = (inr tt,
     out ++ header (Z.of_nat (List.length results)) :: separator
         :: List.concat (Block.all repr_other results)).
Proof.
  intros Hne Hrec. unfold format_results.
  destruct results as [|item rest]; [congruence|].
  rewrite (bind_run _ _ _ (print_run _ _)).
  rewrite (bind_run _ _ _ (print_run _ _)).
  rewrite (format_items_records Hrec). unfold Block.all.
  rewrite <- !app_assoc. reflexivity.
Qed.

Lemma nth_error_enumerate {A} (l : list A) :
  forall (start : Z) (i : nat),
    nth_error (Block.enumerate start l) i
    = option_map (fun x => ((start + Z.of_nat i)%Z, x)) (nth_error l i).
Proof.
  induction l as [|x l IH]; intros start [|i]; try reflexivity.
  - cbn [Block.enumerate nth_error option_map]. now rewrite Z.add_0_r.
  - cbn [Block.enumerate nth_error]. rewrite IH.
    destruct (nth_error l i); cbn [option_map]; [|reflexivity].
    do 2 f_equal. lia.
Qed.

(** The i-th block is the block of the i-th item, numbered [i + 1]. *)
Lemma nth_error_all (results : list PyValue) (i : nat) :
  nth_error (Block.all repr_other results) i
  = option_map (Block.of_item repr_other (Z.of_nat i + 1))
      (nth_error results i).
Proof.
  unfold Block.all. rewrite nth_error_map, nth_error_enumerate.
  destruct (nth_error results i); cbn [option_map fst snd]; [|reflexivity].
  do 2 f_equal. lia.
Qed.

Lemma length_all (results : list PyValue) :
  List.length (Block.all repr_other results) = List.length results.
Proof.
  unfold Block.all. rewrite length_map.
  generalize 1%Z. induction results as [|x l IH]; intros z; simpl; auto.
Qed.
End ReportFacts.

(** ** The report *)

(** C7. With no results, the one line saying so is printed, and nothing
    else. *)
Theorem format_results_empty (repr_other : PyValue -> pystr) (out : list pystr) :
  format_results repr_other [] out = (inr tt, out ++ [NO_RESULTS])
  /\ NO_RESULTS = lit "No results found.".
Proof. split; reflexivity. Qed.

(** C5. For a non-empty list of records whose text fields print, the
    report is the header giving their number, the separator, then the
    blocks one after the other: as many blocks as records, the i-th one
    being the block of the i-th record, and opening with the line that
    carries the number [i + 1] in decimal before the village. *)
Theorem format_results_blocks_in_order (repr_other : PyValue -> pystr)
    (results : list PyValue) (out : list pystr) :
  results <> [] ->
  Forall (fun item => is_record item = true) results ->
  Forall (fun item => printable_record item = true) results ->
  format_results repr_other results out
  = (inr tt,
     out ++ header (Z.of_nat (List.length results)) :: separator
         :: List.concat (Block.all repr_other results))
  /\ header (Z.of_nat (List.length results))
     = [0x0A; 0x1F4CB]%N ++ lit " Found "
       ++ of_Z (Z.of_nat (List.length results)) ++ lit " results:"
  /\ List.length (Block.all repr_other results) = List.length results
  /\ forall (i : nat) (item : PyValue),
       nth_error results i = Some item ->
       exists d first rest,
         item = VDict d
         /\ nth_error (Block.all repr_other results) i = Some (first :: rest)
         /\ first :: rest = Block.of_item repr_other (Z.of_nat i + 1) item
         /\ first
            = [0x0A%N] ++ of_Z (Z.of_nat i + 1) ++ lit ". " ++ [0x1F3E0%N]
              ++ lit " " ++ py_str repr_other (dict_get d (lit "village") NA).
Proof.
  intros Hne Hrec _. split; [now apply format_results_records|].
  split; [reflexivity|]. split; [apply length_all|].
  intros i item Hi. rewrite nth_error_all, Hi. cbn [option_map].
  assert (Hitem : is_record item = true).
  { rewrite Forall_forall in Hrec. apply Hrec. eapply nth_error_In; eauto. }
  destruct item as [| | | | | |d]; try discriminate.
  cbn [Block.of_item]. unfold Block.lines, Block.fixed_lines.
  cbn [app]. eexists d, _, _. split; [reflexivity|].
  split; [reflexivity|]. split; [reflexivity|].
  unfold village_prefix, NL, HOUSE. now rewrite <- !app_assoc.
Qed.

Lemma format_results_blocks_in_order_witness :
  snd (format_results Sample.no_repr [Sample.menteng; Sample.with_elevation] [])
  = [ header 2; separator ]
    ++ Block.of_item Sample.no_repr 1 Sample.menteng
    ++ Block.of_item Sample.no_repr 2 Sample.with_elevation.
Proof.
  rewrite (proj1 (@format_results_blocks_in_order Sample.no_repr
                    [Sample.menteng; Sample.with_elevation] []
                    ltac:(discriminate)
                    ltac:(repeat constructor)
                    ltac:(repeat (apply Forall_cons; [vm_compute; reflexivity|]);
                          apply Forall_nil))).
  cbn [snd app Block.all Block.enumerate map List.concat fst List.length].
  now rewrite app_nil_r.
Defined.

(** The lines of a block, by what they start with. *)
Lemma elevation_prefix_apart (index : Z) (x post : pystr) :
  ~ (village_prefix index ++ x = elevation_prefix ++ post)
  /\ ~ (code_prefix ++ x = elevation_prefix ++ post)
  /\ ~ (district_prefix ++ x = elevation_prefix ++ post)
  /\ ~ (regency_prefix ++ x = elevation_prefix ++ post)
  /\ ~ (province_prefix ++ x = elevation_prefix ++ post)
  /\ ~ (coordinates_prefix ++ x = elevation_prefix ++ post)
  /\ ~ (timezone_prefix ++ x = elevation_prefix ++ post)
  /\ ~ (distance_prefix ++ x = elevation_prefix ++ post).
Proof.
  repeat split; intros E; cbv in E; discriminate E.
Qed.

Section ElevationFacts.
Variable repr_other : PyValue -> pystr.
Variable index : Z.
Variable d : PyDict.

Lemma no_elevation_field :
  dict_lookup d (lit "elevation") = None ->
  Block.elevation_lines repr_other d = [].
Proof.
  intros H. unfold Block.elevation_lines, Block.field, dict_get.
  now rewrite H.
Qed.

Lemma no_elevation_line (line : pystr) :
  Block.elevation_lines repr_other d = [] ->
  In line (Block.lines repr_other index d) ->
  ~ startswith elevation_prefix line.
Proof.
  intros Hnone Hin [post E].
  unfold Block.lines in Hin. rewrite Hnone in Hin.
  unfold Block.fixed_lines, Block.coordinates_lines, Block.timezone_lines,
    Block.distance_lines in Hin.
  repeat first
    [ apply in_app_or in Hin; destruct Hin as [Hin|Hin]
    | destruct Hin as [Hin|Hin]
    | match type of Hin with
      | In _ (if ?c then _ else _) => destruct c
      end ];
    try contradiction; subst line;
    rewrite <- ?app_assoc in E;
    now apply (elevation_prefix_apart index) in E.
Qed.

Lemma py_str_fifty (v : PyValue) :
  is_fifty v ->
  truthy v = true
  /\ (py_str repr_other v = lit "50" \/ py_str repr_other v = lit "50.0").
Proof.
  intros [->|(f & -> & Hw & Hs)].
  - split; [reflexivity|left; reflexivity].
  - split.
    + destruct f; try discriminate; reflexivity.
    + right. cbn [py_str]. rewrite Hw, Hs. reflexivity.
Qed.

Lemma elevation_fifty_line (v : PyValue) :
  dict_lookup d (lit "elevation") = Some v ->
  is_fifty v ->
  exists line,
    In line (Block.lines repr_other index d)
    /\ startswith elevation_prefix line
    /\ contains (lit "50") line.
Proof.
  intros Hl Hv. destruct (py_str_fifty Hv) as [Ht Hs].
  assert (Hf : Block.field d (lit "elevation") = v).
  { unfold Block.field, dict_get. now rewrite Hl. }
  exists (elevation_prefix ++ py_str repr_other v ++ lit "m").
  split; [|split].
  - unfold Block.lines, Block.elevation_lines. rewrite Hf, Ht.
    apply in_or_app. right. apply in_or_app. right.
    apply in_or_app. left. now left.
  - eexists; reflexivity.
  - destruct Hs as [-> | ->].
    + exists elevation_prefix, (lit "m"). reflexivity.
    + exists elevation_prefix, (lit ".0m"). reflexivity.
Qed.
End ElevationFacts.

(** C8. In a report of records whose text fields print, the block of a
    record without an [elevation] field has no elevation line, and the
    block of a record whose elevation is 50 has one, containing [50]. *)
Theorem elevation_line_rendering (repr_other : PyValue -> pystr)
    (results : list PyValue) (out : list pystr) (i : nat) (d : PyDict) :
  Forall (fun item => is_record item = true) results ->
  Forall (fun item => printable_record item = true) results ->
  nth_error results i = Some (VDict d) ->
  elevation_prefix = lit "   " ++ [0x26F0; 0xFE0F]%N ++ lit "  Elevation: "
  /\ exists block,
    format_results repr_other results out
    = (inr tt,
       out ++ header (Z.of_nat (List.length results)) :: separator
           :: List.concat (Block.all repr_other results))
    /\ nth_error (Block.all repr_other results) i = Some block
    /\ (dict_lookup d (lit "elevation") = None ->
        forall line, In line block -> ~ startswith elevation_prefix line)
    /\ (forall v, dict_lookup d (lit "elevation") = Some v -> is_fifty v ->
        exists line,
          In line block /\ startswith elevation_prefix line
          /\ contains (lit "50") line).
Proof.
  intros Hrec _ Hi. split; [reflexivity|].
  exists (Block.lines repr_other (Z.of_nat i + 1) d).
  split.
  - apply format_results_records; [|exact Hrec].
    intros ->. destruct i; discriminate.
  - split; [now rewrite nth_error_all, Hi|]. split.
    + intros Hnone line. apply no_elevation_line.
      now apply no_elevation_field.
    + intros v. apply elevation_fifty_line.
Qed.

Lemma elevation_line_rendering_witness :
  exists block,
    format_results Sample.no_repr [Sample.menteng; Sample.with_elevation] []
    = (inr tt,
       [] ++ header 2 :: separator
          :: List.concat (Block.all Sample.no_repr
                            [Sample.menteng; Sample.with_elevation]))
    /\ nth_error (Block.all Sample.no_repr
                    [Sample.menteng; Sample.with_elevation]) 1 = Some block
    /\ exists line,
         In line block /\ startswith elevation_prefix line
         /\ contains (lit "50") line.
Proof.
  destruct (@elevation_line_rendering Sample.no_repr
              [Sample.menteng; Sample.with_elevation] [] 1
              [(lit "village", VStr (lit "Menteng")); (lit "elevation", VInt 50)]
              ltac:(repeat constructor)
              ltac:(repeat (apply Forall_cons; [vm_compute; reflexivity|]);
                    apply Forall_nil)
              eq_refl)
    as (_ & block & E & Hn & _ & H50).
  exists block. split; [exact E|]. split; [exact Hn|].
  apply (H50 (VInt 50)); [reflexivity|left; reflexivity].
Defined.

(** C9. Rendering records whose text fields print never raises, whatever
    fields are missing; a missing [village], [code], [district],
    [regency] or [province] shows as [N/A] on its line. *)
Theorem format_results_never_raises (repr_other : PyValue -> pystr)
    (results : list PyValue) (out : list pystr) :
  Forall (fun item => is_record item = true) results ->
  Forall (fun item => printable_record item = true) results ->
  fst (format_results repr_other results out) = inr tt
  /\ forall (i : nat) (d : PyDict),
       nth_error results i = Some (VDict d) ->
       exists block,
         nth_error (Block.all repr_other results) i = Some block
         /\ (exists printed,
               snd (format_results repr_other results out)
               = out ++ printed ++ List.concat (Block.all repr_other results))
         /\ (dict_lookup d (lit "village") = None ->
             nth_error block 0
             = Some (village_prefix (Z.of_nat i + 1) ++ lit "N/A"))
         /\ (dict_lookup d (lit "code") = None ->
             nth_error block 1 = Some (code_prefix ++ lit "N/A"))
         /\ (dict_lookup d (lit "district") = None ->
             nth_error block 2 = Some (district_prefix ++ lit "N/A"))
         /\ (dict_lookup d (lit "regency") = None ->
             nth_error block 3 = Some (regency_prefix ++ lit "N/A"))
         /\ (dict_lookup d (lit "province") = None ->
             nth_error block 4 = Some (province_prefix ++ lit "N/A")).
Proof.
  intros Hrec _. split.
  - destruct results as [|item rest]; [reflexivity|].
    rewrite format_results_records; [reflexivity|discriminate|exact Hrec].
  - intros i d Hi.
    exists (Block.lines repr_other (Z.of_nat i + 1) d).
    split; [now rewrite nth_error_all, Hi|]. split.
    + rewrite format_results_records; [|intros ->; destruct i; discriminate|exact Hrec].
      exists [header (Z.of_nat (List.length results)); separator]. reflexivity.
    + unfold Block.lines, Block.fixed_lines, dict_get.
      repeat split; intros ->; reflexivity.
Qed.

Lemma format_results_never_raises_witness :
  fst (format_results Sample.no_repr [VDict []; Sample.pontianak] []) = inr tt.
Proof.
  apply (@format_results_never_raises Sample.no_repr
           [VDict []; Sample.pontianak] []).
  - repeat constructor.
  - repeat (apply Forall_cons; [vm_compute; reflexivity|]). apply Forall_nil.
Defined.

(** C6 at a record on the equator.  Its latitude is present, and 0.0; the
    report has no coordinates line.  A quarter of a degree south the line
    is there. *)
Theorem equator_record_has_no_coordinates_line :
  dict_lookup [(lit "latitude", VFloat (S754_zero false))] (lit "latitude")
  = Some (VFloat (S754_zero false))
  /\ is_record Sample.pontianak = true
  /\ format_results Sample.no_repr [Sample.pontianak] []
     = (inr tt,
        [ header 1; separator;
          village_prefix 1 ++ lit "Siantan";
          code_prefix ++ lit "78242";
          district_prefix ++ lit "N/A";
          regency_prefix ++ lit "N/A";
          province_prefix ++ lit "N/A" ])
  /\ format_results Sample.no_repr [Sample.south_of_pontianak] []
     = (inr tt,
        [ header 1; separator;
          village_prefix 1 ++ lit "Siantan";
          code_prefix ++ lit "78242";
          district_prefix ++ lit "N/A";
          regency_prefix ++ lit "N/A";
          province_prefix ++ lit "N/A";
          coordinates_prefix ++ lit "-0.250000, 109.250000" ]).
Proof.
  repeat split; vm_compute; reflexivity.
Qed.

(** * Further properties of the client *)

(** ** The base URL *)

Section RstripFacts.
Variable drop : char -> bool.

Lemma lstrip_by_dropped (s : pystr) :
  exists pre,
    s = pre ++ lstrip_by drop s /\ Forall (fun c => drop c = true) pre.
Proof.
  induction s as [|c s IH]; simpl.
  - exists []. split; [reflexivity|constructor].
  - destruct (drop c) eqn:E.
    + destruct IH as (pre & E' & F). exists (c :: pre). split.
      * simpl. now rewrite <- E'.
      * now constructor.
    + exists []. split; [reflexivity|constructor].
Qed.

Lemma rstrip_by_dropped (s : pystr) :
  exists post,
    s = rstrip_by drop s ++ post /\ Forall (fun c => drop c = true) post.
Proof.
  unfold rstrip_by.
  destruct (lstrip_by_dropped (List.rev s)) as (pre & E & F).
  exists (List.rev pre). split.
  - rewrite <- rev_app_distr, <- E. now rewrite rev_involutive.
  - apply Forall_forall. intros c Hc. apply in_rev in Hc.
    rewrite Forall_forall in F. now apply F.
Qed.

Lemma rstrip_by_snoc (s : pystr) (c : char) :
  drop c = true -> rstrip_by drop (s ++ [c]) = rstrip_by drop s.
Proof.
  intros H. unfold rstrip_by. rewrite rev_app_distr. simpl. now rewrite H.
Qed.

Lemma rstrip_by_last (s post : pystr) (c : char) :
  rstrip_by drop s = post ++ [c] -> drop c = false.
Proof.
  unfold rstrip_by. intros E.
  apply (f_equal (@List.rev char)) in E.
  rewrite rev_involutive, rev_app_distr in E. simpl in E.
  pose proof (lstrip_by_head drop (List.rev s)) as H.
  rewrite E in H. exact H.
Qed.
End RstripFacts.

(** [__init__] keeps the base URL without its trailing slashes: one more
    slash at the end configures the same client, what is stored never ends
    with a slash, and only slashes were removed. *)
Theorem init_strips_trailing_slashes (base : pystr) :
  init (base ++ lit "/") = init base
  /\ (forall s, base_url (init base) <> s ++ lit "/")
  /\ exists slashes,
       base = base_url (init base) ++ slashes
       /\ Forall (fun c => c = 0x2F%N) slashes.
Proof.
  split; [|split].
  - unfold init. f_equal. apply (rstrip_by_snoc (N.eqb 0x2F%N)). reflexivity.
  - intros s E. apply rstrip_by_last in E. discriminate.
  - destruct (rstrip_by_dropped (N.eqb 0x2F%N) base) as (post & E & F).
    exists post. split; [exact E|].
    apply Forall_forall. intros c Hc. rewrite Forall_forall in F.
    symmetry. apply N.eqb_eq. now apply F.
Qed.

(** ** Requests *)

(** [search_postal_codes] sends at most one request, whatever its argument
    and whatever comes back: the log only grows, by nothing or by one GET
    to [{base_url}/search] with the 10 second timeout and the session's
    headers. *)
Theorem search_sends_at_most_one_request (net : Transport)
    (self : SimpleKodeposClient) (query : PyValue) (log : list Request) :
  exists sent,
    snd (search_postal_codes net self query log) = log ++ sent
    /\ (List.length sent <= 1)%nat
    /\ forall req, In req sent ->
         req_url req = base_url self ++ lit "/search"
         /\ req_timeout req = 10%Z
         /\ req_headers req = session self
         /\ exists q, req_params req = [(lit "q", VStr q)] /\ strip q = q.
Proof.
  unfold search_postal_codes.
  destruct (negb (truthy query) || negb (isinstance_str query))%bool.
  - exists []. rewrite app_nil_r. split; [reflexivity|].
    split; [auto|]. intros req [].
  - cbv zeta. destruct (len (strip (str_chars query)) <? 2)%Z.
    + exists []. rewrite app_nil_r. split; [reflexivity|].
      split; [auto|]. intros req [].
    + eexists [_]. split; [apply get_json_log|]. split; [auto|].
      intros req [<-|[]]. repeat split.
      eexists. split; [reflexivity|apply strip_idem].
Qed.

(** [detect_location] sends at most one request too, to
    [{base_url}/detect], carrying the two coordinates as given. *)
Theorem detect_sends_at_most_one_request (net : Transport)
    (self : SimpleKodeposClient) (latitude longitude : PyFloat.t)
    (log : list Request) :
  exists sent,
    snd (detect_location net self latitude longitude log) = log ++ sent
    /\ (List.length sent <= 1)%nat
    /\ forall req, In req sent ->
         req_url req = base_url self ++ lit "/detect"
         /\ req_timeout req = 10%Z
         /\ req_headers req = session self
         /\ req_params req
            = [(lit "latitude", VFloat latitude);
               (lit "longitude", VFloat longitude)]
         /\ in_interval (-11) 6 latitude /\ in_interval 95 141 longitude.
Proof.
  unfold detect_location.
  destruct (PyFloat.int_le (-11) latitude && PyFloat.le_int latitude 6)%bool
    eqn:E1; cbn [negb].
  - destruct (PyFloat.int_le 95 longitude && PyFloat.le_int longitude 141)%bool
      eqn:E2; cbn [negb].
    + eexists [_]. split; [apply get_json_log|]. split; [auto|].
      intros req [<-|[]]. repeat split; now apply in_box_iff.
    + exists []. rewrite app_nil_r. split; [reflexivity|].
      split; [auto|]. intros req [].
  - exists []. rewrite app_nil_r. split; [reflexivity|].
    split; [auto|]. intros req [].
Qed.

(** An argument that is not a string is refused like an empty one, with
    the first message and no request. *)
Theorem search_rejects_non_string (net : Transport) (self : SimpleKodeposClient)
    (query : PyValue) (log : list Request) :
  isinstance_str query = false ->
  search_postal_codes net self query log
  = (inl (Exc ValueError (lit "Query must be a non-empty string") None None),
     log).
Proof.
  intros H. unfold search_postal_codes. rewrite H.
  now rewrite orb_true_r.
Qed.

Lemma search_rejects_non_string_witness :
  search_postal_codes Sample.net_200 Sample.client (VInt 10110) []
  = (inl (Exc ValueError (lit "Query must be a non-empty string") None None),
     []).
Proof.
  apply (@search_rejects_non_string Sample.net_200 Sample.client (VInt 10110) []).
  reflexivity.
Defined.

(** The two messages of [search_postal_codes]: the empty string gets the
    first, a string that is only short once stripped (blank ones included)
    gets the second. *)
Theorem search_validation_messages (net : Transport)
    (self : SimpleKodeposClient) (q : pystr) (log : list Request) :
  (len (strip q) < 2)%Z ->
  search_postal_codes net self (VStr q) log
  = (inl (Exc ValueError
            (if PyStr.eqb q [] then lit "Query must be a non-empty string"
             else lit "Query must be at least 2 characters long")
            None None), log).
Proof.
  intros H. unfold search_postal_codes.
  destruct q as [|c q]; [reflexivity|].
  cbn [truthy isinstance_str negb orb str_chars].
  assert ((len (strip (c :: q)) <? 2)%Z = true) as -> by lia.
  unfold PyStr.eqb. destruct (list_eq_dec _ _ _); [discriminate|reflexivity].
Qed.

Lemma search_validation_messages_witness :
  search_postal_codes Sample.net_200 Sample.client (VStr (lit "   ")) []
  = (inl (Exc ValueError (lit "Query must be at least 2 characters long")
            None None), []).
Proof.
  apply (@search_validation_messages Sample.net_200 Sample.client (lit "   ") []).
  vm_compute. reflexivity.
Defined.

(** ** What the handlers let through *)

(** An exception of the transport that is none of [Timeout],
    [ConnectionError], [HTTPError] reaches the caller as it is, after the
    one request. *)
Theorem unhandled_exception_passes_through (net : Transport)
    (self : SimpleKodeposClient) (call : Net PyValue) (req : Request)
    (e : PyExc) (log : list Request) :
  valid_call net self call req ->
  net req = Failure e ->
  issubclass (exc_class e) Timeout = false ->
  issubclass (exc_class e) ConnectionError = false ->
  issubclass (exc_class e) HTTPError = false ->
  call log = (inl e, log ++ [req]).
Proof.
  intros Hc Hn H1 H2 H3.
  destruct (valid_call_get_json Hc) as (u & params & -> & E).
  rewrite E, get_json_run. cbv zeta. rewrite Hn.
  unfold request_handlers. now rewrite H1, H2, H3.
Qed.

Lemma unhandled_exception_passes_through_witness :
  search_postal_codes
    (fun _ => Failure (Exc TooManyRedirects (lit "Exceeded 30 redirects.") None None))
    Sample.client Sample.jakarta []
  = (inl (Exc TooManyRedirects (lit "Exceeded 30 redirects.") None None),
     [search_request Sample.client (lit "Jakarta")]).
Proof.
  apply (@unhandled_exception_passes_through
           (fun _ => Failure (Exc TooManyRedirects (lit "Exceeded 30 redirects.")
                                None None))
           Sample.client _ (search_request Sample.client (lit "Jakarta"))
           (Exc TooManyRedirects (lit "Exceeded 30 redirects.") None None) []).
  - left. exists (lit "Jakarta"). split; [vm_compute; discriminate|].
    split; reflexivity.
  - reflexivity.
  - reflexivity.
  - reflexivity.
  - reflexivity.
Defined.

(** A reply that is not an HTTP error and whose body is not JSON raises the
    decoder's [JSONDecodeError], with the decoder's message: no handler
    catches it, so it is not turned into the client's [RequestException],
    and it is a [ValueError] to a caller that catches by class. *)
Theorem invalid_json_raises_decode_error (net : Transport)
    (self : SimpleKodeposClient) (call : Net PyValue) (req : Request)
    (r : Response) (msg : pystr) (log : list Request) :
  valid_call net self call req ->
  net req = Reply r ->
  json_body r = inl msg ->
  ~ (400 <= status_code r < 600)%Z ->
  call log = (inl (Exc JSONDecodeError msg None None), log ++ [req])
  /\ issubclass JSONDecodeError ValueError = true
  /\ issubclass JSONDecodeError RequestException = true.
Proof.
  intros Hc Hn Hj Hs.
  destruct (valid_call_get_json Hc) as (u & params & -> & E).
  rewrite E, get_json_run. cbv zeta. rewrite Hn, Hj.
  assert (((400 <=? status_code r) && (status_code r <? 600))%Z%bool = false)
    as -> by lia.
  repeat split.
Qed.

Lemma invalid_json_raises_decode_error_witness :
  fst (detect_location
         (fun _ => Reply {| status_code := 200; reason := lit "OK"; url := [];
                            json_body := inl (lit "Expecting value") |})
         Sample.client Sample.lat Sample.lng [])
  = inl (Exc JSONDecodeError (lit "Expecting value") None None).
Proof.
  refine (f_equal fst (proj1 (@invalid_json_raises_decode_error
            (fun _ => Reply {| status_code := 200; reason := lit "OK"; url := [];
                               json_body := inl (lit "Expecting value") |})
            Sample.client
            _ (detect_request Sample.client Sample.lat Sample.lng)
            _ (lit "Expecting value") [] _ eq_refl eq_refl _))).
  - right. exists Sample.lat, Sample.lng.
    split; [apply in_box_iff; vm_compute; reflexivity|].
    split; [apply in_box_iff; vm_compute; reflexivity|].
    split; reflexivity.
  - simpl. lia.
Defined.

(** A connect timeout is both a [ConnectionError] and a [Timeout]; the
    [Timeout] clause comes first, so it is reported as a timeout, never as
    a failure to connect. *)
Theorem connect_timeout_reported_as_timeout (net : Transport)
    (self : SimpleKodeposClient) (call : Net PyValue) (req : Request)
    (e : PyExc) (log : list Request) :
  valid_call net self call req ->
  net req = Failure e ->
  exc_class e = ConnectTimeout ->
  issubclass (exc_class e) ConnectionError = true
  /\ call log
     = (inl (Exc RequestException (lit "Request timeout after 10 seconds")
               None (Some e)), log ++ [req]).
Proof.
  intros Hc Hn He.
  destruct (valid_call_get_json Hc) as (u & params & -> & E).
  rewrite E, get_json_run. cbv zeta. rewrite Hn.
  unfold request_handlers. rewrite He. split; reflexivity.
Qed.

Lemma connect_timeout_reported_as_timeout_witness :
  fst (search_postal_codes
         (fun _ => Failure (Exc ConnectTimeout (lit "timed out") None None))
         Sample.client Sample.jakarta [])
  = inl (Exc RequestException (lit "Request timeout after 10 seconds") None
           (Some (Exc ConnectTimeout (lit "timed out") None None))).
Proof.
  refine (f_equal fst (proj2 (@connect_timeout_reported_as_timeout
            (fun _ => Failure (Exc ConnectTimeout (lit "timed out") None None))
            Sample.client
            _ (search_request Sample.client (lit "Jakarta")) _ [] _ eq_refl eq_refl))).
  left. exists (lit "Jakarta"). split; [vm_compute; discriminate|].
  split; reflexivity.
Defined.

(** ** The two bounds checks *)

Lemma not_a_number_outside (lo hi : Z) (f : PyFloat.t) :
  PyFloat.value f = None -> ~ in_interval lo hi f.
Proof. intros H (q & E & _). congruence. Qed.

(** The latitude is checked first: when it is out of range the latitude
    message is raised whatever the longitude is; the longitude message
    means the latitude was in range.  NaN and the infinities denote no
    number, so either one is refused. *)
Theorem detect_location_messages (net : Transport) (self : SimpleKodeposClient)
    (latitude longitude : PyFloat.t) (log : list Request) :
  (~ in_interval (-11) 6 latitude ->
   detect_location net self latitude longitude log
   = (inl (Exc ValueError
             (lit "Latitude must be between -11 and 6 degrees (Indonesian bounds)")
             None None), log))
  /\ (in_interval (-11) 6 latitude -> ~ in_interval 95 141 longitude ->
      detect_location net self latitude longitude log
      = (inl (Exc ValueError
                (lit "Longitude must be between 95 and 141 degrees (Indonesian bounds)")
                None None), log))
  /\ (PyFloat.value latitude = None \/ PyFloat.value longitude = None ->
      exists msg,
        detect_location net self latitude longitude log
        = (inl (Exc ValueError msg None None), log)).
Proof.
  split; [|split].
  - intros H. unfold detect_location. now rewrite (in_box_false H).
  - intros H1 H2. unfold detect_location.
    apply in_box_iff in H1. rewrite H1. now rewrite (in_box_false H2).
  - intros [H|H]; apply detect_invalid; [left|right];
      now apply not_a_number_outside.
Qed.

Lemma detect_location_messages_witness :
  (exists msg,
     detect_location Sample.net_200 Sample.client S754_nan Sample.lng []
     = (inl (Exc ValueError msg None None), []))
  /\ detect_location Sample.net_200 Sample.client Sample.lat
       (S754_infinity false) []
     = (inl (Exc ValueError
               (lit "Longitude must be between 95 and 141 degrees (Indonesian bounds)")
               None None), []).
Proof.
  split.
  - apply (proj2 (proj2 (@detect_location_messages Sample.net_200 Sample.client
                           S754_nan Sample.lng []))).
    left. reflexivity.
  - apply (proj1 (proj2 (@detect_location_messages Sample.net_200 Sample.client
                           Sample.lat (S754_infinity false) []))).
    + apply in_box_iff. vm_compute. reflexivity.
    + apply not_a_number_outside. reflexivity.
Defined.

(** * Further properties of the report *)

Section BlockFacts.
Variable repr_other : PyValue -> pystr.

Lemma format_items_app (before rest : list PyValue) :
  Forall (fun item => is_record item = true) before ->
  forall (index : Z) (out : list pystr),
    format_items repr_other index (before ++ rest) out
    = format_items repr_other (index + Z.of_nat (List.length before)) rest
        (out ++ List.concat
                  (map (fun p => Block.of_item repr_other (fst p) (snd p))
                     (Block.enumerate index before))).
Proof.
  induction 1 as [|item before Hitem _ IH]; intros index out.
  - cbn. now rewrite Z.add_0_r, app_nil_r.
  - rewrite <- app_comm_cons.
    cbn [format_items Block.enumerate map List.concat fst snd List.length].
    destruct item as [| | | | | |d]; try discriminate.
    rewrite (bind_run _ _ _ (format_item_record repr_other d index out Hitem)).
    rewrite IH. cbn [Block.of_item]. rewrite <- app_assoc.
    replace (index + 1 + Z.of_nat (List.length before))%Z
      with (index + Z.of_nat (S (List.length before)))%Z by lia.
    reflexivity.
Qed.

Lemma format_item_not_dict (index : Z) (item : PyValue) (out : list pystr) :
  (forall d, item <> VDict d) ->
  format_item repr_other index item out
  = (inl (Exc AttributeError
            (lit "'" ++ type_name item ++ lit "' object has no attribute 'get'")
            None None), out).
Proof.
  intros H. destruct item as [| | | | | |d]; try reflexivity. now elim (H d).
Qed.

Lemma length_lines (index : Z) (d : PyDict) :
  (5 <= List.length (Block.lines repr_other index d) <= 9)%nat.
Proof.
  unfold Block.lines, Block.coordinates_lines, Block.elevation_lines,
    Block.timezone_lines, Block.distance_lines.
  rewrite !length_app.
  destruct (truthy (Block.field d (lit "latitude"))
            && truthy (Block.field d (lit "longitude")))%bool,
    (truthy (Block.field d (lit "elevation"))),
    (truthy (Block.field d (lit "timezone"))),
    (truthy (Block.field d (lit "distance"))); simpl; lia.
Qed.

Lemma length_blocks (results : list PyValue) :
  Forall (fun item => is_record item = true) results ->
  forall index : Z,
    (5 * List.length results
     <= List.length
          (List.concat (map (fun p => Block.of_item repr_other (fst p) (snd p))
                          (Block.enumerate index results)))
     <= 9 * List.length results)%nat.
Proof.
  induction 1 as [|item results Hitem _ IH]; intros index; [simpl; lia|].
  cbn [Block.enumerate map List.concat fst snd List.length].
  rewrite length_app. specialize (IH (index + 1)%Z).
  destruct item as [| | | | | |d]; try discriminate.
  cbn [Block.of_item]. pose proof (length_lines index d). lia.
Qed.
End BlockFacts.

(** A report of [n] records whose text fields print is between [2 + 5 n]
    and [2 + 9 n] lines long: the header and the separator, then five to
    nine lines for each record. *)
Theorem report_length_bounds (repr_other : PyValue -> pystr)
    (results : list PyValue) (out : list pystr) :
  results <> [] ->
  Forall (fun item => is_record item = true) results ->
  Forall (fun item => printable_record item = true) results ->
  exists printed,
    format_results repr_other results out = (inr tt, out ++ printed)
    /\ (2 + 5 * List.length results <= List.length printed
        <= 2 + 9 * List.length results)%nat.
Proof.
  intros Hne Hrec _. eexists. split.
  - now apply format_results_records.
  - cbn [List.length]. unfold Block.all.
    pose proof (length_blocks repr_other Hrec 1). lia.
Qed.

Lemma report_length_bounds_witness :
  exists printed,
    format_results Sample.no_repr [Sample.menteng; Sample.with_elevation] []
    = (inr tt, printed)
    /\ (12 <= List.length printed <= 20)%nat.
Proof.
  destruct (@report_length_bounds Sample.no_repr
              [Sample.menteng; Sample.with_elevation] []
              ltac:(discriminate) ltac:(repeat constructor)
              ltac:(repeat (apply Forall_cons; [vm_compute; reflexivity|]);
                    apply Forall_nil))
    as (printed & E & H).
  exists printed. split; [exact E|exact H].
Defined.

(** An item that is not a dict stops the report with the [AttributeError]
    of its missing [get]; by then the header, which counts every item,
    the separator and the blocks of the records before it (their text
    fields print) are out, and nothing of the items after it is. *)
Theorem non_dict_item_stops_report (repr_other : PyValue -> pystr)
    (before after : list PyValue) (item : PyValue) (out : list pystr) :
  Forall (fun item => is_record item = true) before ->
  Forall (fun item => printable_record item = true) before ->
  (forall d, item <> VDict d) ->
  format_results repr_other (before ++ item :: after) out
  = (inl (Exc AttributeError
            (lit "'" ++ type_name item ++ lit "' object has no attribute 'get'")
            None None),
     out ++ header (Z.of_nat (List.length before + 1 + List.length after))
         :: separator :: List.concat (Block.all repr_other before)).
Proof.
  intros Hrec _ Hitem. unfold format_results.
  destruct (before ++ item :: after) as [|x l] eqn:E;
    [now destruct before|]. rewrite <- E. clear E x l.
  rewrite (bind_run _ _ _ (print_run _ _)).
  rewrite (bind_run _ _ _ (print_run _ _)).
  rewrite (format_items_app repr_other (item :: after) Hrec).
  cbn [format_items].
  rewrite (bind_raise _ _ _ (format_item_not_dict repr_other _ _ Hitem)).
  rewrite length_app. cbn [List.length]. unfold Block.all.
  rewrite <- !app_assoc. cbn [app].
  replace (List.length before + S (List.length after))%nat
    with (List.length before + 1 + List.length after)%nat by lia.
  reflexivity.
Qed.

Lemma non_dict_item_stops_report_witness :
  format_results Sample.no_repr [Sample.menteng; VStr (lit "10110"); Sample.menteng] []
  = (inl (Exc AttributeError (lit "'str' object has no attribute 'get'") None None),
     header 3 :: separator :: Block.of_item Sample.no_repr 1 Sample.menteng).
Proof.
  etransitivity.
  - exact (@non_dict_item_stops_report Sample.no_repr [Sample.menteng]
             [Sample.menteng] (VStr (lit "10110")) []
             ltac:(repeat constructor)
             ltac:(repeat (apply Forall_cons; [vm_compute; reflexivity|]);
                   apply Forall_nil)
             ltac:(discriminate)).
  - cbn [Block.all Block.enumerate map List.concat fst snd app List.length].
    now rewrite app_nil_r.
Defined.

(** ** The optional lines *)

Ltac block_line Hin E :=
  unfold Block.lines, Block.fixed_lines, Block.coordinates_lines,
    Block.elevation_lines, Block.timezone_lines, Block.distance_lines in Hin;
  repeat first
    [ apply in_app_or in Hin; destruct Hin as [Hin|Hin]
    | destruct Hin as [Hin|Hin]
    | match type of Hin with
      | In _ (if ?c then _ else _) => destruct c eqn:?
      end ];
  try contradiction; subst;
  rewrite <- ?app_assoc in E;
  try (exfalso;
       match type of E with
       | _ ++ ?x = _ => set (rest := x) in E; clearbody rest
       end;
       cbv in E; discriminate E).

Section OptionalFacts.
Variable repr_other : PyValue -> pystr.
Variable index : Z.
Variable d : PyDict.

Lemma coordinates_line_truthy (line : pystr) :
  In line (Block.lines repr_other index d) ->
  startswith coordinates_prefix line ->
  (truthy (Block.field d (lit "latitude"))
   && truthy (Block.field d (lit "longitude")))%bool = true.
Proof. intros Hin [post E]. block_line Hin E. reflexivity. Qed.

Lemma elevation_line_truthy (line : pystr) :
  In line (Block.lines repr_other index d) ->
  startswith elevation_prefix line ->
  truthy (Block.field d (lit "elevation")) = true.
Proof. intros Hin [post E]. block_line Hin E. reflexivity. Qed.

Lemma timezone_line_truthy (line : pystr) :
  In line (Block.lines repr_other index d) ->
  startswith timezone_prefix line ->
  truthy (Block.field d (lit "timezone")) = true.
Proof. intros Hin [post E]. block_line Hin E. reflexivity. Qed.

Lemma distance_line_truthy (line : pystr) :
  In line (Block.lines repr_other index d) ->
  startswith distance_prefix line ->
  truthy (Block.field d (lit "distance")) = true.
Proof. intros Hin [post E]. block_line Hin E. reflexivity. Qed.

Lemma truthy_coordinates_line :
  (truthy (Block.field d (lit "latitude"))
   && truthy (Block.field d (lit "longitude")))%bool = true ->
  exists line,
    In line (Block.lines repr_other index d)
    /\ startswith coordinates_prefix line.
Proof.
  intros T. eexists. split.
  - unfold Block.lines, Block.coordinates_lines. rewrite T.
    apply in_or_app. right. apply in_or_app. left. now left.
  - eexists; reflexivity.
Qed.

Lemma truthy_elevation_line :
  truthy (Block.field d (lit "elevation")) = true ->
  exists line,
    In line (Block.lines repr_other index d)
    /\ startswith elevation_prefix line.
Proof.
  intros T. eexists. split.
  - unfold Block.lines, Block.elevation_lines. rewrite T.
    do 2 (apply in_or_app; right). apply in_or_app. left. now left.
  - eexists; reflexivity.
Qed.

Lemma truthy_timezone_line :
  truthy (Block.field d (lit "timezone")) = true ->
  exists line,
    In line (Block.lines repr_other index d)
    /\ startswith timezone_prefix line.
Proof.
  intros T. eexists. split.
  - unfold Block.lines, Block.timezone_lines. rewrite T.
    do 3 (apply in_or_app; right). apply in_or_app. left. now left.
  - eexists; reflexivity.
Qed.

Lemma truthy_distance_line :
  truthy (Block.field d (lit "distance")) = true ->
  exists line,
    In line (Block.lines repr_other index d)
    /\ startswith distance_prefix line.
Proof.
  intros T. eexists. split.
  - unfold Block.lines, Block.distance_lines. rewrite T.
    do 4 (apply in_or_app; right). now left.
  - eexists; reflexivity.
Qed.
End OptionalFacts.

(** Each optional line of the block of a record whose text fields print
    is printed exactly when the value it shows is truthy (for the
    coordinates: both values).  So a field that is present but zero,
    empty or null has no line. *)
Theorem optional_lines_follow_truthiness (repr_other : PyValue -> pystr)
    (index : Z) (d : PyDict) (out : list pystr) :
  is_record (VDict d) = true ->
  printable_record (VDict d) = true ->
  exists block,
    format_item repr_other index (VDict d) out = (inr tt, out ++ block)
    /\ ((exists line, In line block /\ startswith coordinates_prefix line)
        <-> (truthy (dict_get d (lit "latitude") VNone)
             && truthy (dict_get d (lit "longitude") VNone))%bool = true)
    /\ ((exists line, In line block /\ startswith elevation_prefix line)
        <-> truthy (dict_get d (lit "elevation") VNone) = true)
    /\ ((exists line, In line block /\ startswith timezone_prefix line)
        <-> truthy (dict_get d (lit "timezone") VNone) = true)
    /\ ((exists line, In line block /\ startswith distance_prefix line)
        <-> truthy (dict_get d (lit "distance") VNone) = true).
Proof.
  intros Hrec _. exists (Block.lines repr_other index d).
  split; [now apply format_item_record|].
  repeat split.
  - intros (line & Hin & Hp). eapply coordinates_line_truthy; eassumption.
  - apply truthy_coordinates_line.
  - intros (line & Hin & Hp). eapply elevation_line_truthy; eassumption.
  - apply truthy_elevation_line.
  - intros (line & Hin & Hp). eapply timezone_line_truthy; eassumption.
  - apply truthy_timezone_line.
  - intros (line & Hin & Hp). eapply distance_line_truthy; eassumption.
  - apply truthy_distance_line.
Qed.

Lemma optional_lines_follow_truthiness_witness :
  exists block,
    format_item Sample.no_repr 1
      (VDict [(lit "village", VStr (lit "Ancol")); (lit "elevation", VInt 0);
              (lit "distance", VFloat (S754_zero false))]) []
    = (inr tt, block)
    /\ ~ (exists line, In line block /\ startswith elevation_prefix line)
    /\ ~ (exists line, In line block /\ startswith distance_prefix line).
Proof.
  destruct (@optional_lines_follow_truthiness Sample.no_repr 1
              [(lit "village", VStr (lit "Ancol")); (lit "elevation", VInt 0);
               (lit "distance", VFloat (S754_zero false))] [] eq_refl
              ltac:(vm_compute; reflexivity))
    as (block & E & _ & He & _ & Hd).
  exists block. split; [exact E|]. split.
  - intros H. apply He in H. discriminate H.
  - intros H. apply Hd in H. discriminate H.
Defined.

(** ** Coordinates that are not numbers *)

Lemma format_fixed_raises {St} (prec : nat) (v : PyValue) (s : St) :
  Block.is_number v = false ->
  format_fixed prec v s
  = (inl match v with
         | VStr _ =>
             Exc ValueError
               (lit "Unknown format code 'f' for object of type 'str'") None None
         | VInt _ =>
             Exc OverflowError (lit "int too large to convert to float")
               None None
         | _ =>
             Exc TypeError
               (lit "unsupported format string passed to " ++ type_name v
                  ++ lit ".__format__") None None
         end, s).
Proof.
  intros H. destruct v as [|b|z|f|t|l|l]; cbn [Block.is_number] in H;
    try discriminate H; try reflexivity.
  cbn [format_fixed]. destruct (PyFloat.of_int z); [discriminate H|reflexivity].
Qed.

(** Two truthy coordinates of which one is not a number stop the block
    after its five fixed lines (whose fields print), with the exception
    the [.6f] format raises on the first of the two that is not a number:
    [ValueError] for a string such as ['-6.2'], [OverflowError] for an
    integer too large for a float, [TypeError] naming the type for a list
    or a dict. *)
Theorem non_numeric_coordinate_stops_block (repr_other : PyValue -> pystr)
    (index : Z) (d : PyDict) (out : list pystr) :
  printable_record (VDict d) = true ->
  truthy (dict_get d (lit "latitude") VNone) = true ->
  truthy (dict_get d (lit "longitude") VNone) = true ->
  (Block.is_number (dict_get d (lit "latitude") VNone)
   && Block.is_number (dict_get d (lit "longitude") VNone))%bool = false ->
  let bad :=
    if Block.is_number (dict_get d (lit "latitude") VNone)
    then dict_get d (lit "longitude") VNone
    else dict_get d (lit "latitude") VNone in
  format_item repr_other index (VDict d) out
  = (inl match bad with
         | VStr _ =>
             Exc ValueError
               (lit "Unknown format code 'f' for object of type 'str'") None None
         | VInt _ =>
             Exc OverflowError (lit "int too large to convert to float")
               None None
         | VList _ =>
             Exc TypeError
               (lit "unsupported format string passed to list.__format__")
               None None
         | VDict _ =>
             Exc TypeError
               (lit "unsupported format string passed to dict.__format__")
               None None
         | _ =>
             Exc TypeError
               (lit "unsupported format string passed to " ++ type_name bad
                  ++ lit ".__format__") None None
         end,
     out ++ [ [0x0A%N] ++ of_Z index ++ lit ". " ++ [0x1F3E0%N] ++ lit " "
                ++ py_str repr_other (dict_get d (lit "village") NA);
              code_prefix ++ py_str repr_other (dict_get d (lit "code") NA);
              district_prefix ++ py_str repr_other (dict_get d (lit "district") NA);
              regency_prefix ++ py_str repr_other (dict_get d (lit "regency") NA);
              province_prefix ++ py_str repr_other (dict_get d (lit "province") NA) ]).
Proof.
  intros _ Tlat Tlng Hnum bad.
  unfold format_item.
  repeat (rewrite (bind_run _ _ _ (item_get_run _ _ _ _))
          || rewrite (bind_run _ _ _ (print_run _ _))).
  rewrite Tlat, Tlng. cbn [andb].
  set (after := ((((out ++ _) ++ _) ++ _) ++ _) ++ _).
  assert (Eout : after
                 = out ++ [ [0x0A%N] ++ of_Z index ++ lit ". " ++ [0x1F3E0%N]
                              ++ lit " "
                              ++ py_str repr_other (dict_get d (lit "village") NA);
                            code_prefix
                              ++ py_str repr_other (dict_get d (lit "code") NA);
                            district_prefix
                              ++ py_str repr_other (dict_get d (lit "district") NA);
                            regency_prefix
                              ++ py_str repr_other (dict_get d (lit "regency") NA);
                            province_prefix
                              ++ py_str repr_other (dict_get d (lit "province") NA) ]).
  { unfold after, village_prefix, NL, HOUSE. now rewrite <- !app_assoc. }
  rewrite <- Eout. clear Eout. unfold bad. clear bad.
  destruct (Block.is_number (dict_get d (lit "latitude") VNone)) eqn:Nlat.
  - cbn [andb] in Hnum. apply bind_raise.
    rewrite (bind_run _ _ _ (format_fixed_run 6 _ after Nlat)).
    apply bind_raise. rewrite (format_fixed_raises 6 _ after Hnum).
    now destruct (dict_get d (lit "longitude") VNone).
  - apply bind_raise. apply bind_raise.
    rewrite (format_fixed_raises 6 _ after Nlat).
    now destruct (dict_get d (lit "latitude") VNone).
Qed.

Lemma non_numeric_coordinate_stops_block_witness :
  format_item Sample.no_repr 1
    (VDict [(lit "code", VStr (lit "10110"));
            (lit "latitude", VFloat Sample.lat);
            (lit "longitude", VList [VStr (lit "106.8")])]) []
  = (inl (Exc TypeError
            (lit "unsupported format string passed to list.__format__")
            None None),
     [ [0x0A%N] ++ lit "1. " ++ [0x1F3E0%N] ++ lit " N/A";
       code_prefix ++ lit "10110";
       district_prefix ++ lit "N/A"; regency_prefix ++ lit "N/A";
       province_prefix ++ lit "N/A" ]).
Proof.
  exact (@non_numeric_coordinate_stops_block Sample.no_repr 1
           [(lit "code", VStr (lit "10110"));
            (lit "latitude", VFloat Sample.lat);
            (lit "longitude", VList [VStr (lit "106.8")])] []
           ltac:(vm_compute; reflexivity) eq_refl eq_refl eq_refl).
Defined.

(** * The command line *)

Section MainFacts.
Variable net : Transport.
Variable repr_other : PyValue -> pystr.
Variable float_of_str : pystr -> pystr + PyFloat.t.

Lemma on_out_run {A} (m : Out A) (w : World) :
  on_out m w
  = (fst (m (stdout w)),
     {| stdout := snd (m (stdout w)); requests := requests w |}).
Proof. unfold on_out. now destruct (m (stdout w)). Qed.

Lemma on_net_run {A} (m : Net A) (w : World) :
  on_net m w
  = (fst (m (requests w)),
     {| stdout := stdout w; requests := snd (m (requests w)) |}).
Proof. unfold on_net. now destruct (m (requests w)). Qed.

Lemma on_out_print (l : pystr) (w : World) :
  on_out (print l) w
  = (inr tt, {| stdout := stdout w ++ [l]; requests := requests w |}).
Proof. reflexivity. Qed.

Lemma format_results_value_list (results : list PyValue) :
  format_results_value repr_other (VList results)
  = format_results repr_other results.
Proof. now destruct results. Qed.

(** The search branch, once the call has returned or raised. *)
Lemma search_branch_run (query : pystr) (w : World) :
  search_branch net repr_other query w
  = let w1 := {| stdout := stdout w ++ [SEARCHING ++ query];
                 requests := requests w |} in
    match search_postal_codes net (init API_BASE_URL) (VStr query) (requests w) with
    | (inl e, log) => (inl e, {| stdout := stdout w1; requests := log |})
    | (inr results, log) =>
        let w2 := {| stdout := stdout w1; requests := log |} in
        (status <- item_get results (lit "statusCode") VNone ;;
         (if eq_int status 200 then
            data <- item_get results (lit "data") (VList []) ;;
            on_out (format_results_value repr_other data)
          else
            err <- item_get results (lit "error") (VStr (lit "Unknown error")) ;;
            on_out (print (ERROR_PREFIX ++ py_str repr_other err)))) w2
    end.
Proof.
  unfold search_branch. cbv zeta.
  rewrite (bind_run _ _ _ (on_out_print _ _)).
  unfold bind at 1. rewrite on_net_run. cbn [stdout requests].
  now destruct (search_postal_codes _ _ _ _) as [[e|results] log].
Qed.
End MainFacts.

(** ** One argument: a search *)

(** Whatever [search_postal_codes] raises, a refused query as much as a
    failed request, ends the script with status 1: after the line that
    announces the search (the argument as typed), the handler of
    [Exception] prints the message as an unexpected error. *)
Theorem search_error_exits_with_status_1 (net : Transport)
    (repr_other : PyValue -> pystr) (float_of_str : pystr -> pystr + PyFloat.t)
    (query : pystr) (w : World) (e : PyExc) (log : list Request) :
  search_postal_codes net (init API_BASE_URL) (VStr query) (requests w)
  = (inl e, log) ->
  main_block net repr_other float_of_str query [] w
  = (1%Z, {| stdout := stdout w ++ [SEARCHING ++ query;
                                    UNEXPECTED_PREFIX ++ exc_msg e];
             requests := log |}).
Proof.
  intros H. unfold main_block, dispatch.
  rewrite search_branch_run. cbv zeta. rewrite H. cbn [stdout requests].
  now rewrite <- app_assoc.
Qed.

Lemma search_error_exits_with_status_1_witness :
  main_block Sample.net_200 Sample.no_repr SampleArgs.float_of_str
    (lit " a ") [] SampleArgs.start
  = (1%Z, {| stdout := [SEARCHING ++ lit " a ";
                        UNEXPECTED_PREFIX
                          ++ lit "Query must be at least 2 characters long"];
             requests := [] |}).
Proof.
  exact (@search_error_exits_with_status_1 Sample.net_200 Sample.no_repr
           SampleArgs.float_of_str (lit " a ") SampleArgs.start
           (Exc ValueError (lit "Query must be at least 2 characters long")
              None None) [] eq_refl).
Defined.

(** When the reply is an object whose [statusCode] equals 200 and whose
    [data] is a list of records whose text fields print (or is missing),
    the script prints the announcement and then the report of
    [format_results], and ends with status 0. *)
Theorem search_success_prints_report (net : Transport)
    (repr_other : PyValue -> pystr) (float_of_str : pystr -> pystr + PyFloat.t)
    (query : pystr) (w : World) (env : PyDict) (results : list PyValue)
    (log : list Request) :
  search_postal_codes net (init API_BASE_URL) (VStr query) (requests w)
  = (inr (VDict env), log) ->
  eq_int (dict_get env (lit "statusCode") VNone) 200 = true ->
  dict_get env (lit "data") (VList []) = VList results ->
  Forall (fun item => is_record item = true) results ->
  Forall (fun item => printable_record item = true) results ->
  main_block net repr_other float_of_str query [] w
  = (0%Z,
     {| stdout :=
          stdout w ++ (SEARCHING ++ query)
            :: match results with
               | [] => [NO_RESULTS]
               | _ :: _ =>
                   header (Z.of_nat (List.length results)) :: separator
                     :: List.concat (Block.all repr_other results)
               end;
        requests := log |}).
Proof.
  intros H Hs Hd Hrec _. unfold main_block, dispatch.
  rewrite search_branch_run. cbv zeta. rewrite H. cbn [stdout requests].
  rewrite (bind_run _ _ _ (item_get_run _ _ _ _)). rewrite Hs.
  rewrite (bind_run _ _ _ (item_get_run _ _ _ _)). rewrite Hd.
  rewrite format_results_value_list, on_out_run. cbn [stdout requests].
  destruct results as [|item rest].
  - cbn. now rewrite <- app_assoc.
  - rewrite format_results_records; [|discriminate|exact Hrec].
    cbn [fst snd]. now rewrite <- app_assoc.
Qed.

Lemma search_success_prints_report_witness :
  main_block Sample.net_200 Sample.no_repr SampleArgs.float_of_str
    (lit "Jakarta") [] SampleArgs.start
  = (0%Z,
     {| stdout := (SEARCHING ++ lit "Jakarta") :: header 1 :: separator
                    :: Block.of_item Sample.no_repr 1 Sample.menteng;
        requests := [search_request Sample.client (lit "Jakarta")] |}).
Proof.
  etransitivity.
  - exact (@search_success_prints_report Sample.net_200 Sample.no_repr
             SampleArgs.float_of_str (lit "Jakarta") SampleArgs.start
             [(lit "statusCode", VInt 200); (lit "data", VList [Sample.menteng])]
             [Sample.menteng] [search_request Sample.client (lit "Jakarta")]
             eq_refl eq_refl eq_refl ltac:(repeat constructor)
             ltac:(repeat (apply Forall_cons; [vm_compute; reflexivity|]);
                   apply Forall_nil)).
  - cbn [Block.all Block.enumerate map List.concat fst snd app List.length
           stdout SampleArgs.start].
    now rewrite app_nil_r.
Defined.

(** A reply whose [statusCode] is not 200 is shown as an error line, with
    the [error] field (a value that prints) or ['Unknown error'], and the
    script still ends with status 0; a string ['200'] does not count as
    200. *)
Theorem search_api_error_exits_with_status_0 (net : Transport)
    (repr_other : PyValue -> pystr) (float_of_str : pystr -> pystr + PyFloat.t)
    (query : pystr) (w : World) (env : PyDict) (log : list Request) :
  search_postal_codes net (init API_BASE_URL) (VStr query) (requests w)
  = (inr (VDict env), log) ->
  eq_int (dict_get env (lit "statusCode") VNone) 200 = false ->
  printable (dict_get env (lit "error") (VStr (lit "Unknown error"))) = true ->
  main_block net repr_other float_of_str query [] w
  = (0%Z,
     {| stdout :=
          stdout w ++ [SEARCHING ++ query;
                       ERROR_PREFIX
                         ++ py_str repr_other
                              (dict_get env (lit "error")
                                 (VStr (lit "Unknown error")))];
        requests := log |})
  /\ eq_int (VStr (lit "200")) 200 = false.
Proof.
  intros H Hs _. split; [|reflexivity]. unfold main_block, dispatch.
  rewrite search_branch_run. cbv zeta. rewrite H. cbn [stdout requests].
  rewrite (bind_run _ _ _ (item_get_run _ _ _ _)). rewrite Hs.
  rewrite (bind_run _ _ _ (item_get_run _ _ _ _)).
  rewrite on_out_print. cbn [stdout requests]. now rewrite <- app_assoc.
Qed.

Lemma search_api_error_exits_with_status_0_witness :
  main_block (fun _ => Reply {| status_code := 200; reason := lit "OK";
                                url := []; json_body := inr Sample.envelope_404 |})
    Sample.no_repr SampleArgs.float_of_str (lit "Atlantis") [] SampleArgs.start
  = (0%Z,
     {| stdout := [SEARCHING ++ lit "Atlantis"; ERROR_PREFIX ++ lit "Not found"];
        requests := [search_request Sample.client (lit "Atlantis")] |}).
Proof.
  exact (proj1 (@search_api_error_exits_with_status_0
           (fun _ => Reply {| status_code := 200; reason := lit "OK";
                              url := []; json_body := inr Sample.envelope_404 |})
           Sample.no_repr SampleArgs.float_of_str (lit "Atlantis")
           SampleArgs.start
           [(lit "statusCode", VInt 404); (lit "error", VStr (lit "Not found"))]
           [search_request Sample.client (lit "Atlantis")] eq_refl eq_refl
           ltac:(vm_compute; reflexivity))).
Defined.

(** ** Two arguments: coordinates *)

Section DetectBranchFacts.
Variable net : Transport.
Variable repr_other : PyValue -> pystr.
Variable float_of_str : pystr -> pystr + PyFloat.t.

Lemma detect_branch_unparsable (a b : pystr) (w : World) :
  (exists msg, float_of_str a = inl msg)
  \/ (exists msg, float_of_str b = inl msg) ->
  detect_branch net repr_other float_of_str a b w
  = (inr tt, {| stdout := stdout w ++ [INVALID_COORDINATES];
                requests := requests w |}).
Proof.
  intros H. unfold detect_branch, try_except, bind, float. cbv zeta.
  destruct (float_of_str a) as [ma|la]; [reflexivity|].
  destruct H as [[msg H]|[msg H]]; [discriminate|]. rewrite H. reflexivity.
Qed.

(** The branch once both arguments are floats and [detect_location] has
    returned or raised. *)
Lemma detect_branch_run (a b : pystr) (la lo : PyFloat.t) (w : World) :
  float_of_str a = inr la -> float_of_str b = inr lo ->
  detect_branch net repr_other float_of_str a b w
  = let out := stdout w ++ [DETECTING ++ py_str repr_other (VFloat la)
                              ++ lit ", " ++ py_str repr_other (VFloat lo)] in
    match detect_location net (init API_BASE_URL) la lo (requests w) with
    | (inl e, log) =>
        if issubclass (exc_class e) ValueError then
          (inr tt, {| stdout := out ++ [INVALID_COORDINATES]; requests := log |})
        else (inl e, {| stdout := out; requests := log |})
    | (inr results, log) =>
        try_except
          (ok <- found results ;;
           (if ok then
              d <- as_dict results (lit "__getitem__") ;;
              data <- item_subscript d (lit "data") ;;
              on_out (format_results repr_other [data])
            else
              err <- item_get results (lit "error")
                       (VStr (lit "No location found")) ;;
              on_out (print (ERROR_PREFIX ++ py_str repr_other err))))
          usage_handler {| stdout := out; requests := log |}
    end.
Proof.
  intros Ha Hb. unfold detect_branch, float. cbv zeta. rewrite Ha, Hb.
  unfold try_except.
  unfold bind at 1. unfold ret at 1.
  unfold bind at 1. unfold ret at 1.
  unfold bind at 1. rewrite on_out_print.
  unfold bind at 1. rewrite on_net_run. cbn [stdout requests].
  destruct (detect_location _ _ _ _ _) as [[e|results] log]; cbn [fst snd].
  - unfold usage_handler.
    destruct (issubclass (exc_class e) ValueError); reflexivity.
  - reflexivity.
Qed.
End DetectBranchFacts.

(** Coordinates that [float] or [detect_location] refuses both end in the
    usage line and status 0, with no request: [except ValueError] catches
    the bounds error as well, so its message (which bound, which value)
    is never shown. *)
Theorem rejected_coordinates_print_usage (net : Transport)
    (repr_other : PyValue -> pystr) (float_of_str : pystr -> pystr + PyFloat.t)
    (a b : pystr) (w : World) :
  ((exists msg, float_of_str a = inl msg)
   \/ (exists msg, float_of_str b = inl msg) ->
   main_block net repr_other float_of_str a [b] w
   = (0%Z, {| stdout := stdout w ++ [INVALID_COORDINATES];
              requests := requests w |}))
  /\ (forall la lo,
        float_of_str a = inr la -> float_of_str b = inr lo ->
        ~ in_interval (-11) 6 la \/ ~ in_interval 95 141 lo ->
        main_block net repr_other float_of_str a [b] w
        = (0%Z,
           {| stdout :=
                stdout w ++ [DETECTING ++ py_str repr_other (VFloat la)
                               ++ lit ", " ++ py_str repr_other (VFloat lo);
                             INVALID_COORDINATES];
              requests := requests w |})).
Proof.
  split.
  - intros H. unfold main_block, dispatch.
    now rewrite (detect_branch_unparsable net repr_other _ _ _ w H).
  - intros la lo Ha Hb H. unfold main_block, dispatch.
    rewrite (detect_branch_run net repr_other _ _ _ w Ha Hb). cbv zeta.
    destruct (detect_invalid net (init API_BASE_URL) (requests w) H)
      as (msg & ->).
    cbn [exc_class]. cbn. now rewrite <- app_assoc.
Qed.

Lemma rejected_coordinates_print_usage_witness :
  main_block Sample.net_200 SampleArgs.repr SampleArgs.float_of_str
    (lit "7.5") [lit "106.75"] SampleArgs.start
  = (0%Z,
     {| stdout := [DETECTING ++ lit "7.5, 106.75"; INVALID_COORDINATES];
        requests := [] |}).
Proof.
  refine (proj2 (@rejected_coordinates_print_usage Sample.net_200
            SampleArgs.repr SampleArgs.float_of_str (lit "7.5") (lit "106.75")
            SampleArgs.start) Sample.lat_north Sample.lng eq_refl eq_refl _).
  left. intros H. apply in_box_iff in H. vm_compute in H. discriminate H.
Defined.

(** A body that is not JSON is reported with the same usage line, after
    the one request: its [JSONDecodeError] is a [ValueError]. *)
Theorem invalid_json_prints_usage (net : Transport)
    (repr_other : PyValue -> pystr) (float_of_str : pystr -> pystr + PyFloat.t)
    (a b : pystr) (la lo : PyFloat.t) (r : Response) (msg : pystr) (w : World) :
  float_of_str a = inr la -> float_of_str b = inr lo ->
  in_interval (-11) 6 la -> in_interval 95 141 lo ->
  net (detect_request (init API_BASE_URL) la lo) = Reply r ->
  json_body r = inl msg ->
  ~ (400 <= status_code r < 600)%Z ->
  main_block net repr_other float_of_str a [b] w
  = (0%Z,
     {| stdout :=
          stdout w ++ [DETECTING ++ py_str repr_other (VFloat la)
                         ++ lit ", " ++ py_str repr_other (VFloat lo);
                       INVALID_COORDINATES];
        requests := requests w ++ [detect_request (init API_BASE_URL) la lo] |}).
Proof.
  intros Ha Hb Hla Hlo Hn Hj Hs. unfold main_block, dispatch.
  rewrite (detect_branch_run net repr_other _ _ _ w Ha Hb). cbv zeta.
  rewrite (detect_valid net (init API_BASE_URL) (requests w) Hla Hlo).
  rewrite get_json_run. cbv zeta.
  fold (detect_request (init API_BASE_URL) la lo). rewrite Hn, Hj.
  assert (((400 <=? status_code r) && (status_code r <? 600))%Z%bool = false)
    as -> by lia.
  cbn. now rewrite <- app_assoc.
Qed.

Lemma invalid_json_prints_usage_witness :
  main_block SampleArgs.not_json SampleArgs.repr SampleArgs.float_of_str
    (lit "-6.25") [lit "106.75"] SampleArgs.start
  = (0%Z,
     {| stdout := [DETECTING ++ lit "-6.25, 106.75"; INVALID_COORDINATES];
        requests := [detect_request Sample.client Sample.lat Sample.lng] |}).
Proof.
  refine (@invalid_json_prints_usage SampleArgs.not_json SampleArgs.repr
            SampleArgs.float_of_str (lit "-6.25") (lit "106.75")
            Sample.lat Sample.lng _ (lit "Expecting value") SampleArgs.start
            eq_refl eq_refl _ _ eq_refl eq_refl _).
  - apply in_box_iff. vm_compute. reflexivity.
  - apply in_box_iff. vm_compute. reflexivity.
  - simpl. lia.
Defined.

(** When the reply is an object whose [statusCode] equals 200 and whose
    [data] is a record whose text fields print, the script prints the
    coordinates as parsed and then the report of that one record. *)
Theorem detected_record_is_reported (net : Transport)
    (repr_other : PyValue -> pystr) (float_of_str : pystr -> pystr + PyFloat.t)
    (a b : pystr) (la lo : PyFloat.t) (env d : PyDict) (log : list Request)
    (w : World) :
  float_of_str a = inr la -> float_of_str b = inr lo ->
  detect_location net (init API_BASE_URL) la lo (requests w)
  = (inr (VDict env), log) ->
  eq_int (dict_get env (lit "statusCode") VNone) 200 = true ->
  dict_lookup env (lit "data") = Some (VDict d) ->
  d <> [] ->
  is_record (VDict d) = true ->
  printable_record (VDict d) = true ->
  main_block net repr_other float_of_str a [b] w
  = (0%Z,
     {| stdout :=
          stdout w ++ (DETECTING ++ py_str repr_other (VFloat la)
                         ++ lit ", " ++ py_str repr_other (VFloat lo))
            :: header 1 :: separator :: Block.lines repr_other 1 d;
        requests := log |}).
Proof.
  intros Ha Hb H Hs Hd Hne Hrec _. unfold main_block, dispatch.
  rewrite (detect_branch_run net repr_other _ _ _ w Ha Hb). cbv zeta.
  rewrite H. unfold try_except, found.
  assert (Hdata : dict_get env (lit "data") VNone = VDict d).
  { unfold dict_get. now rewrite Hd. }
  assert (Ht : truthy (VDict d) = true) by now destruct d.
  set (w1 := {| stdout := _; requests := log |}).
  assert (E : (ok <-
                 (status <- item_get (VDict env) (lit "statusCode") VNone ;;
                  (if eq_int status 200 then
                     data <- item_get (VDict env) (lit "data") VNone ;;
                     ret (truthy data)
                   else ret false)) ;;
               (if ok then
                  d0 <- as_dict (VDict env) (lit "__getitem__") ;;
                  data <- item_subscript d0 (lit "data") ;;
                  on_out (format_results repr_other [data])
                else
                  err <- item_get (VDict env) (lit "error")
                           (VStr (lit "No location found")) ;;
                  on_out (print (ERROR_PREFIX ++ py_str repr_other err)))) w1
              = (inr tt,
                 {| stdout := stdout w1 ++ header 1 :: separator
                                :: Block.lines repr_other 1 d;
                    requests := log |})).
  { unfold bind at 1. unfold bind at 1. rewrite item_get_run, Hs.
    unfold bind at 1. rewrite item_get_run, Hdata. unfold ret at 1. rewrite Ht.
    unfold bind at 1. unfold as_dict, ret at 1.
    unfold bind at 1. unfold item_subscript. rewrite Hd. unfold ret at 1.
    rewrite on_out_run.
    rewrite format_results_records;
      [|discriminate|constructor; [exact Hrec|constructor]].
    cbn [fst snd stdout requests w1 List.length Block.all Block.enumerate map
           List.concat Block.of_item Z.of_nat Pos.of_succ_nat].
    now rewrite app_nil_r. }
  rewrite E. unfold w1. cbn [stdout]. now rewrite <- app_assoc.
Qed.

Lemma detected_record_is_reported_witness :
  main_block
    (fun _ => Reply {| status_code := 200; reason := lit "OK"; url := [];
                       json_body :=
                         inr (VDict [(lit "statusCode", VInt 200);
                                     (lit "data", Sample.menteng)]) |})
    SampleArgs.repr SampleArgs.float_of_str
    (lit "-6.25") [lit "106.75"] SampleArgs.start
  = (0%Z,
     {| stdout := (DETECTING ++ lit "-6.25, 106.75") :: header 1 :: separator
                    :: Block.of_item SampleArgs.repr 1 Sample.menteng;
        requests := [detect_request Sample.client Sample.lat Sample.lng] |}).
Proof.
  exact (@detected_record_is_reported
           (fun _ => Reply {| status_code := 200; reason := lit "OK"; url := [];
                              json_body :=
                                inr (VDict [(lit "statusCode", VInt 200);
                                            (lit "data", Sample.menteng)]) |})
           SampleArgs.repr SampleArgs.float_of_str
           (lit "-6.25") (lit "106.75") Sample.lat Sample.lng
           [(lit "statusCode", VInt 200); (lit "data", Sample.menteng)]
           [(lit "village", VStr (lit "Menteng")); (lit "code", VStr (lit "10110"));
            (lit "district", VStr (lit "Menteng"));
            (lit "regency", VStr (lit "Jakarta Pusat"));
            (lit "province", VStr (lit "DKI Jakarta"))]
           [detect_request Sample.client Sample.lat Sample.lng]
           SampleArgs.start eq_refl eq_refl eq_refl eq_refl eq_refl
           ltac:(discriminate) eq_refl ltac:(vm_compute; reflexivity)).
Defined.

(** An exception of [detect_location] that is not a [ValueError] (a
    timeout, a refused connection, an HTTP error) ends the script with
    status 1 and the unexpected-error line. *)
Theorem detect_failure_exits_with_status_1 (net : Transport)
    (repr_other : PyValue -> pystr) (float_of_str : pystr -> pystr + PyFloat.t)
    (a b : pystr) (la lo : PyFloat.t) (e : PyExc) (log : list Request)
    (w : World) :
  float_of_str a = inr la -> float_of_str b = inr lo ->
  detect_location net (init API_BASE_URL) la lo (requests w) = (inl e, log) ->
  issubclass (exc_class e) ValueError = false ->
  main_block net repr_other float_of_str a [b] w
  = (1%Z,
     {| stdout :=
          stdout w ++ [DETECTING ++ py_str repr_other (VFloat la)
                         ++ lit ", " ++ py_str repr_other (VFloat lo);
                       UNEXPECTED_PREFIX ++ exc_msg e];
        requests := log |}).
Proof.
  intros Ha Hb H Hc. unfold main_block, dispatch.
  rewrite (detect_branch_run net repr_other _ _ _ w Ha Hb). cbv zeta.
  rewrite H, Hc. cbn [stdout requests]. now rewrite <- app_assoc.
Qed.

Lemma detect_failure_exits_with_status_1_witness :
  main_block Sample.net_timeout SampleArgs.repr SampleArgs.float_of_str
    (lit "-6.25") [lit "106.75"] SampleArgs.start
  = (1%Z,
     {| stdout := [DETECTING ++ lit "-6.25, 106.75";
                   UNEXPECTED_PREFIX ++ lit "Request timeout after 10 seconds"];
        requests := [detect_request Sample.client Sample.lat Sample.lng] |}).
Proof.
  exact (@detect_failure_exits_with_status_1 Sample.net_timeout SampleArgs.repr
           SampleArgs.float_of_str (lit "-6.25") (lit "106.75")
           Sample.lat Sample.lng
           (Exc RequestException (lit "Request timeout after 10 seconds") None
              (Some Sample.read_timeout))
           [detect_request Sample.client Sample.lat Sample.lng]
           SampleArgs.start eq_refl eq_refl eq_refl eq_refl).
Defined.

(** ** More arguments *)

(** With three arguments or more neither branch is taken: nothing is
    printed, nothing is sent, and the status is 0. *)
Theorem three_arguments_do_nothing (net : Transport)
    (repr_other : PyValue -> pystr) (float_of_str : pystr -> pystr + PyFloat.t)
    (first : pystr) (others : list pystr) (w : World) :
  (2 <= List.length others)%nat ->
  main_block net repr_other float_of_str first others w = (0%Z, w).
Proof.
  intros H. destruct others as [|second [|third others]]; simpl in H; try lia.
  reflexivity.
Qed.

Lemma three_arguments_do_nothing_witness :
  main_block Sample.net_200 Sample.no_repr SampleArgs.float_of_str
    (lit "Jakarta") [lit "Menteng"; lit "10110"] SampleArgs.start
  = (0%Z, SampleArgs.start).
Proof.
  apply (@three_arguments_do_nothing Sample.net_200 Sample.no_repr
           SampleArgs.float_of_str (lit "Jakarta")
           [lit "Menteng"; lit "10110"] SampleArgs.start).
  simpl. lia.
Defined.

(** ** Requests of a run *)

Section RequestFacts.
Context {A B : Type}.

Lemma quiet_ret (a : A) : quiet (ret a).
Proof. intros w. reflexivity. Qed.

Lemma quiet_raise (c : ExcClass) (msg : pystr) : quiet (@raise World A c msg).
Proof. intros w. reflexivity. Qed.

Lemma quiet_on_out (m : Out A) : quiet (on_out m).
Proof. intros w. now rewrite on_out_run. Qed.

Lemma quiet_bind (m : Script A) (k : A -> Script B) :
  quiet m -> (forall a, quiet (k a)) -> quiet (bind m k).
Proof.
  intros Hm Hk w. unfold bind. specialize (Hm w).
  destruct (m w) as [[e|a] w']; cbn [snd] in *; [exact Hm|].
  now rewrite Hk.
Qed.

Lemma quiet_one_request (m : Script A) : quiet m -> one_request m.
Proof.
  intros H w. exists []. rewrite app_nil_r. split; [apply H|auto].
Qed.

Lemma one_request_bind_quiet (m : Script A) (k : A -> Script B) :
  one_request m -> (forall a, quiet (k a)) -> one_request (bind m k).
Proof.
  intros Hm Hk w. unfold bind. destruct (Hm w) as (more & E & L).
  destruct (m w) as [[e|a] w']; cbn [snd] in *.
  - now exists more.
  - exists more. now rewrite Hk.
Qed.

Lemma quiet_bind_one_request (m : Script A) (k : A -> Script B) :
  quiet m -> (forall a, one_request (k a)) -> one_request (bind m k).
Proof.
  intros Hm Hk w. unfold bind. specialize (Hm w).
  destruct (m w) as [[e|a] w']; cbn [snd] in *.
  - exists []. rewrite app_nil_r. split; [exact Hm|auto].
  - destruct (Hk a w') as (more & E & L). exists more. now rewrite E, Hm.
Qed.

Lemma one_request_try_except (m : Script A)
    (handler : PyExc -> option (Script A)) :
  one_request m ->
  (forall e h, handler e = Some h -> quiet h) ->
  one_request (try_except m handler).
Proof.
  intros Hm Hh w. unfold try_except. destruct (Hm w) as (more & E & L).
  destruct (m w) as [[e|a] w']; cbn [snd] in *.
  - destruct (handler e) as [h|] eqn:Eh; [|now exists more].
    exists more. now rewrite (Hh e h Eh).
  - now exists more.
Qed.
End RequestFacts.

Lemma quiet_item_get (item : PyValue) (k : pystr) (default : PyValue) :
  quiet (item_get item k default).
Proof. intros w. now destruct item. Qed.

Lemma quiet_as_dict (item : PyValue) (attr : pystr) : quiet (as_dict item attr).
Proof. intros w. now destruct item. Qed.

Lemma quiet_item_subscript (d : PyDict) (k : pystr) : quiet (item_subscript d k).
Proof. intros w. unfold item_subscript. now destruct (dict_lookup d k). Qed.

Lemma one_request_search (net : Transport) (self : SimpleKodeposClient)
    (query : PyValue) :
  one_request (on_net (search_postal_codes net self query)).
Proof.
  intros w. rewrite on_net_run. cbn [snd requests].
  unfold search_postal_codes.
  destruct (negb (truthy query) || negb (isinstance_str query))%bool.
  - exists []. rewrite app_nil_r. auto.
  - cbv zeta. destruct (len (strip (str_chars query)) <? 2)%Z.
    + exists []. rewrite app_nil_r. auto.
    + eexists [_]. split; [apply get_json_log|auto].
Qed.

Lemma one_request_detect (net : Transport) (self : SimpleKodeposClient)
    (latitude longitude : PyFloat.t) :
  one_request (on_net (detect_location net self latitude longitude)).
Proof.
  intros w. rewrite on_net_run. cbn [snd requests].
  unfold detect_location.
  destruct (PyFloat.int_le (-11) latitude && PyFloat.le_int latitude 6)%bool;
    cbn [negb]; [|exists []; rewrite app_nil_r; auto].
  destruct (PyFloat.int_le 95 longitude && PyFloat.le_int longitude 141)%bool;
    cbn [negb]; [|exists []; rewrite app_nil_r; auto].
  eexists [_]. split; [apply get_json_log|auto].
Qed.

Ltac prove_quiet :=
  repeat first
    [ apply quiet_on_out | apply quiet_item_get | apply quiet_as_dict
    | apply quiet_item_subscript | apply quiet_ret | apply quiet_raise
    | apply quiet_bind; [|intros ?]
    | match goal with
      | |- quiet (if ?c then _ else _) => destruct c
      | |- quiet (match ?x with _ => _ end) => destruct x
      end ].

(** A run sends at most one request, whatever the arguments and whatever
    comes back; what was sent before stays in the log. *)
Theorem main_block_sends_at_most_one_request (net : Transport)
    (repr_other : PyValue -> pystr) (float_of_str : pystr -> pystr + PyFloat.t)
    (first : pystr) (others : list pystr) (w : World) :
  exists more,
    requests (snd (main_block net repr_other float_of_str first others w))
    = requests w ++ more
    /\ (List.length more <= 1)%nat.
Proof.
  assert (H : one_request (dispatch net repr_other float_of_str first others)).
  { unfold dispatch. destruct others as [|second [|third others]].
    - unfold search_branch. cbv zeta.
      apply quiet_bind_one_request; [prove_quiet|intros _].
      apply one_request_bind_quiet; [apply one_request_search|intros results].
      prove_quiet.
    - unfold detect_branch. cbv zeta. apply one_request_try_except.
      + unfold float.
        apply quiet_bind_one_request; [prove_quiet|intros latitude].
        apply quiet_bind_one_request; [prove_quiet|intros longitude].
        apply quiet_bind_one_request; [prove_quiet|intros _].
        apply one_request_bind_quiet; [apply one_request_detect|intros results].
        unfold found. prove_quiet.
      + intros e h. unfold usage_handler.
        destruct (issubclass (exc_class e) ValueError); [|discriminate].
        intros [= <-]. prove_quiet.
    - apply quiet_one_request. prove_quiet. }
  unfold main_block. destruct (H w) as (more & E & L).
  destruct (dispatch _ _ _ _ _ w) as [[e|u] w']; cbn [snd requests] in *;
    now exists more.
Qed.

(** No [ValueError] leaves the coordinates branch: what escapes to the
    handler of [Exception], and so to status 1, is of another class. *)
Theorem coordinates_branch_raises_no_value_error (net : Transport)
    (repr_other : PyValue -> pystr) (float_of_str : pystr -> pystr + PyFloat.t)
    (a b : pystr) (w : World) (e : PyExc) :
  fst (detect_branch net repr_other float_of_str a b w) = inl e ->
  issubclass (exc_class e) ValueError = false.
Proof.
  unfold detect_branch. cbv zeta. unfold try_except.
  match goal with |- context [match ?body w with _ => _ end] =>
    destruct (body w) as [[e'|u] w']
  end; cbn [fst]; [|discriminate].
  unfold usage_handler.
  destruct (issubclass (exc_class e') ValueError) eqn:C.
  - rewrite on_out_print. discriminate.
  - now intros [= <-].
Qed.

Lemma coordinates_branch_raises_no_value_error_witness :
  issubclass RequestException ValueError = false.
Proof.
  exact (@coordinates_branch_raises_no_value_error Sample.net_timeout
           SampleArgs.repr SampleArgs.float_of_str (lit "-6.25") (lit "106.75")
           SampleArgs.start
           (Exc RequestException (lit "Request timeout after 10 seconds") None
              (Some Sample.read_timeout)) eq_refl).
Defined.

(** ** A [data] field that is not a list *)

(** [format_results] does not check what it is given.  A truthy value
    that is not a list never gets a complete report: a number has no
    [len], so nothing is printed before the [TypeError]; a string or an
    object is counted (characters, keys) in the header, and then its first
    element, a string, has no [get]. *)
Theorem format_results_value_not_a_list (repr_other : PyValue -> pystr)
    (results : PyValue) (out : list pystr) :
  truthy results = true ->
  (forall l, results <> VList l) ->
  exists e,
    format_results_value repr_other results out
    = (inl e,
       out ++ match results with
              | VStr s => [header (len s); separator]
              | VDict d => [header (Z.of_nat (List.length d)); separator]
              | _ => []
              end)
    /\ e = match results with
           | VStr _ | VDict _ =>
               Exc AttributeError (lit "'str' object has no attribute 'get'")
                 None None
           | _ =>
               Exc TypeError
                 (lit "object of type '" ++ type_name results
                    ++ lit "' has no len()") None None
           end.
Proof.
  intros Ht Hl. unfold format_results_value. rewrite Ht. cbn [negb].
  destruct results as [|b|z|f|s|l|d]; try discriminate Ht.
  - eexists. split; [|reflexivity]. cbn. now rewrite app_nil_r.
  - eexists. split; [|reflexivity]. cbn. now rewrite app_nil_r.
  - eexists. split; [|reflexivity]. cbn. now rewrite app_nil_r.
  - destruct s as [|c s]; [discriminate Ht|].
    eexists. split; [|reflexivity]. cbn [py_len py_iter map].
    rewrite (bind_run _ _ out (s' := out) (a := len (c :: s)) eq_refl).
    rewrite (bind_run _ _ _ (print_run _ _)).
    rewrite (bind_run _ _ _ (print_run _ _)).
    unfold bind at 1. unfold ret at 1. cbn [format_items].
    match goal with |- context [format_item _ _ ?item] =>
      assert (Hn : forall d0, item <> VDict d0) by (intros; discriminate)
    end.
    rewrite (bind_raise _ _ _ (format_item_not_dict repr_other 1 _ Hn)).
    now rewrite <- app_assoc.
  - now elim (Hl l).
  - destruct d as [|[k v] d]; [discriminate Ht|].
    eexists. split; [|reflexivity]. cbn [py_len py_iter map fst].
    rewrite (bind_run _ _ out (s' := out)
               (a := Z.of_nat (List.length ((k, v) :: d))) eq_refl).
    rewrite (bind_run _ _ _ (print_run _ _)).
    rewrite (bind_run _ _ _ (print_run _ _)).
    unfold bind at 1. unfold ret at 1. cbn [format_items].
    match goal with |- context [format_item _ _ ?item] =>
      assert (Hn : forall d0, item <> VDict d0) by (intros; discriminate)
    end.
    rewrite (bind_raise _ _ _ (format_item_not_dict repr_other 1 _ Hn)).
    now rewrite <- app_assoc.
Qed.

Lemma format_results_value_not_a_list_witness :
  format_results_value Sample.no_repr Sample.menteng []
  = (inl (Exc AttributeError (lit "'str' object has no attribute 'get'")
            None None),
     [header 5; separator]).
Proof.
  destruct (@format_results_value_not_a_list Sample.no_repr Sample.menteng []
              eq_refl ltac:(discriminate)) as (e & E & ->).
  exact E.
Defined.

(** * The interactive modes *)

Section TurnFacts.
Variable net : Transport.
Variable repr_other : PyValue -> pystr.

Lemma print_all_run (ls : list pystr) :
  forall out, print_all ls out = (inr tt, out ++ ls).
Proof.
  induction ls as [|l ls IH]; intros out.
  - cbn. unfold ret. now rewrite app_nil_r.
  - cbn [print_all]. rewrite (bind_run _ _ _ (print_run _ _)).
    rewrite IH. now rewrite <- app_assoc.
Qed.

Lemma on_out_print_all (ls : list pystr) (w : World) :
  on_out (print_all ls) w
  = (inr tt, {| stdout := stdout w ++ ls; requests := requests w |}).
Proof. rewrite on_out_run. now rewrite print_all_run. Qed.

(** A turn never raises: one of its three handlers takes every
    exception, and a handler only prints. *)
Lemma turn_total (m : Script unit) (invalid : pystr) (w : World) :
  exists w', try_except m (turn_handler invalid) w = (inr tt, w').
Proof.
  unfold try_except. destruct (m w) as [[e|[]] w1].
  - unfold turn_handler. rewrite on_out_print. eexists; reflexivity.
  - eexists; reflexivity.
Qed.

Lemma turn_requests (m : Script unit) (invalid : pystr) (w : World) :
  requests (snd (try_except m (turn_handler invalid) w)) = requests (snd (m w)).
Proof.
  unfold try_except. destruct (m w) as [[e|[]] w1]; [|reflexivity].
  unfold turn_handler. now rewrite on_out_print.
Qed.

Lemma search_turn_run (client : SimpleKodeposClient) (line : pystr) (w : World) :
  (2 <= len (strip line))%Z ->
  exists w',
    search_turn net repr_other client (strip line) w = (inr tt, w')
    /\ requests w' = requests w ++ [search_request client line].
Proof.
  intros H. unfold search_turn.
  match goal with |- context [try_except ?m ?h] =>
    destruct (turn_total m (WARNING ++ lit "  Invalid input: ") w) as (w' & E);
    pose proof (turn_requests m (WARNING ++ lit "  Invalid input: ") w) as R
  end.
  exists w'. split; [exact E|]. rewrite E in R. cbn [snd] in R. rewrite R.
  clear E R.
  assert (Hk : forall results : PyValue,
             quiet (status <- item_get results (lit "statusCode") VNone ;;
                    (if eq_int status 200 then
                       data <- item_get results (lit "data") (VList []) ;;
                       (if truthy data then
                          on_out (format_results_value repr_other data)
                        else
                          on_out (print (lit "No results found for your search query.")))
                     else
                       error_msg <- item_get results (lit "error")
                                      (VStr (lit "Unknown error")) ;;
                       on_out (print (CROSS ++ lit " Search failed: "
                                        ++ py_str repr_other error_msg))))).
  { intros results. prove_quiet. }
  unfold bind at 1. rewrite on_net_run.
  assert (Hq : (2 <= len (strip (strip line)))%Z) by now rewrite strip_idem.
  rewrite (search_valid net client (strip line) (requests w) Hq).
  pose proof (get_json_log net client (base_url client ++ lit "/search")
                [(lit "q", VStr (strip (strip line)))] (requests w)) as L.
  rewrite strip_idem in L |- *. fold (search_request client line) in L.
  destruct (get_json _ _ _ _ _) as [[e|results] log]; cbn [fst snd] in *.
  - exact L.
  - rewrite Hk. exact L.
Qed.
End TurnFacts.

Section SearchLoopFacts.
Variable net : Transport.
Variable repr_other : PyValue -> pystr.
Variable client : SimpleKodeposClient.

(** One line that is not the exit command: the loop goes on with the rest,
    having sent the line if it is a query and nothing otherwise. *)
Lemma search_loop_step (line : pystr) (rest : list pystr) (w : World) :
  is_exit line = false ->
  exists w1,
    search_loop net repr_other client (line :: rest) w
    = search_loop net repr_other client rest w1
    /\ requests w1
       = requests w ++ (if is_query line then [search_request client line] else []).
Proof.
  intros Hx. unfold is_exit in Hx. cbn [search_loop]. cbv zeta. rewrite Hx.
  unfold is_query.
  destruct (lower_is (strip line) (lit "help")) eqn:Hh; cbn [negb andb].
  - rewrite (bind_run _ _ _ (on_out_print_all _ _)).
    eexists. split; [reflexivity|]. cbn [requests]. now rewrite app_nil_r.
  - destruct (negb (truthy (VStr (strip line)))) eqn:Hb.
    + rewrite (bind_run _ _ _ (on_out_print _ _)).
      eexists. split; [reflexivity|]. cbn [requests].
      destruct (strip line); [|discriminate Hb]. cbn. now rewrite app_nil_r.
    + destruct (len (strip line) <? 2)%Z eqn:Hl.
      * rewrite (bind_run _ _ _ (on_out_print _ _)).
        eexists. split; [reflexivity|]. cbn [requests].
        assert ((2 <=? len (strip line))%Z = false) as -> by lia.
        now rewrite app_nil_r.
      * assert (H2 : (2 <= len (strip line))%Z) by lia.
        assert ((2 <=? len (strip line))%Z = true) as -> by lia.
        rewrite (bind_run _ _ _ (on_out_print _ _)).
        destruct (search_turn_run net repr_other client line
                    {| stdout := stdout w ++
                         [NL ++ MAGNIFIER ++ lit " Searching for: '"
                            ++ strip line ++ lit "'..."];
                       requests := requests w |} H2) as (w' & E & R).
        rewrite (bind_run _ _ _ E).
        rewrite (bind_run _ _ _ (on_out_print _ _)).
        eexists. split; [reflexivity|]. cbn [requests] in *. exact R.
Qed.

Lemma search_loop_run (lines : list pystr) :
  forall w : World,
  exists before w',
    Forall (fun line => is_exit line = false) before
    /\ requests w'
       = requests w ++ map (search_request client) (filter is_query before)
    /\ ((lines = before
         /\ search_loop net repr_other client lines w = (inr [], w')
         /\ exists out, stdout w' = out ++ [GOODBYE_EOF])
        \/ (exists command rest,
              lines = before ++ command :: rest
              /\ is_exit command = true
              /\ search_loop net repr_other client lines w = (inr rest, w')
              /\ exists out, stdout w' = out ++ [GOODBYE])).
Proof.
  induction lines as [|line lines IH]; intros w.
  - exists [], {| stdout := stdout w ++ [GOODBYE_EOF]; requests := requests w |}.
    split; [constructor|]. split; [cbn; now rewrite app_nil_r|].
    left. split; [reflexivity|]. split; [reflexivity|].
    now exists (stdout w).
  - destruct (is_exit line) eqn:Hx.
    + exists [], {| stdout := stdout w ++ [GOODBYE]; requests := requests w |}.
      split; [constructor|]. split; [cbn; now rewrite app_nil_r|].
      right. exists line, lines. split; [reflexivity|]. split; [exact Hx|].
      split; [|now exists (stdout w)].
      unfold is_exit in Hx. cbn [search_loop]. cbv zeta. now rewrite Hx.
    + destruct (search_loop_step line lines w Hx) as (w1 & E & R).
      destruct (IH w1) as (before & w' & Hb & Hr & Hend).
      exists (line :: before), w'.
      split; [now constructor|]. split.
      * rewrite Hr, R, <- app_assoc. cbn [filter].
        now destruct (is_query line).
      * rewrite E.
        destruct Hend as [(-> & El & Ho)|(command & rest & -> & Hc & El & Ho)].
        -- left. now repeat split.
        -- right. exists command, rest. now repeat split.
Qed.
End SearchLoopFacts.

(** [interactive_search] never raises.  It reads lines up to the first
    one that is [exit] (in any letter case, spaces around it aside) or to
    the end of the input, leaves the lines after it unread, and prints
    its goodbye last.  The requests it sends are exactly the searches for
    the lines read that are neither [help] nor shorter than two
    characters once stripped, one each, in the order typed. *)
Theorem interactive_search_run (net : Transport)
    (repr_other : PyValue -> pystr) (lines : list pystr) (w : World) :
  exists before w',
    Forall (fun line => is_exit line = false) before
    /\ requests w'
       = requests w
         ++ map (search_request (init API_BASE_URL)) (filter is_query before)
    /\ ((lines = before
         /\ interactive_search net repr_other lines w = (inr [], w')
         /\ exists out, stdout w' = out ++ [GOODBYE_EOF])
        \/ (exists command rest,
              lines = before ++ command :: rest
              /\ is_exit command = true
              /\ interactive_search net repr_other lines w = (inr rest, w')
              /\ exists out, stdout w' = out ++ [GOODBYE])).
Proof.
  unfold interactive_search. cbv zeta.
  rewrite (bind_run _ _ _ (on_out_print_all _ _)).
  destruct (search_loop_run net repr_other (init API_BASE_URL) lines
              {| stdout := stdout w ++ search_intro; requests := requests w |})
    as (before & w' & H).
  now exists before, w'.
Qed.

Section DetectionLoopFacts.
Variable net : Transport.
Variable repr_other : PyValue -> pystr.
Variable float_of_str : pystr -> pystr + PyFloat.t.
Variable client : SimpleKodeposClient.

Lemma detect_location_log (latitude longitude : PyFloat.t) (log : list Request) :
  snd (detect_location net client latitude longitude log)
  = log ++ (if in_box latitude longitude
            then [detect_request client latitude longitude] else []).
Proof.
  unfold detect_location, in_box.
  destruct (PyFloat.int_le (-11) latitude && PyFloat.le_int latitude 6)%bool;
    cbn [negb andb]; [|cbn; now rewrite app_nil_r].
  destruct (PyFloat.int_le 95 longitude && PyFloat.le_int longitude 141)%bool;
    cbn [negb]; [|cbn; now rewrite app_nil_r].
  cbv zeta. apply get_json_log.
Qed.

Lemma detection_turn_run (line : pystr) (w : World) :
  lower_is (strip line) (lit "help") = false ->
  exists w',
    detection_turn net repr_other float_of_str client (strip line) w
    = (inr tt, w')
    /\ requests w'
       = requests w ++ detection_requests float_of_str client line.
Proof.
  intros Hh. unfold detection_requests, detection_turn.
  match goal with |- context [try_except ?m ?h] =>
    destruct (turn_total m (WARNING ++ lit "  Invalid coordinates: ") w)
      as (w' & E);
    pose proof (turn_requests m (WARNING ++ lit "  Invalid coordinates: ") w)
      as R
  end.
  exists w'. split; [exact E|]. rewrite E in R. cbn [snd] in R. rewrite R.
  clear E R. cbv zeta. unfold coordinates_of. rewrite Hh.
  destruct (split 0x2C%N (strip line)) as [|a [|b [|c parts]]];
    try (cbn; now rewrite app_nil_r).
  cbn [List.length Nat.eqb negb nth].
  rewrite (bind_run _ _ w (s' := w) (a := tt) eq_refl).
  unfold float.
  destruct (float_of_str (strip a)) as [ma|latitude];
    [cbn; now rewrite app_nil_r|].
  rewrite (bind_run _ _ w (s' := w) (a := latitude) eq_refl).
  destruct (float_of_str (strip b)) as [mb|longitude];
    [cbn; now rewrite app_nil_r|].
  rewrite (bind_run _ _ w (s' := w) (a := longitude) eq_refl).
  rewrite (bind_run _ _ _ (on_out_print _ _)).
  assert (Hk : forall results : PyValue,
             quiet (ok <- found results ;;
                    (if ok then
                       d <- as_dict results (lit "__getitem__") ;;
                       data <- item_subscript d (lit "data") ;;
                       on_out (format_results repr_other [data])
                     else
                       error_msg <- item_get results (lit "error")
                                      (VStr (lit "No postal code found for these coordinates")) ;;
                       on_out (print (CROSS ++ lit " Detection failed: "
                                        ++ py_str repr_other error_msg))))).
  { intros results. unfold found. prove_quiet. }
  unfold bind at 1. rewrite on_net_run. cbn [stdout requests].
  pose proof (detect_location_log latitude longitude (requests w)) as L.
  destruct (detect_location _ _ _ _ _) as [[e|results] log]; cbn [fst snd] in *.
  - rewrite L. now destruct (in_box latitude longitude).
  - rewrite Hk. cbn [requests]. rewrite L.
    now destruct (in_box latitude longitude).
Qed.
End DetectionLoopFacts.

Section DetectionLoopRun.
Variable net : Transport.
Variable repr_other : PyValue -> pystr.
Variable float_of_str : pystr -> pystr + PyFloat.t.
Variable client : SimpleKodeposClient.

Lemma detection_loop_step (line : pystr) (rest : list pystr) (w : World) :
  is_exit line = false ->
  exists w1,
    detection_loop net repr_other float_of_str client (line :: rest) w
    = detection_loop net repr_other float_of_str client rest w1
    /\ requests w1 = requests w ++ detection_requests float_of_str client line.
Proof.
  intros Hx. unfold is_exit in Hx. cbn [detection_loop]. cbv zeta. rewrite Hx.
  destruct (lower_is (strip line) (lit "help")) eqn:Hh.
  - rewrite (bind_run _ _ _ (on_out_print_all _ _)).
    eexists. split; [reflexivity|]. cbn [requests].
    unfold detection_requests, coordinates_of. rewrite Hh.
    now rewrite app_nil_r.
  - destruct (negb (truthy (VStr (strip line)))) eqn:Hb.
    + rewrite (bind_run _ _ _ (on_out_print _ _)).
      eexists. split; [reflexivity|]. cbn [requests].
      unfold detection_requests, coordinates_of. rewrite Hh.
      destruct (strip line); [|discriminate Hb]. cbn. now rewrite app_nil_r.
    + destruct (detection_turn_run net repr_other float_of_str client line w Hh)
        as (w' & E & R).
      rewrite (bind_run _ _ _ E).
      rewrite (bind_run _ _ _ (on_out_print _ _)).
      eexists. split; [reflexivity|]. cbn [requests]. exact R.
Qed.

Lemma detection_loop_run (lines : list pystr) :
  forall w : World,
  exists before w',
    Forall (fun line => is_exit line = false) before
    /\ requests w'
       = requests w ++ flat_map (detection_requests float_of_str client) before
    /\ ((lines = before
         /\ detection_loop net repr_other float_of_str client lines w
            = (inr [], w')
         /\ exists out, stdout w' = out ++ [GOODBYE_EOF])
        \/ (exists command rest,
              lines = before ++ command :: rest
              /\ is_exit command = true
              /\ detection_loop net repr_other float_of_str client lines w
                 = (inr rest, w')
              /\ exists out, stdout w' = out ++ [GOODBYE])).
Proof.
  induction lines as [|line lines IH]; intros w.
  - exists [], {| stdout := stdout w ++ [GOODBYE_EOF]; requests := requests w |}.
    split; [constructor|]. split; [cbn; now rewrite app_nil_r|].
    left. split; [reflexivity|]. split; [reflexivity|].
    now exists (stdout w).
  - destruct (is_exit line) eqn:Hx.
    + exists [], {| stdout := stdout w ++ [GOODBYE]; requests := requests w |}.
      split; [constructor|]. split; [cbn; now rewrite app_nil_r|].
      right. exists line, lines. split; [reflexivity|]. split; [exact Hx|].
      split; [|now exists (stdout w)].
      unfold is_exit in Hx. cbn [detection_loop]. cbv zeta. now rewrite Hx.
    + destruct (detection_loop_step line lines w Hx) as (w1 & E & R).
      destruct (IH w1) as (before & w' & Hb & Hr & Hend).
      exists (line :: before), w'.
      split; [now constructor|]. split.
      * rewrite Hr, R, <- app_assoc. reflexivity.
      * rewrite E.
        destruct Hend as [(-> & El & Ho)|(command & rest & -> & Hc & El & Ho)].
        -- left. now repeat split.
        -- right. exists command, rest. now repeat split.
Qed.
End DetectionLoopRun.

(** [interactive_location_detection] never raises either, stops at the
    first [exit] or at the end of the input, and prints its goodbye last.
    A line read sends a request exactly when it is not [help], has one
    comma, both sides parse as floats and the pair lies in the bounding
    box; the request is the detection of that pair. *)
Theorem interactive_location_detection_run (net : Transport)
    (repr_other : PyValue -> pystr) (float_of_str : pystr -> pystr + PyFloat.t)
    (lines : list pystr) (w : World) :
  exists before w',
    Forall (fun line => is_exit line = false) before
    /\ requests w'
       = requests w
         ++ flat_map (detection_requests float_of_str (init API_BASE_URL)) before
    /\ ((lines = before
         /\ interactive_location_detection net repr_other float_of_str lines w
            = (inr [], w')
         /\ exists out, stdout w' = out ++ [GOODBYE_EOF])
        \/ (exists command rest,
              lines = before ++ command :: rest
              /\ is_exit command = true
              /\ interactive_location_detection net repr_other float_of_str
                   lines w
                 = (inr rest, w')
              /\ exists out, stdout w' = out ++ [GOODBYE])).
Proof.
  unfold interactive_location_detection. cbv zeta.
  rewrite (bind_run _ _ _ (on_out_print_all _ _)).
  destruct (detection_loop_run net repr_other float_of_str (init API_BASE_URL)
              lines
              {| stdout := stdout w ++ detection_intro; requests := requests w |})
    as (before & w' & H).
  now exists before, w'.
Qed.

(** * The quick demo *)

Lemma quiet_first_of (data : PyValue) : quiet (first_of data).
Proof. intros w. now destruct data. Qed.

Lemma quiet_py_len (v : PyValue) : quiet (py_len v).
Proof. intros w. now destruct v. Qed.

Lemma quiet_subscript (str_index_message : pystr) (v : PyValue) (k : pystr) :
  quiet (subscript str_index_message v k).
Proof.
  intros w. destruct v; try reflexivity. apply quiet_item_subscript.
Qed.

Ltac prove_quiet_demo :=
  repeat first
    [ apply quiet_on_out | apply quiet_item_get | apply quiet_as_dict
    | apply quiet_item_subscript | apply quiet_ret | apply quiet_raise
    | apply quiet_first_of | apply quiet_py_len | apply quiet_subscript
    | apply quiet_bind; [|intros ?]
    | match goal with
      | |- quiet (if ?c then _ else _) => destruct c
      end ].

Section DemoFacts.
Variable net : Transport.
Variable repr_other : PyValue -> pystr.
Variable str_index_message : pystr.
Variable client : SimpleKodeposClient.

Lemma demo_total (m : Script unit) (w : World) :
  exists w', try_except m demo_handler w = (inr tt, w').
Proof.
  unfold try_except. destruct (m w) as [[e|[]] w1].
  - unfold demo_handler. rewrite on_out_print. eexists; reflexivity.
  - eexists; reflexivity.
Qed.

Lemma demo_requests (m : Script unit) (w : World) :
  requests (snd (try_except m demo_handler w)) = requests (snd (m w)).
Proof.
  unfold try_except. destruct (m w) as [[e|[]] w1]; [|reflexivity].
  unfold demo_handler. now rewrite on_out_print.
Qed.

Lemma demo_search_run (query description : pystr) (w : World) :
  (2 <= len (strip query))%Z ->
  exists w',
    demo_search net repr_other str_index_message client query description w
    = (inr tt, w')
    /\ requests w' = requests w ++ [search_request client query].
Proof.
  intros H. unfold demo_search.
  rewrite (bind_run _ _ _ (on_out_print _ _)).
  rewrite (bind_run _ _ _ (on_out_print _ _)).
  match goal with |- context [try_except ?m demo_handler ?w0] =>
    destruct (demo_total m w0) as (w' & E);
    pose proof (demo_requests m w0) as R
  end.
  exists w'. split; [exact E|]. rewrite E in R. cbn [snd] in R. rewrite R.
  clear E R.
  unfold bind at 1. rewrite on_net_run. cbn [stdout requests].
  rewrite (search_valid net client query (requests w) H).
  pose proof (get_json_log net client (base_url client ++ lit "/search")
                [(lit "q", VStr (strip query))] (requests w)) as L.
  fold (search_request client query) in L.
  destruct (get_json _ _ _ _ _) as [[e|results] log]; cbn [fst snd] in *.
  - exact L.
  - match goal with |- requests (snd (?k _)) = _ =>
      assert (Hk : quiet k) by prove_quiet_demo
    end.
    rewrite Hk. exact L.
Qed.

Lemma demo_searches_run (queries : list (pystr * pystr)) :
  Forall (fun q => (2 <= len (strip (fst q)))%Z) queries ->
  forall w : World,
  exists w',
    demo_searches net repr_other str_index_message client queries w
    = (inr tt, w')
    /\ requests w'
       = requests w ++ map (fun q => search_request client (fst q)) queries.
Proof.
  induction 1 as [|[query description] queries Hq _ IH]; intros w.
  - exists w. split; [reflexivity|]. cbn. now rewrite app_nil_r.
  - cbn [demo_searches].
    destruct (demo_search_run query description w Hq) as (w1 & E & R).
    rewrite (bind_run _ _ _ E).
    destruct (IH w1) as (w' & E' & R').
    exists w'. split; [exact E'|]. rewrite R', R, <- app_assoc. reflexivity.
Qed.

Lemma demo_detect_run (w : World) :
  exists w',
    demo_detect net repr_other str_index_message client w = (inr tt, w')
    /\ requests w'
       = requests w ++ [detect_request client demo_latitude demo_longitude].
Proof.
  unfold demo_detect.
  match goal with |- context [try_except ?m demo_handler ?w0] =>
    destruct (demo_total m w0) as (w' & E);
    pose proof (demo_requests m w0) as R
  end.
  exists w'. split; [exact E|]. rewrite E in R. cbn [snd] in R. rewrite R.
  clear E R.
  unfold bind at 1. rewrite on_net_run. cbn [stdout requests].
  pose proof (detect_location_log net client demo_latitude demo_longitude
                (requests w)) as L.
  assert (in_box demo_latitude demo_longitude = true) as B
    by (vm_compute; reflexivity).
  rewrite B in L.
  destruct (detect_location _ _ _ _ _) as [[e|results] log]; cbn [fst snd] in *.
  - exact L.
  - match goal with |- requests (snd (?k _)) = _ =>
      assert (Hk : quiet k) by (unfold found; prove_quiet_demo)
    end.
    rewrite Hk. exact L.
Qed.
End DemoFacts.

(** [quick_demo] never raises and always sends the same five requests,
    whatever the service answers: the four searches of its list, in
    order, then the detection of (-6.2088, 106.8456), which lies in the
    bounding box.  Each failure is caught where it happens, so the demo
    goes on, and its closing line is printed last. *)
Theorem quick_demo_run (net : Transport) (repr_other : PyValue -> pystr)
    (str_index_message : pystr) (w : World) :
  exists w',
    quick_demo net repr_other str_index_message w = (inr tt, w')
    /\ requests w'
       = requests w
         ++ [ search_request (init API_BASE_URL) (lit "Jakarta");
              search_request (init API_BASE_URL) (lit "Menteng");
              search_request (init API_BASE_URL) (lit "10110");
              search_request (init API_BASE_URL) (lit "DKI Jakarta");
              detect_request (init API_BASE_URL) demo_latitude demo_longitude ]
    /\ in_interval (-11) 6 demo_latitude
    /\ in_interval 95 141 demo_longitude
    /\ exists out, stdout w' = out ++ [DEMO_COMPLETE].
Proof.
  unfold quick_demo. cbv zeta.
  rewrite (bind_run _ _ _ (on_out_print _ _)).
  rewrite (bind_run _ _ _ (on_out_print _ _)).
  match goal with |- context [demo_searches _ _ _ ?c ?qs] =>
    match goal with |- context [bind (demo_searches _ _ _ c qs) _ ?w0] =>
      destruct (demo_searches_run net repr_other str_index_message c (queries := qs)
                  ltac:(repeat constructor; vm_compute; discriminate) w0)
        as (w1 & E1 & R1)
    end
  end.
  rewrite (bind_run _ _ _ E1).
  rewrite (bind_run _ _ _ (on_out_print _ _)).
  rewrite (bind_run _ _ _ (on_out_print _ _)).
  match goal with |- context [bind (demo_detect _ _ _ ?c) _ ?w0] =>
    destruct (demo_detect_run net repr_other str_index_message c w0)
      as (w2 & E2 & R2)
  end.
  rewrite (bind_run _ _ _ E2).
  rewrite (bind_run _ _ _ (on_out_print _ _)).
  rewrite on_out_print.
  eexists. split; [reflexivity|]. cbn [stdout requests] in *.
  split; [rewrite R2, R1, <- app_assoc; reflexivity|].
  split; [apply in_box_iff; vm_compute; reflexivity|].
  split; [apply in_box_iff; vm_compute; reflexivity|].
  eexists; reflexivity.
Qed.

(** * What a turn shows of a failure *)

Section TurnReports.
Variable net : Transport.
Variable repr_other : PyValue -> pystr.
Variable client : SimpleKodeposClient.

Lemma search_turn_raised (query : pystr) (w : World) (e : PyExc)
    (log : list Request) :
  search_postal_codes net client (VStr query) (requests w) = (inl e, log) ->
  search_turn net repr_other client query w
  = (inr tt,
     {| stdout :=
          stdout w
          ++ [(if issubclass (exc_class e) ValueError then
                 WARNING ++ lit "  Invalid input: "
               else if issubclass (exc_class e) RequestException then
                 CROSS ++ lit " Network error: "
               else CROSS ++ lit " Unexpected error: ") ++ exc_msg e];
        requests := log |}).
Proof.
  intros H. unfold search_turn, try_except.
  unfold bind at 1. rewrite on_net_run, H. cbn [fst snd].
  unfold turn_handler. now rewrite on_out_print.
Qed.

Lemma search_turn_get_json (line : pystr) (log : list Request) :
  (2 <= len (strip line))%Z ->
  search_postal_codes net client (VStr (strip line)) log
  = match net (search_request client line) with
    | Failure e =>
        match request_handlers e with
        | Some h => h (log ++ [search_request client line])
        | None => (inl e, log ++ [search_request client line])
        end
    | Reply r =>
        let code := status_code r in
        if ((400 <=? code) && (code <? 600))%Z then
          (inl (Exc RequestException (lit "HTTP error: " ++ of_Z code) None
                  (Some (Exc HTTPError
                           (of_Z code
                            ++ lit (if (code <? 500)%Z then " Client Error: "
                                    else " Server Error: ")
                            ++ reason r ++ lit " for url: " ++ url r)
                           (Some code) None))),
           log ++ [search_request client line])
        else
          (match json_body r with
           | inr v => inr v
           | inl m => inl (Exc JSONDecodeError m None None)
           end, log ++ [search_request client line])
    end.
Proof.
  intros H.
  assert (Hq : (2 <= len (strip (strip line)))%Z) by now rewrite strip_idem.
  rewrite (search_valid net client (strip line) log Hq), get_json_run.
  cbv zeta. rewrite strip_idem. reflexivity.
Qed.
End TurnReports.

(** The line a turn of [interactive_search] prints for each failure of a
    query: a timeout, a refused connection and an HTTP error status read
    as network errors with the client's message; a body that is not JSON
    reads as invalid input, because the [ValueError] clause comes first
    and takes the [JSONDecodeError]. *)
Theorem search_turn_failure_lines (net : Transport)
    (repr_other : PyValue -> pystr) (client : SimpleKodeposClient)
    (line : pystr) (w : World) :
  (2 <= len (strip line))%Z ->
  let req := search_request client line in
  let shows (text : pystr) :=
    search_turn net repr_other client (strip line) w
    = (inr tt, {| stdout := stdout w ++ [text];
                  requests := requests w ++ [req] |}) in
  (forall e, net req = Failure e ->
     issubclass (exc_class e) Timeout = true ->
     shows (CROSS ++ lit " Network error: Request timeout after 10 seconds"))
  /\ (forall e, net req = Failure e ->
        issubclass (exc_class e) Timeout = false ->
        issubclass (exc_class e) ConnectionError = true ->
        shows (CROSS ++ lit " Network error: Failed to connect to API"))
  /\ (forall r, net req = Reply r ->
        (400 <= status_code r < 600)%Z ->
        shows (CROSS ++ lit " Network error: HTTP error: "
                 ++ of_Z (status_code r)))
  /\ (forall r msg, net req = Reply r ->
        ~ (400 <= status_code r < 600)%Z ->
        json_body r = inl msg ->
        shows (WARNING ++ lit "  Invalid input: " ++ msg)).
Proof.
  intros H req shows. unfold shows, req. repeat split.
  - intros e Hn Ht.
    rewrite (search_turn_raised net repr_other client (strip line) w
               (e := Exc RequestException
                       (lit "Request timeout after 10 seconds") None (Some e))
               (log := requests w ++ [search_request client line])).
    + reflexivity.
    + rewrite (search_turn_get_json net client line (requests w) H), Hn.
      unfold request_handlers. now rewrite Ht.
  - intros e Hn Ht Hc.
    rewrite (search_turn_raised net repr_other client (strip line) w
               (e := Exc RequestException (lit "Failed to connect to API")
                       None (Some e))
               (log := requests w ++ [search_request client line])).
    + reflexivity.
    + rewrite (search_turn_get_json net client line (requests w) H), Hn.
      unfold request_handlers. now rewrite Ht, Hc.
  - intros r Hn Hs.
    erewrite search_turn_raised.
    2:{ rewrite (search_turn_get_json net client line (requests w) H), Hn.
        cbv zeta.
        assert (((400 <=? status_code r) && (status_code r <? 600))%Z%bool = true)
          as -> by lia.
        reflexivity. }
    cbn [exc_class exc_msg]. rewrite <- ?app_assoc. reflexivity.
  - intros r msg Hn Hs Hj.
    erewrite search_turn_raised.
    2:{ rewrite (search_turn_get_json net client line (requests w) H), Hn.
        cbv zeta.
        assert (((400 <=? status_code r) && (status_code r <? 600))%Z%bool = false)
          as -> by lia.
        rewrite Hj. reflexivity. }
    cbn [exc_class exc_msg]. rewrite <- ?app_assoc. reflexivity.
Qed.

Lemma search_turn_failure_lines_witness :
  search_turn Sample.net_timeout Sample.no_repr Sample.client (lit "Jakarta")
    SampleArgs.start
  = (inr tt,
     {| stdout := [CROSS ++ lit " Network error: Request timeout after 10 seconds"];
        requests := [search_request Sample.client (lit "Jakarta")] |}).
Proof.
  refine (proj1 (@search_turn_failure_lines Sample.net_timeout Sample.no_repr
                   Sample.client (lit "Jakarta") SampleArgs.start _)
            Sample.read_timeout eq_refl eq_refl).
  vm_compute. discriminate.
Defined.

(** What a turn of [interactive_location_detection] answers to input it
    refuses, none of which sends a request: the wrong number of commas
    gets the format message, text that [float] cannot parse gets
    [float]'s message, and coordinates outside the box get the bounds
    message of [detect_location] after the line announcing them.  (Run
    with arguments, the same coordinates only get the usage line.) *)
Theorem detection_turn_rejections (net : Transport)
    (repr_other : PyValue -> pystr) (float_of_str : pystr -> pystr + PyFloat.t)
    (client : SimpleKodeposClient) (input_str : pystr) (w : World) :
  let shows (texts : list pystr) :=
    detection_turn net repr_other float_of_str client input_str w
    = (inr tt, {| stdout := stdout w ++ texts; requests := requests w |}) in
  (List.length (split 0x2C%N input_str) <> 2%nat ->
   shows [WARNING ++ lit "  Invalid coordinates: Format should be: latitude,longitude"])
  /\ (forall a b msg,
        split 0x2C%N input_str = [a; b] ->
        float_of_str (strip a) = inl msg
        \/ (exists latitude, float_of_str (strip a) = inr latitude)
           /\ float_of_str (strip b) = inl msg ->
        shows [WARNING ++ lit "  Invalid coordinates: " ++ msg])
  /\ (forall a b latitude longitude,
        split 0x2C%N input_str = [a; b] ->
        float_of_str (strip a) = inr latitude ->
        float_of_str (strip b) = inr longitude ->
        ~ in_interval (-11) 6 latitude \/ ~ in_interval 95 141 longitude ->
        shows [NL ++ MAGNIFIER ++ lit " Detecting postal code for: "
                 ++ py_str repr_other (VFloat latitude) ++ lit ", "
                 ++ py_str repr_other (VFloat longitude);
               WARNING ++ lit "  Invalid coordinates: "
                 ++ (if (PyFloat.int_le (-11) latitude
                         && PyFloat.le_int latitude 6)%bool
                     then lit "Longitude must be between 95 and 141 degrees (Indonesian bounds)"
                     else lit "Latitude must be between -11 and 6 degrees (Indonesian bounds)")]).
Proof.
  intros shows. unfold shows, detection_turn, try_except. cbv zeta.
  repeat split.
  - intros Hn. apply Nat.eqb_neq in Hn. rewrite Hn. cbn [negb].
    unfold bind at 1. cbn [raise]. unfold turn_handler.
    rewrite on_out_print. reflexivity.
  - intros a b msg Hs Hf. rewrite Hs. cbn [List.length Nat.eqb negb nth].
    rewrite (bind_run _ _ w (s' := w) (a := tt) eq_refl). unfold float.
    destruct Hf as [Ha|[[latitude Ha] Hb]]; rewrite Ha.
    + unfold bind at 1. cbn [raise]. unfold turn_handler.
      rewrite on_out_print. cbn [exc_class exc_msg]. cbn [issubclass].
      now rewrite <- ?app_assoc.
    + rewrite (bind_run _ _ w (s' := w) (a := latitude) eq_refl). rewrite Hb.
      unfold bind at 1. cbn [raise]. unfold turn_handler.
      rewrite on_out_print. cbn [exc_class exc_msg].
      now rewrite <- ?app_assoc.
  - intros a b latitude longitude Hs Ha Hb Hbox.
    rewrite Hs. cbn [List.length Nat.eqb negb nth].
    rewrite (bind_run _ _ w (s' := w) (a := tt) eq_refl). unfold float.
    rewrite Ha, (bind_run _ _ w (s' := w) (a := latitude) eq_refl).
    rewrite Hb, (bind_run _ _ w (s' := w) (a := longitude) eq_refl).
    rewrite (bind_run _ _ _ (on_out_print _ _)).
    unfold bind at 1. rewrite on_net_run. cbn [stdout requests].
    unfold detect_location.
    destruct (PyFloat.int_le (-11) latitude && PyFloat.le_int latitude 6)%bool
      eqn:E1; cbn [negb].
    + assert (E2 : (PyFloat.int_le 95 longitude
                    && PyFloat.le_int longitude 141)%bool = false).
      { apply in_box_false. destruct Hbox as [Hl|Hl]; [|exact Hl].
        apply in_box_iff in E1. contradiction. }
      rewrite E2. cbn [negb raise fst snd]. unfold turn_handler.
      rewrite on_out_print. cbn [exc_class exc_msg stdout requests].
      now rewrite <- ?app_assoc.
    + cbn [raise fst snd]. unfold turn_handler.
      rewrite on_out_print. cbn [exc_class exc_msg stdout requests].
      now rewrite <- ?app_assoc.
Qed.

Lemma detection_turn_rejections_witness :
  detection_turn Sample.net_200 SampleArgs.repr SampleArgs.float_of_str
    Sample.client (lit "7.5, 106.75") SampleArgs.start
  = (inr tt,
     {| stdout :=
          [NL ++ MAGNIFIER ++ lit " Detecting postal code for: 7.5, 106.75";
           WARNING ++ lit "  Invalid coordinates: Latitude must be between -11 and 6 degrees (Indonesian bounds)"];
        requests := [] |}).
Proof.
  refine (proj2 (proj2 (@detection_turn_rejections Sample.net_200
                          SampleArgs.repr SampleArgs.float_of_str Sample.client
                          (lit "7.5, 106.75") SampleArgs.start))
            (lit "7.5") (lit " 106.75") Sample.lat_north Sample.lng
            eq_refl eq_refl eq_refl _).
  left. intros H. apply in_box_iff in H. vm_compute in H. discriminate H.
Defined.
